(** * Retrieval helpers of the Dimensions and OpenAlex skills

    A shallow embedding of [skills/dimensions/dimensions_helper.py] and
    [skills/openalex/openalex_helper.py]: the two pagination loops
    ([query_iterative], [fetch_all_with_cursor]), the search wrappers built on
    them, the dynamic field validation with its per-process cache, the
    per-column type cleaning done before a parquet export, and the generation
    of output file names; and of the tracking state of the progress tracker
    of [skills/logging-refiner/rich_logger.py] with the rows of its table of
    active operations.

    Python integers are [Z], Python strings are [string], a Python [dict] used
    as a map is a [gmap], a Python [set] is a [gset], and [None]-able values
    are [option]s.  A character is a code point below 256.  The remote
    services are oracles: functions from the number of requests already
    issued and the request to either a response or a raised exception. *)

From Stdlib Require Import ZArith Lia Ascii.
From stdpp Require Import base gmap list strings sorting pretty.
Open Scope Z_scope.
Set Warnings "-register-all,-notation-for-abbreviation".

(** ** Python values, exceptions and truthiness *)

(** JSON-like values as they come back from the services and sit in the cells
    of a data frame.  [VNaN] is the float [nan] pandas uses for a missing
    cell; [VFloat m e] is any other float, [m * 2^e]. *)
Inductive pyval : Type :=
  | VNone
  | VNaN
  | VBool (b : bool)
  | VInt (n : Z)
  | VFloat (m e : Z)
  | VStr (s : string)
  | VList (items : list pyval)
  | VDict (entries : list (string * pyval)).

Inductive exn : Type :=
  | ValueError (msg : string)
  | ZeroDivisionError
  | RequestException (msg : string)
  | OSError (msg : string).

Inductive PyResult (A : Type) : Type :=
  | Returns (a : A)
  | Raises (e : exn).
Arguments Returns {A} a.
Arguments Raises {A} e.

(** One pass through the body of a [while True] loop. *)
Inductive Step (S : Type) : Type :=
  | Break (s : S)
  | Continue (s : S).
Arguments Break {S} s.
Arguments Continue {S} s.

Definition len {A} (l : list A) : Z := Z.of_nat (length l).

(** [if max_results:] on an optional integer: [None] and [0] are falsy. *)
Definition truthy_int (m : option Z) : bool :=
  match m with
  | Some n => negb (n =? 0)
  | None => false
  end.

(** [if s:] / [not s] on an optional string: [None] and [''] are falsy. *)
Definition truthy_str (s : option string) : bool :=
  match s with
  | Some s => negb (String.eqb s "")
  | None => false
  end.

(** [xs[:n]] for a non-negative literal [n]. *)
Definition slice_to {A} (n : nat) (xs : list A) : list A := take n xs.

(** ** Python string methods *)
Module PyStr.

(** [needle in hay]. *)
Fixpoint contains (needle hay : string) : bool :=
  String.prefix needle hay ||
  match hay with
  | EmptyString => false
  | String _ rest => contains needle rest
  end.

(** [s.split(sep)] for a non-empty [sep]: [piece] holds, reversed, the
    characters of the piece being read, and [skip] counts the characters of a
    separator just matched that are still to be passed over. *)
Fixpoint split_from (sep : string) (skip : nat) (piece : string) (s : string)
    : list string :=
  match s with
  | EmptyString => [String.rev piece]
  | String c rest =>
      match skip with
      | S skip => split_from sep skip piece rest
      | O =>
          if String.prefix sep s
          then String.rev piece
               :: split_from sep (String.length sep - 1) EmptyString rest
          else split_from sep 0 (String c piece) rest
      end
  end.

Definition split (sep s : string) : list string :=
  split_from sep 0 EmptyString s.

(** [c.isspace()]. *)
Definition isspace (c : Ascii.ascii) : bool :=
  let n := Ascii.N_of_ascii c in
  ((9 <=? n) && (n <=? 13) || (28 <=? n) && (n <=? 32)
   || (n =? 133) || (n =? 160))%N.

Fixpoint lstrip_by (p : Ascii.ascii -> bool) (s : string) : string :=
  match s with
  | EmptyString => EmptyString
  | String c rest => if p c then lstrip_by p rest else s
  end.

Fixpoint rstrip_by (p : Ascii.ascii -> bool) (s : string) : string :=
  match s with
  | EmptyString => EmptyString
  | String c rest =>
      match rstrip_by p rest with
      | EmptyString => if p c then EmptyString else String c EmptyString
      | kept => String c kept
      end
  end.

(** [s.strip()] and [s.rstrip(chars)]. *)
Definition strip (s : string) : string :=
  rstrip_by isspace (lstrip_by isspace s).

Definition rstrip_chars (chars s : string) : string :=
  rstrip_by (fun c => contains (String c EmptyString) chars) s.

(** [sep.join(xs)] and [sorted(xs)] (strings compare by code point). *)
Definition join (sep : string) (xs : list string) : string :=
  String.concat sep xs.

Definition sorted (xs : list string) : list string :=
  merge_sort (fun a b => String.leb a b) xs.

(** [s[:n]], and the string made of [f c] for each [c] of [s]. *)
Fixpoint take_chars (n : nat) (s : string) : string :=
  match n, s with
  | S n, String c rest => String c (take_chars n rest)
  | _, _ => EmptyString
  end.

Fixpoint map_chars (f : Ascii.ascii -> Ascii.ascii) (s : string) : string :=
  match s with
  | EmptyString => EmptyString
  | String c rest => String (f c) (map_chars f rest)
  end.

Fixpoint filter_chars (p : Ascii.ascii -> bool) (s : string) : string :=
  match s with
  | EmptyString => EmptyString
  | String c rest =>
      if p c then String c (filter_chars p rest) else filter_chars p rest
  end.

(** [c.isalnum()] on the ASCII range. *)
Definition ascii_isalnum (c : Ascii.ascii) : bool :=
  let n := Ascii.N_of_ascii c in
  ((48 <=? n) && (n <=? 57) || (65 <=? n) && (n <=? 90)
   || (97 <=? n) && (n <=? 122))%N.

Definition newline : string := String (Ascii.ascii_of_nat 10) EmptyString.
Definition dquote : string := String (Ascii.ascii_of_nat 34) EmptyString.

End PyStr.

(** ** Code the two helpers have in common

    [generate_filename] and the first half of the loop body of
    [clean_for_parquet] (the counting of value types and the choice of the
    dominant one) are the same text in both files. *)
Module Common.

Section Naming.

(** [c.isalnum()] for one character. *)
Variable isalnum : Ascii.ascii -> bool.

(** [generate_filename(prefix, query_terms)]; [timestamp] is what
    [datetime.now().strftime("%Y%m%d_%H%M%S")] gives at the call. *)
Definition generate_filename (timestamp : string) (prefix : string)
    (query_terms : option string) : string :=
  if truthy_str query_terms then
    let clean_terms :=
      PyStr.map_chars (fun c => if isalnum c then c else "_"%char)
                      (PyStr.take_chars 30 (default "" query_terms)) in
    prefix +:+ "_" +:+ clean_terms +:+ "_" +:+ timestamp
  else prefix +:+ "_" +:+ timestamp.

(** The name as the specification words it: of the first 30 characters of
    the term only the alphanumeric ones are kept; without a term the middle
    part is left out. *)
Definition specified_basename (timestamp : string) (prefix : string)
    (query_terms : option string) : string :=
  match query_terms with
  | Some terms =>
      prefix +:+ "_"
        +:+ PyStr.filter_chars isalnum (PyStr.take_chars 30 terms)
        +:+ "_" +:+ timestamp
  | None => prefix +:+ "_" +:+ timestamp
  end.

End Naming.

(** A column of a data frame: whether its dtype is [object], and its cells. *)
Record Series := {
  dtype_is_object : bool;
  cells : list pyval
}.

(** [pd.isna] on a cell, the test behind [dropna]. *)
Definition isna (val : pyval) : bool :=
  match val with
  | VNone | VNaN => true
  | _ => false
  end.

Definition dropna (vals : list pyval) : list pyval :=
  List.filter (fun val => negb (isna val)) vals.

(** [type_counts[key] += 1] on a dictionary kept in insertion order. *)
Fixpoint increment (key : string) (counts : list (string * Z))
    : list (string * Z) :=
  match counts with
  | [] => []
  | (k, n) :: rest =>
      if String.eqb k key then (k, n + 1) :: rest
      else (k, n) :: increment key rest
  end.

(** [type_counts[key]]. *)
Fixpoint count_of (key : string) (counts : list (string * Z)) : Z :=
  match counts with
  | [] => 0
  | (k, n) :: rest => if String.eqb k key then n else count_of key rest
  end.

(** The body of [for val in non_null]. *)
Definition count_value (type_counts : list (string * Z)) (val : pyval)
    : list (string * Z) :=
  match val with
  | VList (_ :: _) => increment "list" type_counts
  | VList [] => type_counts
  | VDict (_ :: _) => increment "dict" type_counts
  | VDict [] => type_counts
  | VStr s =>
      if String.eqb s "" then type_counts
      else increment "primitive" type_counts
  | _ => increment "primitive" type_counts
  end.

Definition count_types (non_null : list pyval) : list (string * Z) :=
  foldl count_value [("list", 0); ("dict", 0); ("primitive", 0)] non_null.

(** [max(type_counts, key=type_counts.get)]: the keys are visited in
    insertion order and a later key replaces the current one only when its
    count is strictly greater. *)
Fixpoint max_from (best : string * Z) (rest : list (string * Z)) : string :=
  match rest with
  | [] => best.1
  | (k, n) :: rest =>
      if n >? best.2 then max_from (k, n) rest else max_from best rest
  end.

Definition max_key (counts : list (string * Z)) : string :=
  match counts with
  | [] => ""
  | first :: rest => max_from first rest
  end.

Definition dominant_type_of (type_counts : list (string * Z)) : string :=
  let dominant_type := max_key type_counts in
  if count_of dominant_type type_counts =? 0 then "primitive"
  else dominant_type.

(** The three shapes the counting loop tells apart, and the number of
    values of a shape. *)
Definition is_list_shape (val : pyval) : bool :=
  match val with
  | VList (_ :: _) => true
  | _ => false
  end.

Definition is_dict_shape (val : pyval) : bool :=
  match val with
  | VDict (_ :: _) => true
  | _ => false
  end.

Definition is_primitive_shape (val : pyval) : bool :=
  match val with
  | VList _ | VDict _ => false
  | VStr s => negb (String.eqb s "")
  | _ => true
  end.

Definition count_shape (shape : pyval -> bool) (vals : list pyval) : Z :=
  len (List.filter shape vals).

(** An empty string occurs in a value, at any depth. *)
Fixpoint has_empty_string (val : pyval) : bool :=
  match val with
  | VStr s => String.eqb s ""
  | VList items => existsb has_empty_string items
  | VDict entries =>
      existsb (fun kv => match kv with
                         | (_, v) => has_empty_string v
                         end) entries
  | _ => false
  end.

(** The shape a dominant type stands for: the test under which the
    counting loop counts a value for it. *)
Definition shape_of (dominant : string) : pyval -> bool :=
  if String.eqb dominant "list" then is_list_shape
  else if String.eqb dominant "dict" then is_dict_shape
  else is_primitive_shape.

(** The dominant type as the specification words it: the shape whose count
    is strictly the greatest, and the scalar shape on a tie. *)
Definition specified_dominant_type (lists dicts primitives : Z) : string :=
  if (lists >? dicts) && (lists >? primitives) then "list"
  else if (dicts >? lists) && (dicts >? primitives) then "dict"
  else "primitive".

End Common.

(** What [save_results] returns: the two paths of a dual save, or one path. *)
Inductive Saved : Type :=
  | SavedDual (parquet jsonl : string)
  | SavedPath (path : string).

(** [pd.DataFrame(records).empty] for a list of record dictionaries: no row,
    or no column because no record has a key. *)
Definition frame_empty (records : list pyval) : bool :=
  forallb (fun r => match r with VDict [] => true | _ => false end) records.

(** ** OpenAlex *)
Module OpenAlex.

Section Helper.

(** [EMAIL], read from the environment when the module is loaded. *)
Variable EMAIL : string.

(** The order in which Python iterates over a set of strings. *)
Variable set_iter : gset string -> list string.

(** *** Field validation *)

(** [_valid_fields_cache]: per kind, entity type -> set of valid fields. *)
Record FieldsCache := {
  group_by : gmap string (gset string);
  select : gmap string (gset string)
}.

(** The module state that outlives a call: the cache and, oldest first, the
    probe requests sent so far. *)
Record World := {
  _valid_fields_cache : FieldsCache;
  probes : list (string * gmap string pyval)
}.

(** What a probe request gives back: the status code and, when the body
    decodes as a JSON object, its [message] ([''] when it has none);
    [None] is a body [response.json()] cannot decode. *)
Record ProbeResponse := {
  status_code : Z;
  message : option string
}.

(** The service as seen by [requests.get(url, params=params, timeout=30)]:
    the number of probes sent before, the entity type in the URL and the
    parameters. *)
Definition Probe := nat -> string -> gmap string pyval -> PyResult ProbeResponse.

(** The loop that fills [valid_fields] from the comma-separated names. *)
Definition collect_fields (fields_str : string) : gset string :=
  foldl (fun valid_fields field =>
           let field := PyStr.strip field in
           if String.eqb field "" then valid_fields
           else valid_fields ∪ {[field]})
        ∅ (PyStr.split ", " fields_str).

(** The part of both fetchers that reads the error message; [None] stands
    for leaving the [try] block without a set (no marker in the message, or
    an [IndexError] on [split(...)[1]]). *)
Definition fields_of_message (marker splitter message : string)
    : option (gset string) :=
  if PyStr.contains marker message then
    match PyStr.split splitter message !! 1%nat with
    | Some fields_part =>
        let fields_str := PyStr.rstrip_chars "." (PyStr.strip fields_part) in
        Some (collect_fields fields_str)
    | None => None
    end
  else None.

Definition probe_params (key value : string) : gmap string pyval :=
  <["mailto" := VStr EMAIL]>
    (<["per_page" := VInt 1]> (<[key := VStr value]> ∅)).

(** The [try] block shared by the two fetchers, after the cache lookup
    missed: the set to cache and return, or [None] when the function falls
    through to [return set()] without touching the cache. *)
Definition probe_fields (probe : Probe) (issued : nat) (entity_type : string)
    (params : gmap string pyval) (marker splitter : string)
    : option (gset string) :=
  match probe issued entity_type params with
  | Raises _ => None
  | Returns response =>
      if status_code response =? 400 then
        match message response with
        | Some message => fields_of_message marker splitter message
        | None => None
        end
      else None
  end.

Definition _fetch_valid_group_by_fields (probe : Probe) (w : World)
    (entity_type : string) : gset string * World :=
  match group_by (_valid_fields_cache w) !! entity_type with
  | Some valid_fields => (valid_fields, w)
  | None =>
      let params :=
        probe_params "group_by" "__invalid_field_to_get_valid_list__" in
      let probes' := probes w ++ [(entity_type, params)] in
      match probe_fields probe (length (probes w)) entity_type params
              "Valid fields are" "Valid fields are" with
      | Some valid_fields =>
          (valid_fields,
           {| _valid_fields_cache :=
                {| group_by :=
                     <[entity_type := valid_fields]>
                       (group_by (_valid_fields_cache w));
                   select := select (_valid_fields_cache w) |};
              probes := probes' |})
      | None =>
          (∅, {| _valid_fields_cache := _valid_fields_cache w;
                 probes := probes' |})
      end
  end.

Definition _fetch_valid_select_fields (probe : Probe) (w : World)
    (entity_type : string) : gset string * World :=
  match select (_valid_fields_cache w) !! entity_type with
  | Some valid_fields => (valid_fields, w)
  | None =>
      let params := probe_params "select" "__invalid_field__" in
      let probes' := probes w ++ [(entity_type, params)] in
      match probe_fields probe (length (probes w)) entity_type params
              "Valid fields for select are" "Valid fields for select are:" with
      | Some valid_fields =>
          (valid_fields,
           {| _valid_fields_cache :=
                {| group_by := group_by (_valid_fields_cache w);
                   select :=
                     <[entity_type := valid_fields]>
                       (select (_valid_fields_cache w)) |};
              probes := probes' |})
      | None =>
          (∅, {| _valid_fields_cache := _valid_fields_cache w;
                 probes := probes' |})
      end
  end.

(** [[f for f in valid_fields if field_base in f][:5]]. *)
Definition suggestions_for (field_base : string) (valid_fields : gset string)
    : list string :=
  slice_to 5 (List.filter (PyStr.contains field_base) (set_iter valid_fields)).

Definition group_by_error (entity_type group_field : string)
    (suggestions : list string) : string :=
  ("Invalid group_by field '" +:+ group_field +:+ "' for " +:+ entity_type
     +:+ "." +:+ PyStr.newline)
  +:+ (match suggestions with
       | [] => ""
       | _ :: _ => "Similar valid fields: " +:+ PyStr.join ", " suggestions
                   +:+ PyStr.newline
       end)
  +:+ "See https://docs.openalex.org/how-to-use-the-api/get-groups-of-entities for all valid fields.".

Definition validate_group_by_field (probe : Probe) (w : World)
    (entity_type group_field : string) : PyResult unit * World :=
  let '(valid_fields, w) := _fetch_valid_group_by_fields probe w entity_type in
  if bool_decide (valid_fields = ∅) then (Returns (), w)
  else if bool_decide (group_field ∈ valid_fields) then (Returns (), w)
  else
    let field_base := default "" (PyStr.split "." group_field !! 0%nat) in
    let suggestions := suggestions_for field_base valid_fields in
    (Raises (ValueError (group_by_error entity_type group_field suggestions)), w).

Definition select_error (entity_type : string) (invalid_fields : list string)
    (valid_fields : gset string) : string :=
  ("Invalid select field(s) for " +:+ entity_type +:+ ": "
     +:+ PyStr.join ", " invalid_fields +:+ PyStr.newline)
  +:+ ("Valid fields: "
     +:+ PyStr.join ", " (slice_to 20 (PyStr.sorted (set_iter valid_fields)))
     +:+ "..." +:+ PyStr.newline)
  +:+ "Tip: Complex nested objects like 'grants' cannot be selected. Fetch full records instead.".

Definition validate_select_fields (probe : Probe) (w : World)
    (entity_type : string) (select_str : option string)
    : PyResult unit * World :=
  if negb (truthy_str select_str) then (Returns (), w)
  else
    let '(valid_fields, w) := _fetch_valid_select_fields probe w entity_type in
    if bool_decide (valid_fields = ∅) then (Returns (), w)
    else
      let fields := PyStr.strip <$> PyStr.split "," (default "" select_str) in
      let invalid_fields :=
        List.filter (fun field => negb (String.eqb field "")
                                  && negb (bool_decide (field ∈ valid_fields)))
                    fields in
      match invalid_fields with
      | [] => (Returns (), w)
      | _ :: _ =>
          (Raises (ValueError
                     (select_error entity_type invalid_fields valid_fields)), w)
      end.

(** *** Cleaning for parquet *)

(** [clean_value], the closure [make_cleaner(dominant)] returns. *)
Definition clean_value (dominant : string) (val : pyval) : pyval :=
  match val with
  | VNone => VNone
  | _ =>
      if String.eqb dominant "list" then
        match val with
        | VList (_ :: _) => val
        | _ => VNone
        end
      else if String.eqb dominant "dict" then
        match val with
        | VDict (_ :: _) => val
        | _ => VNone
        end
      else
        match val with
        | VList _ | VDict _ => VNone
        | VStr s => if String.eqb s "" then VNone else val
        | _ => val
        end
  end.

(** The body of [for col in df_clean.columns]. *)
Definition clean_column (col : Common.Series) : list pyval :=
  if negb (Common.dtype_is_object col) then Common.cells col
  else
    let non_null := Common.dropna (Common.cells col) in
    match non_null with
    | [] => Common.cells col
    | _ :: _ =>
        let dominant_type :=
          Common.dominant_type_of (Common.count_types non_null) in
        clean_value dominant_type <$> Common.cells col
    end.

(** The cleaned frame, column by column (the dtype pandas infers for a
    rewritten column is not modelled). *)
Definition clean_for_parquet (df : list (string * Common.Series))
    : list (string * list pyval) :=
  (fun '(name, col) => (name, clean_column col)) <$> df.

(** *** Cursor pagination *)

(** The decoded JSON body of a list response: [response.get('results', [])],
    and from [response.get('meta', {})] the integer [count] (0 when the key is
    missing) and [next_cursor] ([None] when missing or null). *)
Record ApiResponse := {
  results : list pyval;
  meta_count : Z;
  meta_next_cursor : option string
}.

(** The service behind [requests.get(url, params=params, timeout=60)]: given
    how many requests the operation issued before, the endpoint and the query
    parameters, it answers or the request raises ([raise_for_status], a
    timeout, an undecodable body). *)
Definition Service := nat -> string -> gmap string pyval -> PyResult ApiResponse.

(** [api_request(endpoint, params)]: adds [mailto] to the dictionary it was
    handed (the caller sees the mutation) and performs the request.  The
    pause enforced by [rate_limit] has no effect on the values computed. *)
Definition api_request (srv : Service) (issued : nat) (endpoint : string)
    (params : gmap string pyval) : PyResult ApiResponse * gmap string pyval :=
  let params := <["mailto" := VStr EMAIL]> params in
  (srv issued endpoint params, params).

(** The local variables of [fetch_all_with_cursor], and the requests sent so
    far (oldest first). *)
Record CursorState := {
  all_results : list pyval;
  params : gmap string pyval;
  total_count : option Z;
  sent : list (gmap string pyval)
}.

(** The body of the [while True] loop of [fetch_all_with_cursor]. *)
Definition cursor_iteration (srv : Service) (endpoint : string)
    (max_results : option Z) (st : CursorState) : Step CursorState :=
  let '(response, params) :=
    api_request srv (length (sent st)) endpoint (params st) in
  let sent := sent st ++ [params] in
  match response with
  | Raises _ =>
      Break {| all_results := all_results st; params := params;
               total_count := total_count st; sent := sent |}
  | Returns response =>
      let total_count :=
        match total_count st with
        | None =>
            if truthy_int max_results
            then Z.min (meta_count response) (default 0 max_results)
            else meta_count response
        | Some total_count => total_count
        end in
      match results response with
      | [] =>
          Break {| all_results := all_results st; params := params;
                   total_count := Some total_count; sent := sent |}
      | _ :: _ =>
          let all_results := all_results st ++ results response in
          if len all_results >=? total_count then
            Break {| all_results := all_results; params := params;
                     total_count := Some total_count; sent := sent |}
          else if truthy_str (meta_next_cursor response) then
            Continue
              {| all_results := all_results;
                 params :=
                   <["cursor" := VStr (default "" (meta_next_cursor response))]>
                     params;
                 total_count := Some total_count; sent := sent |}
          else
            Break {| all_results := all_results; params := params;
                     total_count := Some total_count; sent := sent |}
      end
  end.

(** [while True]: [fuel] bounds the number of passes; [None] is "still
    running when the fuel ran out". *)
Fixpoint cursor_loop (fuel : nat) (srv : Service) (endpoint : string)
    (max_results : option Z) (st : CursorState) : option CursorState :=
  match fuel with
  | O => None
  | S fuel =>
      match cursor_iteration srv endpoint max_results st with
      | Break st => Some st
      | Continue st => cursor_loop fuel srv endpoint max_results st
      end
  end.

Definition cursor_init (params : gmap string pyval) : CursorState :=
  {| all_results := [];
     params := <["per_page" := VInt 200]> (<["cursor" := VStr "*"]> params);
     total_count := None;
     sent := [] |}.

(** The dictionary [fetch_all_with_cursor] returns. *)
Record FetchAll := {
  total : option Z;
  retrieved : Z;
  data : list pyval
}.

Definition fetch_result (st : CursorState) : FetchAll :=
  {| total := total_count st;
     retrieved := len (all_results st);
     data := all_results st |}.

Definition fetch_all_with_cursor (fuel : nat) (srv : Service)
    (endpoint : string) (params : gmap string pyval)
    (max_results : option Z) : option FetchAll :=
  fetch_result <$> cursor_loop fuel srv endpoint max_results (cursor_init params).

(** [cursor_run srv endpoint max_results st rs st']: from [st] the loop makes
    one pass for each response of [rs], in order, each fetched without error
    and none ending the loop, and is then in [st']. *)
Inductive cursor_run (srv : Service) (endpoint : string)
    (max_results : option Z)
    : CursorState -> list ApiResponse -> CursorState -> Prop :=
  | cursor_run_nil st : cursor_run srv endpoint max_results st [] st
  | cursor_run_cons st response st' rs st'' :
      (api_request srv (length (sent st)) endpoint (params st)).1
        = Returns response ->
      cursor_iteration srv endpoint max_results st = Continue st' ->
      cursor_run srv endpoint max_results st' rs st'' ->
      cursor_run srv endpoint max_results st (response :: rs) st''.

(** A request of a cursor pagination over the caller's [params0]: it asks
    for 200 results a page, carries the e-mail address and a cursor, and
    leaves every other parameter of the caller as it was. *)
Definition cursor_request (params0 request : gmap string pyval) : Prop :=
  request !! "per_page" = Some (VInt 200)
  /\ request !! "mailto" = Some (VStr EMAIL)
  /\ (exists cursor, request !! "cursor" = Some (VStr cursor))
  /\ forall key, key <> "cursor" -> key <> "per_page" -> key <> "mailto" ->
                 request !! key = params0 !! key.

(** What holds of the local variables each time the loop body is entered,
    as far as the requests are concerned. *)
Definition cursor_ready (params0 : gmap string pyval) (st : CursorState)
    : Prop :=
  params st !! "per_page" = Some (VInt 200)
  /\ (exists cursor, params st !! "cursor" = Some (VStr cursor))
  /\ (forall key, key <> "cursor" -> key <> "per_page" -> key <> "mailto" ->
                  params st !! key = params0 !! key)
  /\ Forall (cursor_request params0) (sent st).

(** *** Searching works *)

(** [save_results(df, prefix, query_terms, raw_data=...)] in the default
    format, for the frame built from [raw_data]: the files it writes are not
    modelled, only the paths it returns or the exception a failed write
    raises. *)
Variable save_results : string -> option string -> list pyval -> PyResult Saved.

(** The dictionary [search_works] returns. *)
Record SearchWorks := {
  sw_total : option Z;
  sw_returned : Z;
  sw_saved_to : option Saved;
  sw_works : list pyval;
  sw_query_params : gmap string pyval
}.

(** [params[key] = value] under [if value:]. *)
Definition set_if (key : string) (value : option string)
    (params : gmap string pyval) : gmap string pyval :=
  if truthy_str value then <[key := VStr (default "" value)]> params
  else params.

(** The query parameters [search_works] builds from its arguments. *)
Definition works_params (query filters search_field sort select : option string)
    : gmap string pyval :=
  let q := default "" query in
  let params :=
    if truthy_str query then
      if truthy_str search_field then
        if truthy_str filters then
          <["filter" := VStr (default "" search_field +:+ ".search:" +:+ q
                               +:+ "," +:+ default "" filters)]> ∅
        else
          <["filter" := VStr (default "" search_field +:+ ".search:" +:+ q)]> ∅
      else set_if "filter" filters (<["search" := VStr q]> ∅)
    else set_if "filter" filters ∅ in
  set_if "select" select (set_if "sort" sort params).

Definition search_works (fuel : nat) (probe : Probe) (srv : Service)
    (w : World) (query filters search_field : option string) (limit page : Z)
    (sort select : option string) (max_results : option Z) (save : bool)
    : option (PyResult SearchWorks * World) :=
  let '(validated, w) :=
    if truthy_str select then validate_select_fields probe w "works" select
    else (Returns (), w) in
  match validated with
  | Raises e => Some (Raises e, w)
  | Returns _ =>
      let params := works_params query filters search_field sort select in
      if truthy_int max_results && (default 0 max_results >? 200) then
        match fetch_all_with_cursor fuel srv "works" params max_results with
        | None => None
        | Some result =>
            let saved :=
              if save && negb (frame_empty (data result))
              then match save_results "works" query (data result) with
                   | Returns saved_path => Returns (Some saved_path)
                   | Raises e => Raises e
                   end
              else Returns None in
            match saved with
            | Raises e => Some (Raises e, w)
            | Returns saved_path =>
                Some (Returns {| sw_total := total result;
                                 sw_returned := retrieved result;
                                 sw_saved_to := saved_path;
                                 sw_works := slice_to 20 (data result);
                                 sw_query_params := params |}, w)
            end
        end
      else
        let params :=
          <["per_page" := VInt (Z.min limit 200)]> (<["page" := VInt page]> params) in
        let '(response, params) := api_request srv 0 "works" params in
        match response with
        | Raises e => Some (Raises e, w)
        | Returns response =>
            let works := results response in
            let saved :=
              match works with
              | _ :: _ =>
                  if save
                  then match save_results "works" query works with
                       | Returns saved_path => Returns (Some saved_path)
                       | Raises e => Raises e
                       end
                  else Returns None
              | [] => Returns None
              end in
            match saved with
            | Raises e => Some (Raises e, w)
            | Returns saved_path =>
                Some (Returns {| sw_total := Some (meta_count response);
                                 sw_returned := len works;
                                 sw_saved_to := saved_path;
                                 sw_works := works;
                                 sw_query_params := params |}, w)
            end
        end
  end.

(** *** Searching the other entity types *)

(** The dictionary [search_authors], [search_institutions], [search_sources]
    and [search_funders] return; [se_entities] is the list under the key
    named after the entity type (['authors'], ['institutions'], ...). *)
Record SearchEntities := {
  se_total : option Z;
  se_returned : Z;
  se_saved_to : option Saved;
  se_entities : list pyval;
  se_query_params : gmap string pyval
}.

(** The query parameters the four functions build from their arguments. *)
Definition display_name_params (query filters sort select : option string)
    : gmap string pyval :=
  let params :=
    if truthy_str query then
      if truthy_str filters then
        <["filter" := VStr ("display_name.search:" +:+ default "" query
                             +:+ "," +:+ default "" filters)]> ∅
      else
        <["filter" := VStr ("display_name.search:" +:+ default "" query)]> ∅
    else set_if "filter" filters ∅ in
  set_if "select" select (set_if "sort" sort params).

(** The body the four functions share.  They differ in the entity type
    only, which names the endpoint, the fields [select] is checked against,
    the prefix of the saved files and the key of the list returned. *)
Definition search_by_display_name (entity : string) (fuel : nat)
    (probe : Probe) (srv : Service) (w : World)
    (query filters : option string) (limit page : Z)
    (sort select : option string) (max_results : option Z) (save : bool)
    : option (PyResult SearchEntities * World) :=
  let '(validated, w) :=
    if truthy_str select then validate_select_fields probe w entity select
    else (Returns (), w) in
  match validated with
  | Raises e => Some (Raises e, w)
  | Returns _ =>
      let params := display_name_params query filters sort select in
      if truthy_int max_results && (default 0 max_results >? 200) then
        match fetch_all_with_cursor fuel srv entity params max_results with
        | None => None
        | Some result =>
            let saved :=
              if save && negb (frame_empty (data result))
              then match save_results entity query (data result) with
                   | Returns saved_path => Returns (Some saved_path)
                   | Raises e => Raises e
                   end
              else Returns None in
            match saved with
            | Raises e => Some (Raises e, w)
            | Returns saved_path =>
                Some (Returns {| se_total := total result;
                                 se_returned := retrieved result;
                                 se_saved_to := saved_path;
                                 se_entities := slice_to 20 (data result);
                                 se_query_params := params |}, w)
            end
        end
      else
        let params :=
          <["per_page" := VInt (Z.min limit 200)]> (<["page" := VInt page]> params) in
        let '(response, params) := api_request srv 0 entity params in
        match response with
        | Raises e => Some (Raises e, w)
        | Returns response =>
            let entities := results response in
            let saved :=
              match entities with
              | _ :: _ =>
                  if save
                  then match save_results entity query entities with
                       | Returns saved_path => Returns (Some saved_path)
                       | Raises e => Raises e
                       end
                  else Returns None
              | [] => Returns None
              end in
            match saved with
            | Raises e => Some (Raises e, w)
            | Returns saved_path =>
                Some (Returns {| se_total := Some (meta_count response);
                                 se_returned := len entities;
                                 se_saved_to := saved_path;
                                 se_entities := entities;
                                 se_query_params := params |}, w)
            end
        end
  end.

Definition search_authors := search_by_display_name "authors".

Definition search_institutions := search_by_display_name "institutions".

Definition search_sources := search_by_display_name "sources".

Definition search_funders := search_by_display_name "funders".

End Helper.

End OpenAlex.

(** ** Dimensions *)
Module Dimensions.

Section Helper.

(** The order in which Python iterates over a set of strings. *)
Variable set_iter : gset string -> list string.

(** *** Field validation *)

(** [_valid_fields_cache]: per kind, source -> set of valid fields. *)
Record FieldsCache := {
  facets : gmap string (gset string);
  filters : gmap string (gset string);
  metrics : gmap string (gset string)
}.

(** The module state that outlives a call: the cache and, oldest first, the
    [describe] queries sent so far. *)
Record World := {
  _valid_fields_cache : FieldsCache;
  described : list string
}.

(** One entry of [result.json['fields']] that is a dictionary, read through
    the truth values of [field_info.get('is_facet')] and
    [field_info.get('is_filter')]. *)
Record FieldInfo := {
  is_facet : bool;
  is_filter : bool
}.

(** One entry of [result.json['metrics']]: a dictionary (with its [name], if
    any), a string, or something else. *)
Inductive Metric : Type :=
  | MetricDict (name : option string)
  | MetricStr (name : string)
  | MetricOther.

(** [result.json] of a [describe source] query: its [fields] ([None] beside
    a name is an entry that is not a dictionary) and its [metrics]; both are
    empty when the key is missing. *)
Record DescribeResponse := {
  fields_data : list (string * option FieldInfo);
  metrics_data : list Metric
}.

(** [_get_client().query(dsl)] for a [describe] query, given how many were
    sent before. *)
Definition Describe := nat -> string -> PyResult DescribeResponse.

Definition facets_of (fields_data : list (string * option FieldInfo))
    : gset string :=
  foldl (fun facets '(field_name, field_info) =>
           match field_info with
           | Some info => if is_facet info then facets ∪ {[field_name]} else facets
           | None => facets
           end) ∅ fields_data.

Definition filters_of (fields_data : list (string * option FieldInfo))
    : gset string :=
  foldl (fun filters '(field_name, field_info) =>
           match field_info with
           | Some info => if is_filter info then filters ∪ {[field_name]} else filters
           | None => filters
           end) ∅ fields_data.

Definition metrics_of (metrics_data : list Metric) : gset string :=
  foldl (fun metrics metric =>
           match metric with
           | MetricDict metric_name =>
               if truthy_str metric_name
               then metrics ∪ {[default "" metric_name]} else metrics
           | MetricStr metric => metrics ∪ {[metric]}
           | MetricOther => metrics
           end) ∅ metrics_data.

Definition _fetch_source_metadata (describe : Describe) (w : World)
    (source : string) : World :=
  match facets (_valid_fields_cache w) !! source with
  | Some _ => w
  | None =>
      let dsl := "describe source " +:+ source in
      let described' := described w ++ [dsl] in
      match describe (length (described w)) dsl with
      | Returns result =>
          let cache := _valid_fields_cache w in
          {| _valid_fields_cache :=
               {| facets := <[source := facets_of (fields_data result)]> (facets cache);
                  filters := <[source := filters_of (fields_data result)]> (filters cache);
                  metrics := <[source := metrics_of (metrics_data result)]> (metrics cache) |};
             described := described' |}
      | Raises _ =>
          {| _valid_fields_cache := _valid_fields_cache w;
             described := described' |}
      end
  end.

(** [[f for f in valid_facets if facet.split('_')[0] in f][:5]]. *)
Definition suggestions_for (facet : string) (valid_facets : gset string)
    : list string :=
  slice_to 5
    (List.filter (PyStr.contains (default "" (PyStr.split "_" facet !! 0%nat)))
                 (set_iter valid_facets)).

Definition facet_error (source facet : string) (suggestions : list string)
    (valid_facets : gset string) : string :=
  ("Invalid facet '" +:+ facet +:+ "' for " +:+ source +:+ "."
     +:+ PyStr.newline)
  +:+ (match suggestions with
       | [] => ""
       | _ :: _ => "Similar valid facets: " +:+ PyStr.join ", " suggestions
                   +:+ PyStr.newline
       end)
  +:+ ("Valid facets: "
     +:+ PyStr.join ", " (slice_to 15 (PyStr.sorted (set_iter valid_facets)))
     +:+ "..." +:+ PyStr.newline)
  +:+ ("Use 'describe " +:+ source +:+ "' to see all available facets.").

Definition validate_facet (describe : Describe) (w : World)
    (source facet : string) : PyResult unit * World :=
  let w := _fetch_source_metadata describe w source in
  let valid_facets := default ∅ (facets (_valid_fields_cache w) !! source) in
  if bool_decide (valid_facets = ∅) then (Returns (), w)
  else if bool_decide (facet ∈ valid_facets) then (Returns (), w)
  else
    let suggestions := suggestions_for facet valid_facets in
    (Raises (ValueError (facet_error source facet suggestions valid_facets)), w).

(** *** Cleaning for parquet *)

Fixpoint clean_nested_for_parquet (obj : pyval) : pyval :=
  match obj with
  | VNone => VNone
  | VStr s => if String.eqb s "" then VNone else obj
  | VDict entries =>
      VDict (map (fun kv => match kv with
                            | (k, v) => (k, clean_nested_for_parquet v)
                            end) entries)
  | VList items => VList (map clean_nested_for_parquet items)
  | _ => obj
  end.

(** [clean_value], the closure [make_cleaner(dominant)] returns. *)
Definition clean_value (dominant : string) (val : pyval) : pyval :=
  match val with
  | VNone => VNone
  | _ =>
      if String.eqb dominant "list" then
        match val with
        | VList (_ :: _) => clean_nested_for_parquet val
        | _ => VNone
        end
      else if String.eqb dominant "dict" then
        match val with
        | VDict (_ :: _) => clean_nested_for_parquet val
        | _ => VNone
        end
      else
        match val with
        | VList _ | VDict _ => VNone
        | VStr s => if String.eqb s "" then VNone else val
        | _ => val
        end
  end.

(** The body of [for col in df_clean.columns]. *)
Definition clean_column (col : Common.Series) : list pyval :=
  if negb (Common.dtype_is_object col) then Common.cells col
  else
    let non_null := Common.dropna (Common.cells col) in
    match non_null with
    | [] => Common.cells col
    | _ :: _ =>
        let dominant_type :=
          Common.dominant_type_of (Common.count_types non_null) in
        clean_value dominant_type <$> Common.cells col
    end.

(** The cleaned frame, column by column (the dtype pandas infers for a
    rewritten column is not modelled). *)
Definition clean_for_parquet (df : list (string * Common.Series))
    : list (string * list pyval) :=
  (fun '(name, col) => (name, clean_column col)) <$> df.

(** *** Offset pagination *)

(** What a search query gives back: [result.count_total], and the records
    found under the source name the query returns ([getattr(result,
    source_name, [])], else [result.json.get(source_name, [])]). *)
Record QueryResponse := {
  count_total : option Z;
  batch_data : list pyval
}.

(** [_get_client().query(text)], given how many queries the operation sent
    before: the response, or the exception the call raises. *)
Definition Client := nat -> string -> PyResult QueryResponse.

(** The query with surrounding blanks and any [limit n] / [skip n] clause
    removed (the regular-expression substitution at the top of
    [query_iterative]). *)
Variable base_query_of : string -> string.

(** The local variables of [query_iterative] the loop works on, the queries
    sent so far and the [(page, total_pages, records)] reported to
    [output.api_call], both oldest first. *)
Record OffsetState := {
  all_results : list pyval;
  skip : Z;
  total_count : option Z;
  total_pages : option Z;
  page_num : Z;
  sent : list string;
  api_calls : list (Z * Z * Z)
}.

(** The body of the [while True] loop of [query_iterative].  An exception
    raised anywhere in the [try] block ends the loop: the query itself, or
    the division by a zero [batch_size] when [total_pages] is computed. *)
Definition offset_iteration (client : Client) (base_query : string)
    (max_results : option Z) (batch_size : Z) (st : OffsetState)
    : Step OffsetState :=
  let page_num := page_num st + 1 in
  let paginated_query :=
    base_query +:+ " limit " +:+ pretty batch_size
               +:+ " skip " +:+ pretty (skip st) in
  let sent' := sent st ++ [paginated_query] in
  match client (length (sent st)) paginated_query with
  | Raises _ =>
      Break {| all_results := all_results st; skip := skip st;
               total_count := total_count st; total_pages := total_pages st;
               page_num := page_num; sent := sent';
               api_calls := api_calls st |}
  | Returns result =>
      let '(total_count, total_pages) :=
        match total_count st with
        | None =>
            let total_count := default 0 (count_total result) in
            let total_count :=
              if truthy_int max_results
              then Z.min total_count (default 0 max_results)
              else total_count in
            (total_count,
             if batch_size =? 0 then None
             else Some (total_count `div` batch_size + 1))
        | Some total_count => (total_count, total_pages st)
        end in
      match total_pages with
      | None =>
          Break {| all_results := all_results st; skip := skip st;
                   total_count := Some total_count; total_pages := None;
                   page_num := page_num; sent := sent';
                   api_calls := api_calls st |}
      | Some pages =>
          match batch_data result with
          | [] =>
              Break {| all_results := all_results st; skip := skip st;
                       total_count := Some total_count;
                       total_pages := total_pages;
                       page_num := page_num; sent := sent';
                       api_calls := api_calls st |}
          | _ :: _ =>
              let st' :=
                {| all_results := all_results st ++ batch_data result;
                   skip := skip st + batch_size;
                   total_count := Some total_count;
                   total_pages := total_pages;
                   page_num := page_num; sent := sent';
                   api_calls :=
                     api_calls st
                     ++ [(page_num, pages, len (batch_data result))] |} in
              if len (all_results st') >=? total_count then Break st'
              else if truthy_int max_results
                      && (len (all_results st') >=? default 0 max_results)
                   then Break st'
              else if len (batch_data result) <? batch_size then Break st'
              else Continue st'
          end
      end
  end.

(** [while True]: [fuel] bounds the number of passes; [None] is "still
    running when the fuel ran out". *)
Fixpoint offset_loop (fuel : nat) (client : Client) (base_query : string)
    (max_results : option Z) (batch_size : Z) (st : OffsetState)
    : option OffsetState :=
  match fuel with
  | O => None
  | S fuel =>
      match offset_iteration client base_query max_results batch_size st with
      | Break st => Some st
      | Continue st =>
          offset_loop fuel client base_query max_results batch_size st
      end
  end.

Definition offset_init : OffsetState :=
  {| all_results := []; skip := 0; total_count := None; total_pages := None;
     page_num := 0; sent := []; api_calls := [] |}.

(** The text of the next query, as the loop body builds it. *)
Definition paginated_query (base_query : string) (batch_size : Z)
    (st : OffsetState) : string :=
  base_query +:+ " limit " +:+ pretty batch_size
             +:+ " skip " +:+ pretty (skip st).

(** [offset_run client base_query max_results batch_size st rs st']: from
    [st] the loop makes one pass for each response of [rs], in order, each
    fetched without error and none ending the loop, and is then in [st']. *)
Inductive offset_run (client : Client) (base_query : string)
    (max_results : option Z) (batch_size : Z)
    : OffsetState -> list QueryResponse -> OffsetState -> Prop :=
  | offset_run_nil st :
      offset_run client base_query max_results batch_size st [] st
  | offset_run_cons st response st' rs st'' :
      client (length (sent st)) (paginated_query base_query batch_size st)
        = Returns response ->
      offset_iteration client base_query max_results batch_size st
        = Continue st' ->
      offset_run client base_query max_results batch_size st' rs st'' ->
      offset_run client base_query max_results batch_size st
                 (response :: rs) st''.

(** Everything [query_iterative] does after the loop and before it returns:
    the frame is built and flattened, the query terms are cut out of the
    query, and the frame is saved when [save] holds and it is not empty.
    Given the query, the records, [save] and [save_format], this is the
    [saved_to] of the result, or the exception pandas or the file system
    raised. *)
Variable process_and_save :
  string -> list pyval -> bool -> option string -> PyResult (option Saved).

(** The dictionary [query_iterative] returns (without its [dataframe]). *)
Record QueryResult := {
  total : option Z;
  retrieved : Z;
  data : list pyval;
  saved_to : option Saved;
  query : string
}.

(** [query_iterative(dsl_query, max_results, batch_size, save,
    save_format)].  [output.confirm] always answers [True], so the
    cancelled result is never produced; [estimated_calls] divides by
    [batch_size] outside the [try] block. *)
Definition query_iterative (fuel : nat) (client : Client) (dsl_query : string)
    (max_results : option Z) (batch_size : Z) (save : bool)
    (save_format : option string) : option (PyResult QueryResult) :=
  let batch_size := Z.min batch_size 1000 in
  let base_query := base_query_of dsl_query in
  if truthy_int max_results && (batch_size =? 0)
  then Some (Raises ZeroDivisionError)
  else
    match offset_loop fuel client base_query max_results batch_size
            offset_init with
    | None => None
    | Some st =>
        match process_and_save dsl_query (all_results st) save save_format with
        | Raises e => Some (Raises e)
        | Returns saved_path =>
            Some (Returns {| total := total_count st;
                             retrieved := len (all_results st);
                             data := all_results st;
                             saved_to := saved_path;
                             query := dsl_query |})
        end
    end.

(** *** Searching publications *)

(** [save_results(df, prefix, query_terms, raw_data=...)] in the default
    format, for the frame built from [raw_data]: the paths it returns or the
    exception a failed write raises. *)
Variable save_results : string -> option string -> list pyval -> PyResult Saved.

(** The dictionary [search_publications] returns. *)
Record SearchPublications := {
  sp_total : option Z;
  sp_returned : Z;
  sp_saved_to : option Saved;
  sp_publications : list pyval;
  sp_query : string
}.

(** The query text [search_publications] builds before it picks a path. *)
Definition publications_dsl (query_terms : string)
    (filters fields : option string) : string :=
  let dsl :=
    "search publications for " +:+ PyStr.dquote +:+ query_terms
      +:+ PyStr.dquote in
  let dsl :=
    if truthy_str filters then dsl +:+ " where " +:+ default "" filters
    else dsl in
  if truthy_str fields
  then dsl +:+ " return publications[" +:+ default "" fields +:+ "]"
  else dsl +:+ " return publications".

Definition search_publications (fuel : nat) (client : Client)
    (query_terms : string) (filters fields : option string) (limit skip : Z)
    (iterative : bool) (max_results : option Z) (save : bool)
    : option (PyResult SearchPublications) :=
  let dsl := publications_dsl query_terms filters fields in
  if iterative || truthy_int max_results && (default 0 max_results >? 1000)
  then
    match query_iterative fuel client dsl max_results 1000 save None with
    | None => None
    | Some (Raises e) => Some (Raises e)
    | Some (Returns result) =>
        Some (Returns {| sp_total := total result;
                         sp_returned := retrieved result;
                         sp_saved_to := saved_to result;
                         sp_publications := slice_to 20 (data result);
                         sp_query := query result |})
    end
  else
    let dsl := dsl +:+ " limit " +:+ pretty limit in
    let dsl := if skip >? 0 then dsl +:+ " skip " +:+ pretty skip else dsl in
    match client 0%nat dsl with
    | Raises e => Some (Raises e)
    | Returns result =>
        let publications := batch_data result in
        let saved :=
          match publications with
          | _ :: _ =>
              if save
              then match save_results "publications" (Some query_terms)
                           publications with
                   | Returns saved_path => Returns (Some saved_path)
                   | Raises e => Raises e
                   end
              else Returns None
          | [] => Returns None
          end in
        match saved with
        | Raises e => Some (Raises e)
        | Returns saved_path =>
            Some (Returns {| sp_total := count_total result;
                             sp_returned := len publications;
                             sp_saved_to := saved_path;
                             sp_publications := publications;
                             sp_query := dsl |})
        end
    end.

(** *** Searching the other sources *)

(** The dictionary [search_grants], [search_patents],
    [search_clinical_trials] and [search_researchers] return; [sr_records]
    is the list under the key named after the source. *)
Record SearchRecords := {
  sr_total : option Z;
  sr_returned : Z;
  sr_saved_to : option Saved;
  sr_records : list pyval;
  sr_query : string
}.

(** The [where] and [return] clauses every search function appends. *)
Definition where_return (source dsl : string) (filters fields : option string)
    : string :=
  let dsl :=
    if truthy_str filters then dsl +:+ " where " +:+ default "" filters
    else dsl in
  if truthy_str fields
  then dsl +:+ " return " +:+ source +:+ "[" +:+ default "" fields +:+ "]"
  else dsl +:+ " return " +:+ source.

(** What the search functions do with the query text once it is built, up
    to the [limit] clause: [skip] is [None] for [search_researchers], which
    has no such parameter, and [query_terms] is what is handed to
    [save_results]. *)
Definition search_dsl (source : string) (fuel : nat) (client : Client)
    (dsl : string) (query_terms : option string) (limit : Z)
    (skip : option Z) (iterative : bool) (max_results : option Z)
    (save : bool) : option (PyResult SearchRecords) :=
  if iterative || truthy_int max_results && (default 0 max_results >? 1000)
  then
    match query_iterative fuel client dsl max_results 1000 save None with
    | None => None
    | Some (Raises e) => Some (Raises e)
    | Some (Returns result) =>
        Some (Returns {| sr_total := total result;
                         sr_returned := retrieved result;
                         sr_saved_to := saved_to result;
                         sr_records := slice_to 20 (data result);
                         sr_query := query result |})
    end
  else
    let dsl := dsl +:+ " limit " +:+ pretty limit in
    let dsl :=
      match skip with
      | Some skip => if skip >? 0 then dsl +:+ " skip " +:+ pretty skip else dsl
      | None => dsl
      end in
    match client 0%nat dsl with
    | Raises e => Some (Raises e)
    | Returns result =>
        let records := batch_data result in
        let saved :=
          match records with
          | _ :: _ =>
              if save
              then match save_results source query_terms records with
                   | Returns saved_path => Returns (Some saved_path)
                   | Raises e => Raises e
                   end
              else Returns None
          | [] => Returns None
          end in
        match saved with
        | Raises e => Some (Raises e)
        | Returns saved_path =>
            Some (Returns {| sr_total := count_total result;
                             sr_returned := len records;
                             sr_saved_to := saved_path;
                             sr_records := records;
                             sr_query := dsl |})
        end
    end.

(** The query text [search_grants], [search_patents] and
    [search_clinical_trials] build before they pick a path. *)
Definition source_dsl (source query_terms : string)
    (filters fields : option string) : string :=
  where_return source
    ("search " +:+ source +:+ " for " +:+ PyStr.dquote +:+ query_terms
       +:+ PyStr.dquote)
    filters fields.

(** [search_grants], [search_patents] and [search_clinical_trials]: the
    body of [search_publications] with the name of the source changed. *)
Definition search_source (source : string) (fuel : nat) (client : Client)
    (query_terms : string) (filters fields : option string) (limit skip : Z)
    (iterative : bool) (max_results : option Z) (save : bool)
    : option (PyResult SearchRecords) :=
  let dsl := source_dsl source query_terms filters fields in
  search_dsl source fuel client dsl (Some query_terms) limit (Some skip)
             iterative max_results save.

Definition search_grants := search_source "grants".

Definition search_patents := search_source "patents".

Definition search_clinical_trials := search_source "clinical_trials".

(** The query text of [search_researchers]: the query terms are
    optional. *)
Definition researchers_dsl (query_terms filters fields : option string)
    : string :=
  where_return "researchers"
    (if truthy_str query_terms
     then "search researchers for " +:+ PyStr.dquote
            +:+ default "" query_terms +:+ PyStr.dquote
     else "search researchers")
    filters fields.

(** [search_researchers]; it has no [skip] parameter. *)
Definition search_researchers (fuel : nat) (client : Client)
    (query_terms filters fields : option string) (limit : Z)
    (iterative : bool) (max_results : option Z) (save : bool)
    : option (PyResult SearchRecords) :=
  let dsl := researchers_dsl query_terms filters fields in
  search_dsl "researchers" fuel client dsl query_terms limit None
             iterative max_results save.

(** *** Raw queries *)

(** What [raw_query] reads of the response to a single query: the decoded
    body [result.json], here the lists under its keys, and
    [result.count_total]. *)
Record RawResponse := {
  raw_json : gmap string (list pyval);
  raw_count_total : option Z
}.

(** [_get_client().query(dsl_query)] as [raw_query] reads its result. *)
Definition RawClient := string -> PyResult RawResponse.

(** The dictionary [raw_query] returns: on the paginated path [total],
    [retrieved], [saved_to], the list under [json.data] and [query]; on the
    other path [json], [total], [saved_to] and [query]. *)
Inductive RawQuery : Type :=
  | RawPaginated (total : option Z) (retrieved : Z) (saved_to : option Saved)
      (json_data : list pyval) (query : string)
  | RawSingle (json : gmap string (list pyval)) (total : option Z)
      (saved_to : option Saved) (query : string).

(** The two [for ... in [...]: data = result.json.get(key, []); if data:
    ...; break] loops: the first key of the list with a non-empty list
    under it, and that list. *)
Definition first_data (json : gmap string (list pyval)) (keys : list string)
    : option (string * list pyval) :=
  let get key := default [] (json !! key) in
  match List.find (fun key => negb (len (get key) =? 0)) keys with
  | Some key => Some (key, get key)
  | None => None
  end.

Definition raw_sources : list string :=
  ["publications"; "grants"; "patents"; "clinical_trials"; "researchers";
   "organizations"; "datasets"; "reports"].

Definition raw_facets : list string :=
  ["year"; "funders"; "research_orgs"; "category_for"].

(** [raw_query(dsl_query, save, iterative, max_results)].  The path
    [save_results] returns is never empty, so [if not saved_path] holds
    exactly when the first loop saved nothing. *)
Definition raw_query (fuel : nat) (client : Client) (raw_client : RawClient)
    (dsl_query : string) (save iterative : bool) (max_results : option Z)
    : option (PyResult RawQuery) :=
  if iterative || truthy_int max_results && (default 0 max_results >? 1000)
  then
    match query_iterative fuel client dsl_query max_results 1000 save None with
    | None => None
    | Some (Raises e) => Some (Raises e)
    | Some (Returns result) =>
        Some (Returns (RawPaginated (total result) (retrieved result)
                         (saved_to result) (slice_to 100 (data result))
                         (query result)))
    end
  else
    match raw_client dsl_query with
    | Raises e => Some (Raises e)
    | Returns result =>
        let saved :=
          if save then
            match first_data (raw_json result) raw_sources with
            | Some (source, data) =>
                match save_results source None data with
                | Returns saved_path => Returns (Some saved_path)
                | Raises e => Raises e
                end
            | None =>
                match first_data (raw_json result) raw_facets with
                | Some (key, data) =>
                    match save_results ("facet_" +:+ key) None data with
                    | Returns saved_path => Returns (Some saved_path)
                    | Raises e => Raises e
                    end
                | None => Returns None
                end
            end
          else Returns None in
        match saved with
        | Raises e => Some (Raises e)
        | Returns saved_path =>
            Some (Returns (RawSingle (raw_json result) (raw_count_total result)
                             saved_path dsl_query))
        end
    end.

(** *** What the loop of [query_iterative] sends and reports *)

(** The query number [k] (from 0) of a pagination. *)
Definition nth_query (base_query : string) (batch_size : Z) (k : nat)
    : string :=
  base_query +:+ " limit " +:+ pretty batch_size
             +:+ " skip " +:+ pretty (Z.of_nat k * batch_size).

(** The sum of the record counts reported to [output.api_call]. *)
Definition reported_records (reports : list (Z * Z * Z)) : Z :=
  foldr Z.add 0 ((fun report => report.2) <$> reports).

(** What holds each time the loop body is entered in a run that began in
    [offset_init]: every query sent so far brought a page that was kept and
    reported, and the skip has advanced by one batch size for each. *)
Definition offset_inv (base_query : string) (batch_size : Z)
    (st : OffsetState) : Prop :=
  skip st = Z.of_nat (length (sent st)) * batch_size
  /\ page_num st = Z.of_nat (length (sent st))
  /\ sent st = nth_query base_query batch_size <$> seq 0 (length (sent st))
  /\ length (api_calls st) = length (sent st)
  /\ (fun report => report.1.1) <$> api_calls st
     = Z.of_nat <$> seq 1 (length (api_calls st))
  /\ reported_records (api_calls st) = len (all_results st)
  /\ (total_count st = None -> sent st = []).

(** What holds when such a run has ended: the last query may have gone
    unreported. *)
Definition offset_ended (base_query : string) (batch_size : Z)
    (st : OffsetState) : Prop :=
  sent st = nth_query base_query batch_size <$> seq 0 (length (sent st))
  /\ page_num st = Z.of_nat (length (sent st))
  /\ (fun report => report.1.1) <$> api_calls st
     = Z.of_nat <$> seq 1 (length (api_calls st))
  /\ reported_records (api_calls st) = len (all_results st)
  /\ (length (api_calls st) <= length (sent st)
      <= length (api_calls st) + 1)%nat.

(** *** Validation of aggregation metrics *)

Definition aggregate_functions : list string :=
  ["sum"; "avg"; "count"; "min"; "max"; "median"].

(** The test the loop over the metrics applies to each of them. *)
Definition metric_is_invalid (valid_metrics : gset string) (metric : string)
    : bool :=
  if PyStr.contains "(" metric then
    let base_metric := default "" (PyStr.split "(" metric !! 0%nat) in
    negb (bool_decide (base_metric ∈ aggregate_functions))
  else
    negb (bool_decide (metric ∈ valid_metrics))
    && negb (String.eqb metric "count").

Definition metrics_error (source : string) (invalid_metrics : list string)
    (valid_metrics : gset string) : string :=
  ("Invalid metric(s) for " +:+ source +:+ ": "
     +:+ PyStr.join ", " invalid_metrics +:+ PyStr.newline)
  +:+ ("Valid metrics: "
     +:+ PyStr.join ", " (PyStr.sorted (set_iter valid_metrics))
     +:+ PyStr.newline)
  +:+ ("Use 'describe " +:+ source +:+ "' to see all available metrics.").

Definition validate_aggregation_metrics (describe : Describe) (w : World)
    (source : string) (metrics_str : option string) : PyResult unit * World :=
  if negb (truthy_str metrics_str) then (Returns (), w)
  else
    let w := _fetch_source_metadata describe w source in
    let valid_metrics :=
      default ∅ (metrics (_valid_fields_cache w) !! source) in
    if bool_decide (valid_metrics = ∅) then (Returns (), w)
    else
      let metrics :=
        PyStr.strip <$> PyStr.split "," (default "" metrics_str) in
      let invalid_metrics :=
        List.filter (metric_is_invalid valid_metrics) metrics in
      match invalid_metrics with
      | [] => (Returns (), w)
      | _ :: _ =>
          (Raises (ValueError
                     (metrics_error source invalid_metrics valid_metrics)), w)
      end.

(** *** Aggregation *)

(** The dictionary [aggregate_query] returns. *)
Record Aggregate := {
  ag_facet : string;
  ag_data : list pyval;
  ag_saved_to : option Saved;
  ag_query : string
}.

Definition aggregate_dsl (source query_terms facet : string)
    (aggregate_by filters : option string) (limit : Z) : string :=
  let dsl :=
    "search " +:+ source +:+ " for " +:+ PyStr.dquote +:+ query_terms
      +:+ PyStr.dquote in
  let dsl :=
    if truthy_str filters then dsl +:+ " where " +:+ default "" filters
    else dsl in
  let dsl := dsl +:+ " return " +:+ facet in
  let dsl :=
    if truthy_str aggregate_by
    then dsl +:+ " aggregate " +:+ default "" aggregate_by
    else dsl in
  dsl +:+ " limit " +:+ pretty limit.

(** [aggregate_query(source, query_terms, facet, aggregate_by, filters,
    limit, save)]: the outcome, the module state, and the search queries it
    sent to the client.  The [batch_data] of the response stands for the
    entries found under the facet. *)
Definition aggregate_query (describe : Describe) (client : Client) (w : World)
    (source query_terms facet : string) (aggregate_by filters : option string)
    (limit : Z) (save : bool)
    : PyResult Aggregate * World * list string :=
  let '(validated, w) := validate_facet describe w source facet in
  match validated with
  | Raises e => (Raises e, w, [])
  | Returns _ =>
      let '(validated, w) :=
        if truthy_str aggregate_by
        then validate_aggregation_metrics describe w source aggregate_by
        else (Returns (), w) in
      match validated with
      | Raises e => (Raises e, w, [])
      | Returns _ =>
          let dsl :=
            aggregate_dsl source query_terms facet aggregate_by filters limit in
          match client 0%nat dsl with
          | Raises e => (Raises e, w, [dsl])
          | Returns result =>
              let facet_data := batch_data result in
              let saved :=
                match facet_data with
                | _ :: _ =>
                    if save
                    then match save_results (source +:+ "_" +:+ facet)
                                 (Some query_terms) facet_data with
                         | Returns saved_path => Returns (Some saved_path)
                         | Raises e => Raises e
                         end
                    else Returns None
                | [] => Returns None
                end in
              match saved with
              | Raises e => (Raises e, w, [dsl])
              | Returns saved_path =>
                  (Returns {| ag_facet := facet; ag_data := facet_data;
                              ag_saved_to := saved_path; ag_query := dsl |},
                   w, [dsl])
              end
          end
      end
  end.

(** *** Text functions *)

(** [text.replace(...)] of every double quote by a backslash and a double
    quote. *)
Fixpoint escape_quotes (text : string) : string :=
  match text with
  | EmptyString => EmptyString
  | String c rest =>
      if Ascii.eqb c (Ascii.ascii_of_nat 34)
      then String (Ascii.ascii_of_nat 92)
             (String (Ascii.ascii_of_nat 34) (escape_quotes rest))
      else String c (escape_quotes rest)
  end.

(** The query [extract_affiliations] sends. *)
Definition extract_affiliations_dsl (affiliation_text : string) : string :=
  "extract_affiliations(affiliation=" +:+ PyStr.dquote
    +:+ escape_quotes affiliation_text +:+ PyStr.dquote +:+ ")".

End Helper.

End Dimensions.

(** ** The progress tracker of the logging skill *)

Module RichLogger.

(** The tracking fields of a [RichProgressTracker].  Every method takes the
    lock for its whole body, so whatever the threads do, the tracker sees a
    sequence of method calls. *)
Record RichProgressTracker := {
  total_items : Z;
  item_status : gmap string string;
  item_progress : gmap string (Z * Z);
  item_index : gmap string Z;
  failed_items : list (string * string)
}.

Definition __init__ (total_items : Z) : RichProgressTracker :=
  {| total_items := total_items; item_status := ∅; item_progress := ∅;
     item_index := ∅; failed_items := [] |}.

Definition set_index (self : RichProgressTracker) (item_id : string)
    (index : Z) : RichProgressTracker :=
  {| total_items := total_items self; item_status := item_status self;
     item_progress := item_progress self;
     item_index := <[item_id := index]> (item_index self);
     failed_items := failed_items self |}.

Definition set_existing (self : RichProgressTracker) (item_id : string)
    : RichProgressTracker :=
  {| total_items := total_items self;
     item_status := <[item_id := "existing"]> (item_status self);
     item_progress := item_progress self; item_index := item_index self;
     failed_items := failed_items self |}.

Definition set_processing (self : RichProgressTracker) (item_id : string)
    : RichProgressTracker :=
  {| total_items := total_items self;
     item_status := <[item_id := "processing"]> (item_status self);
     item_progress := <[item_id := (0, 0)]> (item_progress self);
     item_index := item_index self; failed_items := failed_items self |}.

Definition update_progress (self : RichProgressTracker) (item_id : string)
    (current total : Z) : RichProgressTracker :=
  {| total_items := total_items self; item_status := item_status self;
     item_progress := <[item_id := (current, total)]> (item_progress self);
     item_index := item_index self; failed_items := failed_items self |}.

Definition set_completed (self : RichProgressTracker) (item_id : string)
    : RichProgressTracker :=
  {| total_items := total_items self;
     item_status := <[item_id := "completed"]> (item_status self);
     item_progress := item_progress self; item_index := item_index self;
     failed_items := failed_items self |}.

Definition set_failed (self : RichProgressTracker) (item_id : string)
    (error : string) : RichProgressTracker :=
  {| total_items := total_items self;
     item_status :=
       <[item_id := "failed: " +:+ PyStr.take_chars 50 error]>
         (item_status self);
     item_progress := item_progress self; item_index := item_index self;
     failed_items := failed_items self ++ [(item_id, error)] |}.

(** [self.item_status.values()]; the counts below do not depend on the order
    of the values. *)
Definition values (self : RichProgressTracker) : list string :=
  snd <$> map_to_list (item_status self).

Definition existing_count (self : RichProgressTracker) : Z :=
  len (filter (fun v => v = "existing") (values self)).

Definition processing_count (self : RichProgressTracker) : Z :=
  len (filter (fun v => v = "processing") (values self)).

Definition completed_count (self : RichProgressTracker) : Z :=
  len (filter (fun v => v = "completed") (values self)).

Definition failed_count (self : RichProgressTracker) : Z :=
  len (filter (fun v => String.prefix "failed" v = true) (values self)).

Definition processed_count (self : RichProgressTracker) : Z :=
  existing_count self + completed_count self + failed_count self.

(** The local list [active] of [_create_progress_table] as the
    comprehension builds it, before it is sorted: the items with a progress
    entry whose status is ["processing"], each with its progress and its
    index ([0] when none was set).  It is not yet the table: see
    [_create_progress_table] below. *)
Definition active (self : RichProgressTracker)
    : list (string * (Z * Z) * Z) :=
  (fun entry : string * (Z * Z) =>
     (entry.1, entry.2, default 0 (item_index self !! entry.1)))
    <$> filter (fun entry : string * (Z * Z) =>
                  item_status self !! entry.1 = Some "processing")
               (map_to_list (item_progress self)).

(** The order [sorted(active, key=lambda x: x[2])] puts the items in.
    Python keeps the items of equal index in the order in which the
    dictionary yields them; that order is not modelled, and nothing below
    depends on it. *)
Definition index_le (x y : string * (Z * Z) * Z) : Prop := x.2 <= y.2.

#[global] Instance index_le_dec : RelDecision index_le :=
  fun x y => decide (x.2 <= y.2).

Definition sorted_active (self : RichProgressTracker)
    : list (string * (Z * Z) * Z) :=
  merge_sort index_le (active self).

(** The name shown for an item in the progress table. *)
Definition item_display (item_id : string) : string :=
  if 20 <? Z.of_nat (String.length item_id)
  then PyStr.take_chars 18 item_id +:+ ".."
  else item_id.

(** A row of the table of active operations.  The row of an item holds the
    index cell [idx/total_items], the name shown, and the two numbers the
    progress bar, the percentage and the two size cells are drawn from
    (their text is not modelled); the other row is the placeholder
    [No active ...s]. *)
Inductive Row : Type :=
  | ItemRow (idx_str item_display : string) (current total : Z)
  | NoActiveRow.

Definition item_row (self : RichProgressTracker)
    (item : string * (Z * Z) * Z) : Row :=
  let '(item_id, (current, total), idx) := item in
  ItemRow (pretty idx +:+ "/" +:+ pretty (total_items self))
          (item_display item_id) current total.

(** The rows [_create_progress_table] adds to its table: one for each item
    of the sorted list, and the placeholder when the list is empty. *)
Definition _create_progress_table (self : RichProgressTracker) : list Row :=
  let active := sorted_active self in
  (item_row self <$> active)
  ++ (match active with
      | [] => [NoActiveRow]
      | _ :: _ => []
      end).

(** The name shown for an item in the status table ([format_items]). *)
Definition format_name (item_id : string) : string :=
  if 17 <? Z.of_nat (String.length item_id)
  then PyStr.take_chars 15 item_id +:+ ".."
  else item_id.

(** The calls that change the tracking fields, and a sequence of them in
    the order in which they took the lock. *)
Inductive Call : Type :=
  | SetIndex (item_id : string) (index : Z)
  | SetExisting (item_id : string)
  | SetProcessing (item_id : string)
  | UpdateProgress (item_id : string) (current total : Z)
  | SetCompleted (item_id : string)
  | SetFailed (item_id : string) (error : string).

Definition call (self : RichProgressTracker) (c : Call)
    : RichProgressTracker :=
  match c with
  | SetIndex item_id index => set_index self item_id index
  | SetExisting item_id => set_existing self item_id
  | SetProcessing item_id => set_processing self item_id
  | UpdateProgress item_id current total =>
      update_progress self item_id current total
  | SetCompleted item_id => set_completed self item_id
  | SetFailed item_id error => set_failed self item_id error
  end.

Definition calls (self : RichProgressTracker) (cs : list Call)
    : RichProgressTracker :=
  foldl call self cs.

(** The four statuses the methods write. *)
Definition known_status (v : string) : Prop :=
  v = "existing" \/ v = "processing" \/ v = "completed"
  \/ String.prefix "failed: " v = true.

(** What every sequence of calls keeps true of the tracking fields: the
    statuses are among the four, an item with a failure status is listed in
    [failed_items], and an item being processed has a progress entry. *)
Definition tracked (self : RichProgressTracker) : Prop :=
  (forall k v, item_status self !! k = Some v -> known_status v)
  /\ (forall k v, item_status self !! k = Some v ->
                  String.prefix "failed" v = true ->
                  k ∈ (failed_items self).*1)
  /\ (forall k, item_status self !! k = Some "processing" ->
                is_Some (item_progress self !! k)).

End RichLogger.

(** ** Concrete services and inputs *)
Module Examples.

(** Records numbered [first], [first + 1], ... *)
Definition records (first n : nat) : list pyval :=
  (fun i => VDict [("id", VInt (Z.of_nat i))]) <$> seq first n.

(** The page a cursor stands for: ["*"] is the first one, ["page<k>"] the
    one after [k] pages. *)
Definition page_of_cursor (pages : nat) (cursor : option pyval) : option nat :=
  match cursor with
  | Some (VStr c) =>
      if String.eqb c "*" then Some 0%nat
      else snd <$> list_find (fun k => c = "page" +:+ pretty k) (seq 1 pages)
  | _ => None
  end.

(** An OpenAlex-like service holding [n] records and serving [size] of them
    a page: it reports [n] as the count and hands out a cursor for the next
    page while records remain. *)
Definition page (n size k : nat) : OpenAlex.ApiResponse :=
  {| OpenAlex.results := take size (drop (k * size) (records 0 n));
     OpenAlex.meta_count := Z.of_nat n;
     OpenAlex.meta_next_cursor :=
       if (S k * size <? n)%nat then Some ("page" +:+ pretty (S k))
       else None |}.

Definition cursor_service (n size : nat) : OpenAlex.Service :=
  fun _ _ params =>
    match page_of_cursor (S n) (params !! "cursor") with
    | Some k => Returns (page n size k)
    | None => Raises (RequestException "400 Client Error")
    end.

(** A Dimensions-like client holding [n] records for the query [base]: it
    answers [base limit <size> skip <k * size>] with the records from
    [k * size] on, at most [size] of them, and reports [n] as the total. *)
Definition batch (n size k : nat) : Dimensions.QueryResponse :=
  {| Dimensions.count_total := Some (Z.of_nat n);
     Dimensions.batch_data := take size (drop (k * size) (records 0 n)) |}.

Definition paged_client (base : string) (n size : nat) : Dimensions.Client :=
  fun _ text =>
    match list_find
            (fun k => text = base +:+ " limit " +:+ pretty (Z.of_nat size)
                               +:+ " skip " +:+ pretty (Z.of_nat (k * size)))
            (seq 0 (S n)) with
    | Some (_, k) => Returns (batch n size k)
    | None => Raises (RequestException "query error")
    end.

(** The same services with the request number [k] (counted from 0) failing. *)
Definition service_failing_at (k : nat) (srv : OpenAlex.Service)
    : OpenAlex.Service :=
  fun issued endpoint params =>
    if (issued =? k)%nat then Raises (RequestException "timed out")
    else srv issued endpoint params.

Definition client_failing_at (k : nat) (client : Dimensions.Client)
    : Dimensions.Client :=
  fun issued text =>
    if (issued =? k)%nat then Raises (RequestException "timed out")
    else client issued text.

(** Stand-ins for the parts of the helpers that are parameters of the
    model: the query is already free of paging clauses, nothing is saved. *)
Definition keep_query (dsl_query : string) : string := dsl_query.

Definition no_save (dsl_query : string) (records : list pyval) (save : bool)
    (save_format : option string) : PyResult (option Saved) :=
  Returns None.

Definition save_to_tmp (prefix : string) (query_terms : option string)
    (raw_data : list pyval) : PyResult Saved :=
  Returns (SavedDual ("/tmp/" +:+ prefix +:+ ".parquet")
                     ("/tmp/" +:+ prefix +:+ ".jsonl")).

Definition email : string := "user@example.com".

Definition empty_openalex : OpenAlex.World :=
  {| OpenAlex._valid_fields_cache :=
       {| OpenAlex.group_by := ∅; OpenAlex.select := ∅ |};
     OpenAlex.probes := [] |}.

Definition empty_dimensions : Dimensions.World :=
  {| Dimensions._valid_fields_cache :=
       {| Dimensions.facets := ∅; Dimensions.filters := ∅;
          Dimensions.metrics := ∅ |};
     Dimensions.described := [] |}.

(** The state a pass of a loop leaves behind. *)
Definition after {S} (step : Step S) : S :=
  match step with
  | Break s | Continue s => s
  end.

(** Ten records served two a page, five pages in all, with the third
    request failing. *)
Definition failing_service : OpenAlex.Service :=
  service_failing_at 2 (cursor_service 10 2).

Definition failing_client : Dimensions.Client :=
  client_failing_at 2 (paged_client "Q" 10 2).

(** A probe and clients that cannot reach the service. *)
Definition offline_probe : OpenAlex.Probe :=
  fun _ _ _ => Raises (RequestException "offline").

Definition offline_describe : Dimensions.Describe :=
  fun _ _ => Raises (RequestException "offline").

Definition offline_raw : Dimensions.RawClient :=
  fun _ => Raises (RequestException "offline").

(** A probe answered the way OpenAlex answers an invalid [group_by]. *)
Definition works_probe : OpenAlex.Probe :=
  fun _ _ _ =>
    Returns
      {| OpenAlex.status_code := 400;
         OpenAlex.message :=
           Some "__invalid_field_to_get_valid_list__ is not a valid field. Valid fields are publication_year, oa_status, type." |}.

(** A source with three facets, and a source whose only field is no facet. *)
Definition publications_describe : Dimensions.Describe :=
  fun _ _ =>
    Returns
      {| Dimensions.fields_data :=
           [("year", Some {| Dimensions.is_facet := true;
                             Dimensions.is_filter := true |});
            ("research_orgs", Some {| Dimensions.is_facet := true;
                                       Dimensions.is_filter := true |});
            ("funders", Some {| Dimensions.is_facet := true;
                                Dimensions.is_filter := false |});
            ("title", Some {| Dimensions.is_facet := false;
                              Dimensions.is_filter := true |})];
         Dimensions.metrics_data := [Dimensions.MetricStr "count"] |}.

Definition facetless_describe : Dimensions.Describe :=
  fun _ _ =>
    Returns
      {| Dimensions.fields_data :=
           [("title", Some {| Dimensions.is_facet := false;
                              Dimensions.is_filter := true |})];
         Dimensions.metrics_data := [] |}.

(** A service that reports ten records, serves two of them and gives no
    continuation token. *)
Definition short_page : OpenAlex.ApiResponse :=
  {| OpenAlex.results := records 0 2;
     OpenAlex.meta_count := 10;
     OpenAlex.meta_next_cursor := None |}.

Definition short_service : OpenAlex.Service :=
  fun _ _ _ => Returns short_page.

End Examples.

(** * Properties *)

(** ** Pagination *)

Section CursorFacts.

Import OpenAlex.

Variable EMAIL : string.
Variable srv : Service.
Variable endpoint : string.
Variable max_results : option Z.

Notation iteration := (cursor_iteration EMAIL srv endpoint max_results).
Notation loop := (fun fuel => cursor_loop EMAIL fuel srv endpoint max_results).
Notation run := (cursor_run EMAIL srv endpoint max_results).
Notation request st :=
  (api_request EMAIL srv (length (sent st)) endpoint (params st)).1.

(** A request that raises ends the loop and leaves the records alone. *)
Lemma cursor_iteration_raises st e :
  request st = Raises e ->
  exists st', iteration st = Break st'
              /\ all_results st' = all_results st
              /\ total_count st' = total_count st
              /\ length (sent st') = S (length (sent st)).
Proof.
  unfold cursor_iteration, api_request; simpl; intros ->.
  eexists; split; [reflexivity|]; simpl.
  rewrite length_app; simpl. repeat split; lia.
Qed.

(** A pass that does not end the loop appends the page it fetched. *)
Lemma cursor_iteration_continue st response st' :
  request st = Returns response ->
  iteration st = Continue st' ->
  all_results st' = all_results st ++ results response
  /\ length (sent st') = S (length (sent st)).
Proof.
  unfold cursor_iteration, api_request; simpl; intros ->.
  destruct (results response) as [|x xs] eqn:Hres; [discriminate|].
  repeat case_match; try discriminate; intros [= <-]; simpl;
    rewrite length_app; simpl; (split; [done | lia]).
Qed.

Lemma cursor_run_all_results st rs st' :
  run st rs st' ->
  all_results st' = all_results st ++ concat (results <$> rs)
  /\ length (sent st') = (length (sent st) + length rs)%nat.
Proof.
  induction 1 as [st | st response st' rs st'' Hreq Hit _ [IHa IHs]]; simpl.
  - rewrite app_nil_r; split; [done | lia].
  - destruct (cursor_iteration_continue _ _ _ Hreq Hit) as [Ha Hs].
    rewrite IHa, Ha, IHs, Hs, <- app_assoc; split; [done | lia].
Qed.

Lemma cursor_run_loop st rs st' :
  run st rs st' ->
  forall fuel, loop (length rs + fuel)%nat st = loop fuel st'.
Proof.
  induction 1 as [st | st response st' rs st'' _ Hit _ IH]; intros fuel; simpl.
  - reflexivity.
  - rewrite Hit. apply IH.
Qed.

(** The loop, once it has returned, returns the same with more fuel. *)
Lemma cursor_loop_more_fuel fuel st st' :
  loop fuel st = Some st' ->
  forall extra, loop (fuel + extra)%nat st = Some st'.
Proof.
  revert st; induction fuel as [|fuel IH]; intros st; simpl; [discriminate|].
  destruct (iteration st); [done | apply IH].
Qed.

(** What one pass does to the target: it is set on the first page and kept
    afterwards. *)
Lemma cursor_iteration_target st response :
  request st = Returns response ->
  exists st' target,
    (iteration st = Break st' \/ iteration st = Continue st')
    /\ total_count st' = Some target
    /\ target = match total_count st with
                | Some t => t
                | None => if truthy_int max_results
                          then Z.min (meta_count response) (default 0 max_results)
                          else meta_count response
                end.
Proof.
  unfold cursor_iteration, api_request; simpl; intros ->.
  repeat case_match; eexists _, _; (split; [by (left + right)|]); done.
Qed.

(** Past the first page, a pass that goes on leaves strictly fewer records
    to fetch. *)
Lemma cursor_iteration_progress st st' t :
  total_count st = Some t ->
  iteration st = Continue st' ->
  total_count st' = Some t
  /\ len (all_results st) < len (all_results st') < t.
Proof.
  unfold cursor_iteration, api_request; simpl; intros ->.
  destruct (srv _ _ _) as [response|]; [|discriminate].
  destruct (results response) as [|x xs] eqn:Hres; [discriminate|].
  destruct (_ >=? _) eqn:Hge; [discriminate|].
  case_match; [|discriminate]. intros [= <-]; simpl.
  rewrite Z.geb_leb in Hge. apply Z.leb_gt in Hge.
  unfold len in *. rewrite length_app in *; simpl in *. split; [done | lia].
Qed.

Lemma cursor_loop_terminates_from st t n :
  total_count st = Some t ->
  t - len (all_results st) <= Z.of_nat n ->
  exists st', loop (S n) st = Some st'.
Proof.
  revert st; induction n as [|n IH]; intros st Ht Hn; simpl.
  - destruct (iteration st) as [st'|st'] eqn:Hit; [by eexists|].
    destruct (cursor_iteration_progress _ _ _ Ht Hit) as [_ ?]; lia.
  - destruct (iteration st) as [st'|st'] eqn:Hit; [by eexists|].
    destruct (cursor_iteration_progress _ _ _ Ht Hit) as [Ht' ?].
    apply IH; [done | lia].
Qed.

(** The loop always ends: some amount of fuel lets it return. *)
Lemma cursor_loop_terminates st :
  exists fuel st', loop fuel st = Some st'.
Proof.
  destruct (iteration st) as [st1|st1] eqn:Hit.
  - exists 1%nat, st1; simpl; by rewrite Hit.
  - assert (exists t, total_count st1 = Some t) as [t Ht].
    { revert Hit. unfold cursor_iteration, api_request; simpl.
      repeat case_match; try discriminate; intros [= <-]; simpl; by eexists. }
    destruct (cursor_loop_terminates_from st1 t
                (Z.to_nat (t - len (all_results st1))) Ht) as [st' Hst'];
      [lia|].
    exists (S (S (Z.to_nat (t - len (all_results st1))))), st'.
    simpl in *. by rewrite Hit.
Qed.

End CursorFacts.

Section OffsetFacts.

Import Dimensions.

Variable client : Client.
Variable base_query : string.
Variable max_results : option Z.
Variable batch_size : Z.

Notation iteration := (offset_iteration client base_query max_results batch_size).
Notation loop :=
  (fun fuel => offset_loop fuel client base_query max_results batch_size).
Notation run := (offset_run client base_query max_results batch_size).
Notation request st :=
  (client (length (sent st)) (paginated_query base_query batch_size st)).

Ltac offset_cases :=
  unfold offset_iteration, paginated_query in *; simpl in *;
  repeat (case_match; simplify_eq /=; try discriminate).

(** A query that raises ends the loop and leaves the records alone. *)
Lemma offset_iteration_raises st e :
  request st = Raises e ->
  exists st', iteration st = Break st'
              /\ all_results st' = all_results st
              /\ total_count st' = total_count st
              /\ length (sent st') = S (length (sent st)).
Proof.
  unfold offset_iteration, paginated_query; simpl; intros ->.
  eexists; split; [reflexivity|]; simpl.
  rewrite length_app; simpl. repeat split; lia.
Qed.

(** A pass that does not end the loop appends the page it fetched. *)
Lemma offset_iteration_continue st response st' :
  request st = Returns response ->
  iteration st = Continue st' ->
  all_results st' = all_results st ++ batch_data response
  /\ length (sent st') = S (length (sent st)).
Proof.
  intros Hreq Hit. offset_cases; rewrite length_app; simpl; (split; [done | lia]).
Qed.

Lemma offset_run_all_results st rs st' :
  run st rs st' ->
  all_results st' = all_results st ++ concat (batch_data <$> rs)
  /\ length (sent st') = (length (sent st) + length rs)%nat.
Proof.
  induction 1 as [st | st response st' rs st'' Hreq Hit _ [IHa IHs]]; simpl.
  - rewrite app_nil_r; split; [done | lia].
  - destruct (offset_iteration_continue _ _ _ Hreq Hit) as [Ha Hs].
    rewrite IHa, Ha, IHs, Hs, <- app_assoc; split; [done | lia].
Qed.

Lemma offset_run_loop st rs st' :
  run st rs st' ->
  forall fuel, loop (length rs + fuel)%nat st = loop fuel st'.
Proof.
  induction 1 as [st | st response st' rs st'' _ Hit _ IH]; intros fuel; simpl.
  - reflexivity.
  - rewrite Hit. apply IH.
Qed.

Lemma offset_loop_more_fuel fuel st st' :
  loop fuel st = Some st' ->
  forall extra, loop (fuel + extra)%nat st = Some st'.
Proof.
  revert st; induction fuel as [|fuel IH]; intros st; simpl; [discriminate|].
  destruct (iteration st); [done | apply IH].
Qed.

(** A pass that goes on has set the target, and past the first page leaves
    strictly fewer records to fetch. *)
Lemma offset_iteration_sets_target st st' :
  iteration st = Continue st' -> exists t, total_count st' = Some t.
Proof. intros Hit. offset_cases; by eexists. Qed.

Lemma offset_iteration_progress st st' t :
  total_count st = Some t ->
  iteration st = Continue st' ->
  total_count st' = Some t
  /\ len (all_results st) < len (all_results st') < t.
Proof.
  intros Ht Hit. offset_cases.
  all: match goal with H : (_ >=? _) = false |- _ =>
         rewrite Z.geb_leb in H; apply Z.leb_gt in H end.
  all: unfold len in *; rewrite length_app in *; simpl in *; (split; [done | lia]).
Qed.

Lemma offset_loop_terminates_from st t n :
  total_count st = Some t ->
  t - len (all_results st) <= Z.of_nat n ->
  exists st', loop (S n) st = Some st'.
Proof.
  revert st; induction n as [|n IH]; intros st Ht Hn; simpl.
  - destruct (iteration st) as [st'|st'] eqn:Hit; [by eexists|].
    destruct (offset_iteration_progress _ _ _ Ht Hit) as [_ ?]; lia.
  - destruct (iteration st) as [st'|st'] eqn:Hit; [by eexists|].
    destruct (offset_iteration_progress _ _ _ Ht Hit) as [Ht' ?].
    apply IH; [done | lia].
Qed.

(** The loop always ends: some amount of fuel lets it return. *)
Lemma offset_loop_terminates st :
  exists fuel st', loop fuel st = Some st'.
Proof.
  destruct (iteration st) as [st1|st1] eqn:Hit.
  - exists 1%nat, st1; simpl; by rewrite Hit.
  - destruct (offset_iteration_sets_target _ _ Hit) as [t Ht].
    destruct (offset_loop_terminates_from st1 t
                (Z.to_nat (t - len (all_results st1))) Ht) as [st' Hst'];
      [lia|].
    exists (S (S (Z.to_nat (t - len (all_results st1))))), st'.
    simpl in *. by rewrite Hit.
Qed.

End OffsetFacts.

(** The [retrieved] entry is the number of records in [data]. *)
Lemma fetch_all_retrieved EMAIL fuel srv endpoint params max_results res :
  OpenAlex.fetch_all_with_cursor EMAIL fuel srv endpoint params max_results
    = Some res ->
  OpenAlex.retrieved res = len (OpenAlex.data res).
Proof.
  unfold OpenAlex.fetch_all_with_cursor.
  destruct (OpenAlex.cursor_loop _ _ _ _ _ _); [|discriminate].
  by intros [= <-].
Qed.

Lemma query_iterative_retrieved base_query_of process_and_save fuel client
    dsl_query max_results batch_size save save_format res :
  Dimensions.query_iterative base_query_of process_and_save fuel client
    dsl_query max_results batch_size save save_format = Some (Returns res) ->
  Dimensions.retrieved res = len (Dimensions.data res).
Proof.
  unfold Dimensions.query_iterative.
  repeat case_match; try discriminate. by intros [= <-].
Qed.

(** [fetch_all_with_cursor] and [query_iterative] return, given enough
    fuel. *)
Lemma fetch_all_terminates EMAIL srv endpoint params max_results :
  exists fuel res,
    OpenAlex.fetch_all_with_cursor EMAIL fuel srv endpoint params max_results
      = Some res.
Proof.
  destruct (cursor_loop_terminates EMAIL srv endpoint max_results
              (OpenAlex.cursor_init params)) as (fuel & st & Hst).
  exists fuel, (OpenAlex.fetch_result st).
  unfold OpenAlex.fetch_all_with_cursor. by rewrite Hst.
Qed.

Lemma query_iterative_terminates base_query_of process_and_save client
    dsl_query max_results batch_size save save_format :
  exists fuel outcome,
    Dimensions.query_iterative base_query_of process_and_save fuel client
      dsl_query max_results batch_size save save_format = Some outcome.
Proof.
  destruct (offset_loop_terminates client (base_query_of dsl_query) max_results
              (Z.min batch_size 1000) Dimensions.offset_init)
    as (fuel & st & Hst).
  exists fuel. unfold Dimensions.query_iterative. rewrite Hst.
  repeat case_match; by eexists.
Qed.

(** C3.  A page fetch that raises in the middle of a pagination ends the
    loop, and the operation returns the records of the pages fetched before
    it, in order, and nothing else; the exception does not leave the loop.
    In cursor mode [fetch_all_with_cursor] returns them; in offset mode the
    loop of [query_iterative] ends with them and [query_iterative] returns
    them whenever the processing and saving that follow the loop return. *)
Theorem page_failure_keeps_partial_results :
  (forall EMAIL srv endpoint params max_results rs st e fuel,
      OpenAlex.cursor_run EMAIL srv endpoint max_results
        (OpenAlex.cursor_init params) rs st ->
      (OpenAlex.api_request EMAIL srv (length (OpenAlex.sent st)) endpoint
         (OpenAlex.params st)).1 = Raises e ->
      (length rs < fuel)%nat ->
      exists res,
        OpenAlex.fetch_all_with_cursor EMAIL fuel srv endpoint params
          max_results = Some res
        /\ OpenAlex.data res = concat (OpenAlex.results <$> rs)
        /\ OpenAlex.retrieved res = len (concat (OpenAlex.results <$> rs)))
  /\ (forall base_query_of process_and_save client dsl_query max_results
             batch_size save save_format rs st e fuel,
      Dimensions.offset_run client (base_query_of dsl_query) max_results
        (Z.min batch_size 1000) Dimensions.offset_init rs st ->
      client (length (Dimensions.sent st))
        (Dimensions.paginated_query (base_query_of dsl_query)
           (Z.min batch_size 1000) st) = Raises e ->
      (length rs < fuel)%nat ->
      (exists st',
          Dimensions.offset_loop fuel client (base_query_of dsl_query)
            max_results (Z.min batch_size 1000) Dimensions.offset_init
          = Some st'
          /\ Dimensions.all_results st' = concat (Dimensions.batch_data <$> rs))
      /\ (forall saved,
            truthy_int max_results && (Z.min batch_size 1000 =? 0) = false ->
            process_and_save dsl_query (concat (Dimensions.batch_data <$> rs))
              save save_format = Returns saved ->
            exists res,
              Dimensions.query_iterative base_query_of process_and_save fuel
                client dsl_query max_results batch_size save save_format
              = Some (Returns res)
              /\ Dimensions.data res = concat (Dimensions.batch_data <$> rs)
              /\ Dimensions.retrieved res
                 = len (concat (Dimensions.batch_data <$> rs)))).
Proof.
  split.
  - intros EMAIL srv endpoint params max_results rs st e fuel Hrun Hreq Hfuel.
    destruct (cursor_iteration_raises _ _ _ max_results _ _ Hreq)
      as (st' & Hit & Hall & _ & _).
    destruct (cursor_run_all_results _ _ _ _ _ _ _ Hrun) as [Hdata _].
    assert (OpenAlex.cursor_loop EMAIL fuel srv endpoint max_results
              (OpenAlex.cursor_init params) = Some st') as Hloop.
    { replace fuel with (length rs + S (fuel - S (length rs)))%nat by lia.
      rewrite (cursor_run_loop _ _ _ _ _ _ _ Hrun). simpl. by rewrite Hit. }
    exists (OpenAlex.fetch_result st').
    unfold OpenAlex.fetch_all_with_cursor. rewrite Hloop. simpl.
    rewrite Hall, Hdata. done.
  - intros base_query_of process_and_save client dsl_query max_results
      batch_size save save_format rs st e fuel Hrun Hreq Hfuel.
    destruct (offset_iteration_raises _ _ max_results _ _ _ Hreq)
      as (st' & Hit & Hall & _ & _).
    destruct (offset_run_all_results _ _ _ _ _ _ _ Hrun) as [Hdata _].
    assert (Dimensions.offset_loop fuel client (base_query_of dsl_query)
              max_results (Z.min batch_size 1000) Dimensions.offset_init
            = Some st') as Hloop.
    { replace fuel with (length rs + S (fuel - S (length rs)))%nat by lia.
      rewrite (offset_run_loop _ _ _ _ _ _ _ Hrun). simpl. by rewrite Hit. }
    simpl in Hdata. split.
    + exists st'. by rewrite Hall, Hdata.
    + intros saved Hzero Hsave. unfold Dimensions.query_iterative.
      rewrite Hzero, Hloop, Hall, Hdata, Hsave. by eexists.
Qed.

(** The theorem at work: ten records served two a page, the third request
    failing. *)
Lemma page_failure_keeps_partial_results_witness :
  (exists res,
      OpenAlex.fetch_all_with_cursor Examples.email 3 Examples.failing_service
        "works" ∅ None = Some res
      /\ OpenAlex.data res
         = concat (OpenAlex.results <$> [Examples.page 10 2 0; Examples.page 10 2 1])
      /\ OpenAlex.retrieved res
         = len (concat (OpenAlex.results
                          <$> [Examples.page 10 2 0; Examples.page 10 2 1])))
  /\ (exists st',
        Dimensions.offset_loop 3 Examples.failing_client "Q" None
          (Z.min 2 1000) Dimensions.offset_init = Some st'
        /\ Dimensions.all_results st'
           = concat (Dimensions.batch_data
                       <$> [Examples.batch 10 2 0; Examples.batch 10 2 1])).
Proof.
  split.
  - pose (it := OpenAlex.cursor_iteration Examples.email
                  Examples.failing_service "works" None).
    pose (st1 := Examples.after (it (OpenAlex.cursor_init ∅))).
    pose (st2 := Examples.after (it st1)).
    apply (proj1 page_failure_keeps_partial_results Examples.email
             Examples.failing_service "works" ∅ None
             [Examples.page 10 2 0; Examples.page 10 2 1] st2
             (RequestException "timed out") 3%nat).
    + apply OpenAlex.cursor_run_cons with (st' := st1);
        [vm_compute; reflexivity | vm_compute; reflexivity |].
      apply OpenAlex.cursor_run_cons with (st' := st2);
        [vm_compute; reflexivity | vm_compute; reflexivity |].
      apply OpenAlex.cursor_run_nil.
    + vm_compute; reflexivity.
    + simpl; lia.
  - pose (it := Dimensions.offset_iteration Examples.failing_client "Q" None
                  (Z.min 2 1000)).
    pose (st1 := Examples.after (it Dimensions.offset_init)).
    pose (st2 := Examples.after (it st1)).
    apply (proj2 page_failure_keeps_partial_results Examples.keep_query
             Examples.no_save Examples.failing_client "Q" None 2 true None
             [Examples.batch 10 2 0; Examples.batch 10 2 1] st2
             (RequestException "timed out") 3%nat).
    + apply Dimensions.offset_run_cons with (st' := st1);
        [vm_compute; reflexivity | vm_compute; reflexivity |].
      apply Dimensions.offset_run_cons with (st' := st2);
        [vm_compute; reflexivity | vm_compute; reflexivity |].
      apply Dimensions.offset_run_nil.
    + vm_compute; reflexivity.
    + simpl; lia.
Defined.

(** The failure at page 3 of 5, run: the records of pages 1 and 2 come
    back. *)
Example failure_at_page_three_of_five :
  OpenAlex.data
    <$> OpenAlex.fetch_all_with_cursor Examples.email 5 Examples.failing_service
          "works" ∅ None
  = Some (Examples.records 0 4)
  /\ (fun st => (Dimensions.all_results st, Dimensions.sent st))
       <$> Dimensions.offset_loop 5 Examples.failing_client "Q" None 2
             Dimensions.offset_init
     = Some (Examples.records 0 4,
             ["Q limit 2 skip 0"; "Q limit 2 skip 2"; "Q limit 2 skip 4"]).
Proof. split; vm_compute; reflexivity. Qed.

Section CursorRuns.

Import OpenAlex.

Variable EMAIL : string.
Variable srv : Service.
Variable endpoint : string.
Variable max_results : option Z.

Notation iteration := (cursor_iteration EMAIL srv endpoint max_results).
Notation loop := (fun fuel => cursor_loop EMAIL fuel srv endpoint max_results).
Notation run := (cursor_run EMAIL srv endpoint max_results).
Notation request st :=
  (api_request EMAIL srv (length (sent st)) endpoint (params st)).1.

(** A run goes on by one more pass. *)
Lemma cursor_run_snoc st rs st' response st'' :
  run st rs st' ->
  request st' = Returns response ->
  iteration st' = Continue st'' ->
  run st (rs ++ [response]) st''.
Proof.
  induction 1 as [st | st r st1 rs st2 Hreq Hit _ IH]; intros Hreq' Hit'.
  - apply cursor_run_cons with (st' := st''); [done | done |].
    apply cursor_run_nil.
  - apply cursor_run_cons with (st' := st1); [done | done |]. by apply IH.
Qed.

(** The target a run works towards is the one its first page set. *)
Lemma cursor_run_target st rs st' :
  run st rs st' ->
  total_count st' =
    match rs with
    | [] => total_count st
    | first :: _ =>
        Some match total_count st with
             | Some t => t
             | None => if truthy_int max_results
                       then Z.min (meta_count first) (default 0 max_results)
                       else meta_count first
             end
    end.
Proof.
  induction 1 as [st | st r st1 rs st2 Hreq Hit _ IH]; [done|].
  destruct (cursor_iteration_target EMAIL srv endpoint max_results st r Hreq)
    as (s & target & Hs & Htotal & Htarget).
  assert (s = st1) as -> by (destruct Hs; congruence).
  rewrite IH, Htotal, <- Htarget. by destruct rs.
Qed.

(** While a run lasts the loop has not returned. *)
Lemma cursor_run_still_running st rs st' fuel :
  run st rs st' -> (fuel <= length rs)%nat -> loop fuel st = None.
Proof.
  intros Hrun Hfuel.
  destruct (loop fuel st) as [s|] eqn:Hloop; [|done].
  pose proof (cursor_loop_more_fuel EMAIL srv endpoint max_results _ _ _ Hloop
                (length rs - fuel)) as Hmore.
  replace (fuel + (length rs - fuel))%nat with (length rs + 0)%nat in Hmore
    by lia.
  by rewrite (cursor_run_loop EMAIL srv endpoint max_results _ _ _ Hrun) in Hmore.
Qed.

(** One pass after a page fetched without error: whether it ends the loop,
    and the state it leaves. *)
Lemma cursor_iteration_cases st response :
  request st = Returns response ->
  let target :=
    match total_count st with
    | Some t => t
    | None => if truthy_int max_results
              then Z.min (meta_count response) (default 0 max_results)
              else meta_count response
    end in
  let records := all_results st ++ results response in
  (results response = []
   \/ truthy_str (meta_next_cursor response) = false
   \/ target <= len records ->
   exists st', iteration st = Break st'
               /\ all_results st' = records
               /\ total_count st' = Some target)
  /\ (results response <> [] ->
      truthy_str (meta_next_cursor response) = true ->
      len records < target ->
      exists st', iteration st = Continue st'
                  /\ all_results st' = records
                  /\ params st' !! "cursor"
                     = VStr <$> meta_next_cursor response).
Proof.
  intros Hreq target records. subst records.
  unfold cursor_iteration, api_request in *. simpl in Hreq |- *.
  rewrite Hreq. fold target. clearbody target.
  destruct (results response) as [|x xs] eqn:Hres.
  { split; [|done]. intros _. eexists. split; [done|]. simpl.
    by rewrite app_nil_r. }
  destruct (len (all_results st ++ x :: xs) >=? target) eqn:Hge.
  { rewrite Z.geb_leb in Hge. apply Z.leb_le in Hge.
    split; [|lia]. intros _. by eexists. }
  rewrite Z.geb_leb in Hge. apply Z.leb_gt in Hge.
  destruct (meta_next_cursor response) as [cursor|] eqn:Hcursor; simpl.
  - destruct (String.eqb cursor "") eqn:Hempty; simpl.
    + split; [|done]. intros _. by eexists.
    + split; [intros [? | [? | ?]]; [done | done | lia]|].
      intros _ _ _. eexists. split; [done|]. simpl.
      split; [done|]. by rewrite lookup_insert_eq.
  - split; [|done]. intros _. by eexists.
Qed.

End CursorRuns.

(** C5, as stated, fails.  Five records served two a page, with a ceiling of
    zero: after the first page the two records retrieved have reached
    min(5, 0) = 0, yet the loop goes on, and the retrieval returns all five
    records after three requests. *)
Lemma cursor_target_counterexample :
  let srv := Examples.cursor_service 5 2 in
  let first := Examples.page 5 2 0 in
  (OpenAlex.api_request Examples.email srv 0 "works"
     (OpenAlex.params (OpenAlex.cursor_init ∅))).1 = Returns first
  /\ Z.min (OpenAlex.meta_count first) 0 <= len (OpenAlex.results first)
  /\ (exists st,
        OpenAlex.cursor_iteration Examples.email srv "works" (Some 0)
          (OpenAlex.cursor_init ∅) = Continue st)
  /\ OpenAlex.fetch_all_with_cursor Examples.email 1 srv "works" ∅ (Some 0)
     = None
  /\ OpenAlex.fetch_all_with_cursor Examples.email 3 srv "works" ∅ (Some 0)
     = Some {| OpenAlex.total := Some 5; OpenAlex.retrieved := 5;
               OpenAlex.data := Examples.records 0 5 |}.
Proof.
  intros srv first.
  split; [vm_compute; reflexivity|].
  split; [by vm_compute|].
  split; [eexists; vm_compute; reflexivity|].
  split; vm_compute; reflexivity.
Qed.

(** C5, amended.  Take [fetch_all_with_cursor] at any point of its run: the
    pages [rs] were fetched, none of them ended the loop, and the next
    request is answered with [response].  The target is set by the first
    page of the run: the smaller of the count it reports and the ceiling,
    and the count itself when there is no ceiling or the ceiling is zero.
    If [response] is empty, or carries no continuation token, or brings the
    records accumulated to the target, the function returns after this
    request, with the records of all the pages in order; so a page without
    a token is the last one however few records were retrieved.  Otherwise
    it has not returned after this request: the run is one page longer and
    the next request carries the token of [response]. *)
Theorem cursor_stops_exactly_when :
  forall EMAIL srv endpoint params max_results rs st response,
    OpenAlex.cursor_run EMAIL srv endpoint max_results
      (OpenAlex.cursor_init params) rs st ->
    (OpenAlex.api_request EMAIL srv (length (OpenAlex.sent st)) endpoint
       (OpenAlex.params st)).1 = Returns response ->
    let count := OpenAlex.meta_count (hd response rs) in
    let target :=
      match max_results with
      | Some ceiling => if ceiling =? 0 then count else Z.min count ceiling
      | None => count
      end in
    let records :=
      concat (OpenAlex.results <$> rs) ++ OpenAlex.results response in
    (OpenAlex.results response = []
     \/ truthy_str (OpenAlex.meta_next_cursor response) = false
     \/ target <= len records ->
     forall extra,
       OpenAlex.fetch_all_with_cursor EMAIL (S (length rs) + extra) srv
         endpoint params max_results
       = Some {| OpenAlex.total := Some target;
                 OpenAlex.retrieved := len records;
                 OpenAlex.data := records |})
    /\ (OpenAlex.results response <> [] ->
        truthy_str (OpenAlex.meta_next_cursor response) = true ->
        len records < target ->
        (forall fuel,
            (fuel <= S (length rs))%nat ->
            OpenAlex.fetch_all_with_cursor EMAIL fuel srv endpoint params
              max_results = None)
        /\ exists st',
             OpenAlex.cursor_run EMAIL srv endpoint max_results
               (OpenAlex.cursor_init params) (rs ++ [response]) st'
             /\ OpenAlex.all_results st' = records
             /\ OpenAlex.params st' !! "cursor"
                = VStr <$> OpenAlex.meta_next_cursor response).
Proof.
  intros EMAIL srv endpoint params max_results rs st response Hrun Hreq
    count target records.
  destruct (cursor_run_all_results _ _ _ _ _ _ _ Hrun) as [Hall _].
  simpl in Hall.
  pose proof (cursor_run_target _ _ _ _ _ _ _ Hrun) as Htotal.
  destruct (cursor_iteration_cases _ _ _ max_results _ _ Hreq)
    as [Hstop Hgo].
  assert (match OpenAlex.total_count st with
          | Some t => t
          | None => if truthy_int max_results
                    then Z.min (OpenAlex.meta_count response)
                               (default 0 max_results)
                    else OpenAlex.meta_count response
          end = target) as Htarget.
  { subst target count. rewrite Htotal.
    destruct rs as [|first rs]; simpl;
      destruct max_results as [ceiling|]; simpl; try done;
      by destruct (ceiling =? 0). }
  rewrite Htarget, Hall in Hstop, Hgo. fold records in Hstop, Hgo. split.
  - intros Hcond extra.
    destruct (Hstop Hcond) as (st' & Hit & Hrecords & Htotal').
    unfold OpenAlex.fetch_all_with_cursor.
    replace (S (length rs) + extra)%nat with (length rs + S extra)%nat by lia.
    rewrite (cursor_run_loop _ _ _ _ _ _ _ Hrun). simpl. rewrite Hit. simpl.
    unfold OpenAlex.fetch_result. by rewrite Hrecords, Htotal'.
  - intros Hpage Htoken Hshort.
    destruct (Hgo Hpage Htoken Hshort) as (st' & Hit & Hrecords & Hcursor).
    pose proof (cursor_run_snoc _ _ _ _ _ _ _ _ _ Hrun Hreq Hit) as Hnext.
    split; [|by exists st'].
    intros fuel Hfuel. unfold OpenAlex.fetch_all_with_cursor.
    rewrite (cursor_run_still_running _ _ _ _ _ _ _ _ Hnext); [done|].
    rewrite length_app; simpl; lia.
Qed.

(** The theorem at work.  A first page of two records out of ten, without a
    continuation token, ends the retrieval; a first page of two records out
    of five with a token does not. *)
Lemma cursor_stops_exactly_when_witness :
  OpenAlex.fetch_all_with_cursor Examples.email 1 Examples.short_service
    "works" ∅ None
  = Some {| OpenAlex.total := Some 10; OpenAlex.retrieved := 2;
            OpenAlex.data := Examples.records 0 2 |}
  /\ OpenAlex.fetch_all_with_cursor Examples.email 1
       (Examples.cursor_service 5 2) "works" ∅ None = None.
Proof.
  split.
  - apply (proj1 (cursor_stops_exactly_when Examples.email
                    Examples.short_service "works" ∅ None []
                    (OpenAlex.cursor_init ∅) Examples.short_page
                    (OpenAlex.cursor_run_nil _ _ _ _ _) eq_refl)
             (or_intror (or_introl eq_refl)) 0%nat).
  - refine (proj1 (proj2 (cursor_stops_exactly_when Examples.email
                            (Examples.cursor_service 5 2) "works" ∅ None []
                            (OpenAlex.cursor_init ∅) (Examples.page 5 2 0)
                            (OpenAlex.cursor_run_nil _ _ _ _ _) _) _ _ _)
              1%nat _).
    + vm_compute; reflexivity.
    + vm_compute; discriminate.
    + vm_compute; reflexivity.
    + vm_compute; reflexivity.
    + simpl; lia.
Defined.

(** With a ceiling of zero the cursor loop makes the same passes as with no
    ceiling. *)
Lemma cursor_iteration_zero_ceiling EMAIL srv endpoint st :
  OpenAlex.cursor_iteration EMAIL srv endpoint (Some 0) st
  = OpenAlex.cursor_iteration EMAIL srv endpoint None st.
Proof. reflexivity. Qed.

Lemma cursor_loop_zero_ceiling EMAIL fuel srv endpoint st :
  OpenAlex.cursor_loop EMAIL fuel srv endpoint (Some 0) st
  = OpenAlex.cursor_loop EMAIL fuel srv endpoint None st.
Proof.
  revert st; induction fuel as [|fuel IH]; intros st; simpl; [done|].
  rewrite cursor_iteration_zero_ceiling.
  destruct (OpenAlex.cursor_iteration _ _ _ _ _); [done | apply IH].
Qed.

Lemma offset_iteration_zero_ceiling client base_query batch_size st :
  Dimensions.offset_iteration client base_query (Some 0) batch_size st
  = Dimensions.offset_iteration client base_query None batch_size st.
Proof. reflexivity. Qed.

Lemma offset_loop_zero_ceiling fuel client base_query batch_size st :
  Dimensions.offset_loop fuel client base_query (Some 0) batch_size st
  = Dimensions.offset_loop fuel client base_query None batch_size st.
Proof.
  revert st; induction fuel as [|fuel IH]; intros st; simpl; [done|].
  rewrite offset_iteration_zero_ceiling.
  destruct (Dimensions.offset_iteration _ _ _ _ _); [done | apply IH].
Qed.

(** The records a loop ends with start with those it began with and, when
    the first request is answered, with the page it brought. *)
Lemma cursor_loop_extends EMAIL fuel srv endpoint max_results st st' :
  OpenAlex.cursor_loop EMAIL fuel srv endpoint max_results st = Some st' ->
  exists rest, OpenAlex.all_results st' = OpenAlex.all_results st ++ rest.
Proof.
  revert st; induction fuel as [|fuel IH]; intros st; simpl; [discriminate|].
  destruct (OpenAlex.cursor_iteration _ _ _ _ st) as [s|s] eqn:Hit.
  - intros [= <-]. revert Hit.
    unfold OpenAlex.cursor_iteration, OpenAlex.api_request; simpl.
    repeat case_match; intros [= <-]; simpl;
      ((by exists []; rewrite app_nil_r) || by eexists).
  - intros Hloop. destruct (IH _ Hloop) as [rest Hrest]. revert Hit.
    unfold OpenAlex.cursor_iteration, OpenAlex.api_request; simpl.
    repeat case_match; try discriminate; intros [= <-]; simpl in *;
      rewrite Hrest, <- app_assoc; by eexists.
Qed.

Lemma cursor_loop_first_page EMAIL fuel srv endpoint max_results st st'
    response :
  (OpenAlex.api_request EMAIL srv (length (OpenAlex.sent st)) endpoint
     (OpenAlex.params st)).1 = Returns response ->
  OpenAlex.cursor_loop EMAIL fuel srv endpoint max_results st = Some st' ->
  exists rest,
    OpenAlex.all_results st'
    = OpenAlex.all_results st ++ OpenAlex.results response ++ rest.
Proof.
  destruct fuel as [|fuel]; simpl; [discriminate|]. intros Hreq.
  destruct (OpenAlex.cursor_iteration _ _ _ _ st) as [s|s] eqn:Hit.
  - intros [= <-]. revert Hit.
    unfold OpenAlex.cursor_iteration, OpenAlex.api_request in *; simpl in *.
    rewrite Hreq.
    repeat case_match; intros [= <-]; simpl; exists [];
      by rewrite ?app_nil_r.
  - intros Hloop.
    destruct (cursor_loop_extends _ _ _ _ _ _ _ Hloop) as [rest Hrest].
    destruct (cursor_iteration_continue _ _ _ _ _ _ _ Hreq Hit) as [Hs _].
    exists rest. by rewrite Hrest, Hs, <- app_assoc.
Qed.

Lemma offset_loop_extends fuel client base_query max_results batch_size st st' :
  Dimensions.offset_loop fuel client base_query max_results batch_size st
    = Some st' ->
  exists rest, Dimensions.all_results st' = Dimensions.all_results st ++ rest.
Proof.
  revert st; induction fuel as [|fuel IH]; intros st; simpl; [discriminate|].
  destruct (Dimensions.offset_iteration _ _ _ _ st) as [s|s] eqn:Hit.
  - intros [= <-]. revert Hit.
    unfold Dimensions.offset_iteration; simpl.
    repeat case_match; simplify_eq /=; intros [= <-]; simpl;
      ((by exists []; rewrite app_nil_r) || by eexists).
  - intros Hloop. destruct (IH _ Hloop) as [rest Hrest]. revert Hit.
    unfold Dimensions.offset_iteration; simpl.
    repeat case_match; simplify_eq /=; try discriminate; intros [= <-];
      simpl in *; rewrite Hrest, <- app_assoc; by eexists.
Qed.

Lemma offset_loop_first_page fuel client base_query max_results batch_size
    st' response :
  batch_size <> 0 ->
  client 0%nat (Dimensions.paginated_query base_query batch_size
                  Dimensions.offset_init) = Returns response ->
  Dimensions.offset_loop fuel client base_query max_results batch_size
    Dimensions.offset_init = Some st' ->
  exists rest,
    Dimensions.all_results st' = Dimensions.batch_data response ++ rest.
Proof.
  destruct fuel as [|fuel]; simpl; [discriminate|]. intros Hsize Hreq.
  destruct (Dimensions.offset_iteration _ _ _ _ _) as [s|s] eqn:Hit.
  - intros [= <-]. revert Hit.
    unfold Dimensions.offset_iteration, Dimensions.paginated_query in *;
      simpl in *. rewrite Hreq.
    destruct (Z.eqb_spec batch_size 0); [done|].
    repeat case_match; simplify_eq /=; intros [= <-]; simpl; exists [];
      by rewrite ?app_nil_r.
  - intros Hloop.
    destruct (offset_loop_extends _ _ _ _ _ _ _ Hloop) as [rest Hrest].
    destruct (offset_iteration_continue _ _ _ _ _ _ _ Hreq Hit) as [Hs _].
    exists rest. by rewrite Hrest, Hs.
Qed.

(** C7, as stated, fails: with a ceiling of zero and a service that holds
    three records, both operations return the three records. *)
Lemma zero_ceiling_counterexample :
  (exists res,
      OpenAlex.fetch_all_with_cursor Examples.email 5
        (Examples.cursor_service 3 200) "works" ∅ (Some 0) = Some res
      /\ OpenAlex.data res = Examples.records 0 3
      /\ OpenAlex.retrieved res = 3
      /\ OpenAlex.data res <> [])
  /\ (exists res,
        Dimensions.query_iterative Examples.keep_query Examples.no_save 5
          (Examples.paged_client "Q" 3 1000) "Q" (Some 0) 1000 true None
        = Some (Returns res)
        /\ Dimensions.data res = Examples.records 0 3
        /\ Dimensions.retrieved res = 3
        /\ Dimensions.data res <> []).
Proof.
  split; eexists; (split; [vm_compute; reflexivity|]); simpl; done.
Qed.

(** C7, amended.  A ceiling of zero is no ceiling: [if max_results:] skips
    it, so an operation given zero does exactly what it does when given
    none.  In particular the records of the first page, when the first
    request is answered, head the records returned. *)
Theorem zero_ceiling_is_no_ceiling :
  (forall EMAIL fuel srv endpoint params,
      OpenAlex.fetch_all_with_cursor EMAIL fuel srv endpoint params (Some 0)
      = OpenAlex.fetch_all_with_cursor EMAIL fuel srv endpoint params None)
  /\ (forall base_query_of process_and_save fuel client dsl_query batch_size
             save save_format,
        Dimensions.query_iterative base_query_of process_and_save fuel client
          dsl_query (Some 0) batch_size save save_format
        = Dimensions.query_iterative base_query_of process_and_save fuel
            client dsl_query None batch_size save save_format)
  /\ (forall EMAIL fuel srv endpoint params response res,
        (OpenAlex.api_request EMAIL srv 0 endpoint
           (OpenAlex.params (OpenAlex.cursor_init params))).1
          = Returns response ->
        OpenAlex.fetch_all_with_cursor EMAIL fuel srv endpoint params (Some 0)
          = Some res ->
        exists rest, OpenAlex.data res = OpenAlex.results response ++ rest)
  /\ (forall base_query_of process_and_save fuel client dsl_query batch_size
             save save_format response res,
        Z.min batch_size 1000 <> 0 ->
        client 0%nat
          (Dimensions.paginated_query (base_query_of dsl_query)
             (Z.min batch_size 1000) Dimensions.offset_init)
          = Returns response ->
        Dimensions.query_iterative base_query_of process_and_save fuel client
          dsl_query (Some 0) batch_size save save_format
          = Some (Returns res) ->
        exists rest,
          Dimensions.data res = Dimensions.batch_data response ++ rest).
Proof.
  repeat split.
  - intros. unfold OpenAlex.fetch_all_with_cursor.
    by rewrite cursor_loop_zero_ceiling.
  - intros. unfold Dimensions.query_iterative. simpl.
    by rewrite offset_loop_zero_ceiling.
  - intros EMAIL fuel srv endpoint params response res Hreq.
    unfold OpenAlex.fetch_all_with_cursor.
    destruct (OpenAlex.cursor_loop _ _ _ _ _ _) as [st'|] eqn:Hloop;
      [|discriminate].
    intros [= <-]; simpl.
    apply (cursor_loop_first_page _ _ _ _ _ _ _ _ Hreq Hloop).
  - intros base_query_of process_and_save fuel client dsl_query batch_size
      save save_format response res Hsize Hreq.
    unfold Dimensions.query_iterative; simpl.
    destruct (Dimensions.offset_loop _ _ _ _ _ _) as [st'|] eqn:Hloop;
      [|discriminate].
    destruct (process_and_save _ _ _ _); [|discriminate].
    intros [= <-]; simpl.
    apply (offset_loop_first_page _ _ _ _ _ _ _ Hsize Hreq Hloop).
Qed.

(** The theorem at work: three records, a ceiling of zero. *)
Lemma zero_ceiling_is_no_ceiling_witness :
  exists res rest,
    OpenAlex.fetch_all_with_cursor Examples.email 5
      (Examples.cursor_service 3 200) "works" ∅ (Some 0) = Some res
    /\ OpenAlex.data res
       = OpenAlex.results (Examples.page 3 200 0) ++ rest.
Proof.
  pose (res := OpenAlex.fetch_result
                 (Examples.after
                    (OpenAlex.cursor_iteration Examples.email
                       (Examples.cursor_service 3 200) "works" (Some 0)
                       (OpenAlex.cursor_init ∅)))).
  assert (OpenAlex.fetch_all_with_cursor Examples.email 5
            (Examples.cursor_service 3 200) "works" ∅ (Some 0) = Some res)
    as Hres by (vm_compute; reflexivity).
  assert ((OpenAlex.api_request Examples.email (Examples.cursor_service 3 200)
             0 "works" (OpenAlex.params (OpenAlex.cursor_init ∅))).1
          = Returns (Examples.page 3 200 0))
    as Hreq by (vm_compute; reflexivity).
  destruct (proj1 (proj2 (proj2 zero_ceiling_is_no_ceiling)) Examples.email
              5%nat (Examples.cursor_service 3 200) "works" ∅
              (Examples.page 3 200 0) res Hreq Hres) as [rest Hrest].
  by exists res, rest.
Defined.

(** C1, at a ceiling the code overshoots.  Cursor mode: a service holding
    1000 records, asked with a ceiling of 250, has 400 records retrieved
    (two whole pages of 200).  Offset mode: a client holding 3000 records,
    asked with a ceiling of 2500, has 3000 retrieved.  In both the count
    returned is the length of the data, and exceeds the ceiling. *)
Theorem retrieved_exceeds_ceiling :
  (exists res,
      OpenAlex.fetch_all_with_cursor Examples.email 10
        (Examples.cursor_service 1000 200) "works" ∅ (Some 250) = Some res
      /\ OpenAlex.retrieved res = len (OpenAlex.data res)
      /\ OpenAlex.retrieved res = 400
      /\ OpenAlex.total res = Some 250
      /\ ~ OpenAlex.retrieved res <= 250)
  /\ (exists res,
        Dimensions.query_iterative Examples.keep_query Examples.no_save 10
          (Examples.paged_client "Q" 3000 1000) "Q" (Some 2500) 1000 true None
        = Some (Returns res)
        /\ Dimensions.retrieved res = len (Dimensions.data res)
        /\ Dimensions.retrieved res = 3000
        /\ Dimensions.total res = Some 2500
        /\ ~ Dimensions.retrieved res <= 2500).
Proof.
  split; eexists; (split; [vm_compute; reflexivity|]);
    (split; [vm_compute; reflexivity|]);
    (split; [vm_compute; reflexivity|]);
    (split; [vm_compute; reflexivity|]); vm_compute; congruence.
Qed.

(** C2, at a client that holds more records than the ceiling.  With the
    batch size capped at 1000 (5000 was asked for) and a ceiling of 2500,
    [query_iterative] sends three queries, each with [limit 1000]; a client
    holding 3000 records answers them with 1000, 1000 and 1000 records, all
    of which are kept.  The pages are 1000, 1000 and 500 only when the client
    holds exactly 2500 records. *)
Theorem ceiling_2500_pages :
  (fun st => (Dimensions.sent st, Dimensions.api_calls st,
              len (Dimensions.all_results st)))
    <$> Dimensions.offset_loop 10 (Examples.paged_client "Q" 3000 1000) "Q"
          (Some 2500) (Z.min 5000 1000) Dimensions.offset_init
  = Some (["Q limit 1000 skip 0"; "Q limit 1000 skip 1000";
           "Q limit 1000 skip 2000"],
          [(1, 3, 1000); (2, 3, 1000); (3, 3, 1000)], 3000)
  /\ (fun st => (Dimensions.sent st, Dimensions.api_calls st,
                 len (Dimensions.all_results st)))
       <$> Dimensions.offset_loop 10 (Examples.paged_client "Q" 2500 1000) "Q"
             (Some 2500) (Z.min 5000 1000) Dimensions.offset_init
     = Some (["Q limit 1000 skip 0"; "Q limit 1000 skip 1000";
              "Q limit 1000 skip 2000"],
             [(1, 3, 1000); (2, 3, 1000); (3, 3, 500)], 2500).
Proof. split; vm_compute; reflexivity. Qed.

(** Both retrievals return, given enough fuel, what their loop ended
    with. *)
Lemma fetch_all_ends EMAIL srv endpoint params max_results :
  exists fuel st,
    forall extra,
      OpenAlex.cursor_loop EMAIL (fuel + extra) srv endpoint max_results
        (OpenAlex.cursor_init params) = Some st
      /\ OpenAlex.fetch_all_with_cursor EMAIL (fuel + extra) srv endpoint
           params max_results = Some (OpenAlex.fetch_result st).
Proof.
  destruct (cursor_loop_terminates EMAIL srv endpoint max_results
              (OpenAlex.cursor_init params)) as (fuel & st & Hloop).
  exists fuel, st. intros extra.
  pose proof (cursor_loop_more_fuel _ _ _ _ _ _ _ Hloop extra) as Hmore.
  split; [done|]. unfold OpenAlex.fetch_all_with_cursor. by rewrite Hmore.
Qed.

Lemma query_iterative_ends base_query_of process_and_save client dsl_query
    max_results save save_format :
  exists fuel st,
    forall extra,
      Dimensions.offset_loop (fuel + extra) client (base_query_of dsl_query)
        max_results 1000 Dimensions.offset_init = Some st
      /\ Dimensions.query_iterative base_query_of process_and_save
           (fuel + extra) client dsl_query max_results 1000 save save_format
         = Some match process_and_save dsl_query (Dimensions.all_results st)
                        save save_format with
                | Raises e => Raises e
                | Returns saved_path =>
                    Returns
                      {| Dimensions.total := Dimensions.total_count st;
                         Dimensions.retrieved :=
                           len (Dimensions.all_results st);
                         Dimensions.data := Dimensions.all_results st;
                         Dimensions.saved_to := saved_path;
                         Dimensions.query := dsl_query |}
                end.
Proof.
  destruct (offset_loop_terminates client (base_query_of dsl_query)
              max_results 1000 Dimensions.offset_init)
    as (fuel & st & Hloop).
  exists fuel, st. intros extra.
  pose proof (offset_loop_more_fuel _ _ _ _ _ _ _ Hloop extra) as Hmore.
  split; [done|]. unfold Dimensions.query_iterative.
  change (Z.min 1000 1000) with 1000. change (1000 =? 0) with false.
  rewrite andb_false_r, Hmore. by destruct (process_and_save _ _ _ _).
Qed.

(** The test that sends a Dimensions search down the paginated path. *)
Lemma paginated_path iterative max_results :
  iterative = true \/ (exists ceiling, max_results = Some ceiling
                                       /\ 1000 < ceiling) ->
  iterative || truthy_int max_results && (default 0 max_results >? 1000)
  = true.
Proof.
  intros [-> | (ceiling & -> & Hceiling)]; [done|]. simpl.
  destruct (Z.eqb_spec ceiling 0); [lia|].
  destruct (Z.gtb_spec ceiling 1000); [|lia]. apply orb_true_r.
Qed.

Lemma search_by_display_name_paginated EMAIL set_iter save_results entity
    probe srv w query filters limit page sort select ceiling save :
  200 < ceiling ->
  exists fuel st,
    forall extra,
      OpenAlex.cursor_loop EMAIL (fuel + extra) srv entity (Some ceiling)
        (OpenAlex.cursor_init
           (OpenAlex.display_name_params query filters sort select))
      = Some st
      /\ exists outcome w',
           OpenAlex.search_by_display_name EMAIL set_iter save_results entity
             (fuel + extra) probe srv w query filters limit page sort select
             (Some ceiling) save = Some (outcome, w')
           /\ match outcome with
              | Returns r =>
                  OpenAlex.se_entities r = take 20 (OpenAlex.all_results st)
                  /\ OpenAlex.se_returned r = len (OpenAlex.all_results st)
                  /\ OpenAlex.se_total r = OpenAlex.total_count st
              | Raises e =>
                  (truthy_str select = true
                   /\ (OpenAlex.validate_select_fields EMAIL set_iter probe w
                         entity select).1 = Raises e)
                  \/ (save = true
                      /\ save_results entity query (OpenAlex.all_results st)
                         = Raises e)
              end.
Proof.
  intros Hceiling.
  destruct (fetch_all_ends EMAIL srv entity
              (OpenAlex.display_name_params query filters sort select)
              (Some ceiling)) as (fuel & st & Hends).
  exists fuel, st. intros extra. destruct (Hends extra) as [Hloop Hfetch].
  split; [done|]. unfold OpenAlex.search_by_display_name.
  destruct (truthy_str select) eqn:Hselect.
  - destruct (OpenAlex.validate_select_fields EMAIL set_iter probe w entity
                select) as [[[]|e] w1] eqn:Hvalid.
    2: { eexists _, _. split; [done|]. by left. }
    rewrite Hfetch. simpl.
    destruct (Z.eqb_spec ceiling 0); [lia|].
    destruct (Z.gtb_spec ceiling 200); [|lia]. simpl.
    destruct save; simpl.
    + destruct (frame_empty (OpenAlex.all_results st)); simpl.
      * by eexists _, _.
      * destruct (save_results entity query (OpenAlex.all_results st))
          as [saved_path|e] eqn:Hsave; eexists _, _; (split; [done|]);
          [done | by right].
    + by eexists _, _.
  - rewrite Hfetch. simpl.
    destruct (Z.eqb_spec ceiling 0); [lia|].
    destruct (Z.gtb_spec ceiling 200); [|lia]. simpl.
    destruct save; simpl.
    + destruct (frame_empty (OpenAlex.all_results st)); simpl.
      * by eexists _, _.
      * destruct (save_results entity query (OpenAlex.all_results st))
          as [saved_path|e] eqn:Hsave; eexists _, _; (split; [done|]);
          [done | by right].
    + by eexists _, _.
Qed.

Lemma search_dsl_paginated base_query_of process_and_save save_results source
    client dsl query_terms limit skip iterative max_results save :
  iterative = true \/ (exists ceiling, max_results = Some ceiling
                                       /\ 1000 < ceiling) ->
  exists fuel st,
    forall extra,
      Dimensions.offset_loop (fuel + extra) client (base_query_of dsl)
        max_results 1000 Dimensions.offset_init = Some st
      /\ exists outcome,
           Dimensions.search_dsl base_query_of process_and_save save_results
             source (fuel + extra) client dsl query_terms limit skip
             iterative max_results save = Some outcome
           /\ match outcome with
              | Returns r =>
                  Dimensions.sr_records r
                    = take 20 (Dimensions.all_results st)
                  /\ Dimensions.sr_returned r
                     = len (Dimensions.all_results st)
                  /\ Dimensions.sr_total r = Dimensions.total_count st
              | Raises e =>
                  process_and_save dsl (Dimensions.all_results st) save None
                  = Raises e
              end.
Proof.
  intros Hpath.
  destruct (query_iterative_ends base_query_of process_and_save client dsl
              max_results save None) as (fuel & st & Hends).
  exists fuel, st. intros extra. destruct (Hends extra) as [Hloop Hquery].
  split; [done|]. unfold Dimensions.search_dsl.
  rewrite (paginated_path _ _ Hpath), Hquery.
  destruct (process_and_save dsl (Dimensions.all_results st) save None)
    as [saved_path|e]; by eexists.
Qed.

(** C10, as stated, fails: a raw query that retrieves 150 records on the
    paginated path returns the first 100 of them under [json.data], next to
    a [retrieved] count of 150. *)
Lemma raw_query_lists_100_counterexample :
  Dimensions.raw_query Examples.keep_query Examples.no_save
    Examples.save_to_tmp 2 (Examples.paged_client "Q" 150 1000)
    Examples.offline_raw "Q" false true None
  = Some (Returns (Dimensions.RawPaginated (Some 150) 150 None
                     (Examples.records 0 100) "Q"))
  /\ ~ (length (Examples.records 0 100) <= 20)%nat.
Proof.
  split; [vm_compute; reflexivity|].
  unfold Examples.records. rewrite length_fmap, length_seq. lia.
Qed.

(** C10, amended.  Each of the ten search functions with a paginated path
    ([search_works], [search_authors], [search_institutions],
    [search_sources], [search_funders]; [search_publications],
    [search_grants], [search_patents], [search_clinical_trials],
    [search_researchers]) returns, when it takes that path: the pagination
    ends, and unless the validation of [select] or the saving raised, the
    list under the entity key is the first 20 of the records the pagination
    accumulated and [returned] is the number of all of them.  [raw_query]
    on its paginated path lists the first 100 under [json.data], next to
    [retrieved], the number of all of them. *)
Theorem paginated_search_lists_first_20 :
  (forall EMAIL set_iter save_results probe srv w query filters search_field
          limit page sort select ceiling save,
      200 < ceiling ->
      exists fuel st,
        forall extra,
          OpenAlex.cursor_loop EMAIL (fuel + extra) srv "works" (Some ceiling)
            (OpenAlex.cursor_init
               (OpenAlex.works_params query filters search_field sort select))
          = Some st
          /\ exists outcome w',
               OpenAlex.search_works EMAIL set_iter save_results
                 (fuel + extra) probe srv w query filters search_field limit
                 page sort select (Some ceiling) save = Some (outcome, w')
               /\ match outcome with
                  | Returns r =>
                      OpenAlex.sw_works r
                        = take 20 (OpenAlex.all_results st)
                      /\ OpenAlex.sw_returned r
                         = len (OpenAlex.all_results st)
                      /\ OpenAlex.sw_total r = OpenAlex.total_count st
                  | Raises e =>
                      (truthy_str select = true
                       /\ (OpenAlex.validate_select_fields EMAIL set_iter
                             probe w "works" select).1 = Raises e)
                      \/ (save = true
                          /\ save_results "works" query
                               (OpenAlex.all_results st) = Raises e)
                  end)
  /\ (forall EMAIL set_iter save_results entity search,
        (entity, search)
          ∈ [("authors",
              OpenAlex.search_authors EMAIL set_iter save_results);
             ("institutions",
              OpenAlex.search_institutions EMAIL set_iter save_results);
             ("sources",
              OpenAlex.search_sources EMAIL set_iter save_results);
             ("funders",
              OpenAlex.search_funders EMAIL set_iter save_results)] ->
        forall probe srv w query filters limit page sort select ceiling save,
          200 < ceiling ->
          exists fuel st,
            forall extra,
              OpenAlex.cursor_loop EMAIL (fuel + extra) srv entity
                (Some ceiling)
                (OpenAlex.cursor_init
                   (OpenAlex.display_name_params query filters sort select))
              = Some st
              /\ exists outcome w',
                   search (fuel + extra)%nat probe srv w query filters limit
                     page sort select (Some ceiling) save
                   = Some (outcome, w')
                   /\ match outcome with
                      | Returns r =>
                          OpenAlex.se_entities r
                            = take 20 (OpenAlex.all_results st)
                          /\ OpenAlex.se_returned r
                             = len (OpenAlex.all_results st)
                          /\ OpenAlex.se_total r = OpenAlex.total_count st
                      | Raises e =>
                          (truthy_str select = true
                           /\ (OpenAlex.validate_select_fields EMAIL set_iter
                                 probe w entity select).1 = Raises e)
                          \/ (save = true
                              /\ save_results entity query
                                   (OpenAlex.all_results st) = Raises e)
                      end)
  /\ (forall base_query_of process_and_save save_results client query_terms
             filters fields limit skip iterative max_results save,
        iterative = true
        \/ (exists ceiling, max_results = Some ceiling /\ 1000 < ceiling) ->
        let dsl := Dimensions.publications_dsl query_terms filters fields in
        exists fuel st,
          forall extra,
            Dimensions.offset_loop (fuel + extra) client (base_query_of dsl)
              max_results 1000 Dimensions.offset_init = Some st
            /\ exists outcome,
                 Dimensions.search_publications base_query_of process_and_save
                   save_results (fuel + extra) client query_terms filters
                   fields limit skip iterative max_results save
                 = Some outcome
                 /\ match outcome with
                    | Returns r =>
                        Dimensions.sp_publications r
                          = take 20 (Dimensions.all_results st)
                        /\ Dimensions.sp_returned r
                           = len (Dimensions.all_results st)
                        /\ Dimensions.sp_total r = Dimensions.total_count st
                    | Raises e =>
                        process_and_save dsl (Dimensions.all_results st) save
                          None = Raises e
                    end)
  /\ (forall base_query_of process_and_save save_results source search,
        (source, search)
          ∈ [("grants",
              Dimensions.search_grants base_query_of process_and_save
                save_results);
             ("patents",
              Dimensions.search_patents base_query_of process_and_save
                save_results);
             ("clinical_trials",
              Dimensions.search_clinical_trials base_query_of
                process_and_save save_results)] ->
        forall client query_terms filters fields limit skip iterative
               max_results save,
          iterative = true
          \/ (exists ceiling, max_results = Some ceiling /\ 1000 < ceiling) ->
          let dsl := Dimensions.source_dsl source query_terms filters fields in
          exists fuel st,
            forall extra,
              Dimensions.offset_loop (fuel + extra) client
                (base_query_of dsl) max_results 1000 Dimensions.offset_init
              = Some st
              /\ exists outcome,
                   search (fuel + extra)%nat client query_terms filters fields
                     limit skip iterative max_results save = Some outcome
                   /\ match outcome with
                      | Returns r =>
                          Dimensions.sr_records r
                            = take 20 (Dimensions.all_results st)
                          /\ Dimensions.sr_returned r
                             = len (Dimensions.all_results st)
                          /\ Dimensions.sr_total r
                             = Dimensions.total_count st
                      | Raises e =>
                          process_and_save dsl (Dimensions.all_results st)
                            save None = Raises e
                      end)
  /\ (forall base_query_of process_and_save save_results client query_terms
             filters fields limit iterative max_results save,
        iterative = true
        \/ (exists ceiling, max_results = Some ceiling /\ 1000 < ceiling) ->
        let dsl := Dimensions.researchers_dsl query_terms filters fields in
        exists fuel st,
          forall extra,
            Dimensions.offset_loop (fuel + extra) client (base_query_of dsl)
              max_results 1000 Dimensions.offset_init = Some st
            /\ exists outcome,
                 Dimensions.search_researchers base_query_of process_and_save
                   save_results (fuel + extra) client query_terms filters
                   fields limit iterative max_results save = Some outcome
                 /\ match outcome with
                    | Returns r =>
                        Dimensions.sr_records r
                          = take 20 (Dimensions.all_results st)
                        /\ Dimensions.sr_returned r
                           = len (Dimensions.all_results st)
                        /\ Dimensions.sr_total r = Dimensions.total_count st
                    | Raises e =>
                        process_and_save dsl (Dimensions.all_results st) save
                          None = Raises e
                    end)
  /\ (forall base_query_of process_and_save save_results client raw_client
             dsl_query save iterative max_results,
        iterative = true
        \/ (exists ceiling, max_results = Some ceiling /\ 1000 < ceiling) ->
        exists fuel st,
          forall extra,
            Dimensions.offset_loop (fuel + extra) client
              (base_query_of dsl_query) max_results 1000
              Dimensions.offset_init = Some st
            /\ Dimensions.raw_query base_query_of process_and_save
                 save_results (fuel + extra) client raw_client dsl_query save
                 iterative max_results
               = Some match process_and_save dsl_query
                              (Dimensions.all_results st) save None with
                      | Raises e => Raises e
                      | Returns saved_path =>
                          Returns
                            (Dimensions.RawPaginated
                               (Dimensions.total_count st)
                               (len (Dimensions.all_results st))
                               saved_path
                               (take 100 (Dimensions.all_results st))
                               dsl_query)
                      end).
Proof.
  split; [|split; [|split; [|split; [|split]]]].
  - intros EMAIL set_iter save_results probe srv w query filters search_field
      limit page sort select ceiling save Hceiling.
    destruct (fetch_all_ends EMAIL srv "works"
                (OpenAlex.works_params query filters search_field sort select)
                (Some ceiling)) as (fuel & st & Hends).
    exists fuel, st. intros extra. destruct (Hends extra) as [Hloop Hfetch].
    split; [done|]. unfold OpenAlex.search_works.
    destruct (truthy_str select) eqn:Hselect.
    + destruct (OpenAlex.validate_select_fields EMAIL set_iter probe w "works"
                  select) as [[[]|e] w1] eqn:Hvalid.
      2: { eexists _, _. split; [done|]. by left. }
      rewrite Hfetch. simpl.
      destruct (Z.eqb_spec ceiling 0); [lia|].
      destruct (Z.gtb_spec ceiling 200); [|lia]. simpl.
      destruct save; simpl; [|by eexists _, _].
      destruct (frame_empty (OpenAlex.all_results st)); simpl;
        [by eexists _, _|].
      destruct (save_results "works" query (OpenAlex.all_results st))
        as [saved_path|e] eqn:Hsave; eexists _, _; (split; [done|]);
        [done | by right].
    + rewrite Hfetch. simpl.
      destruct (Z.eqb_spec ceiling 0); [lia|].
      destruct (Z.gtb_spec ceiling 200); [|lia]. simpl.
      destruct save; simpl; [|by eexists _, _].
      destruct (frame_empty (OpenAlex.all_results st)); simpl;
        [by eexists _, _|].
      destruct (save_results "works" query (OpenAlex.all_results st))
        as [saved_path|e] eqn:Hsave; eexists _, _; (split; [done|]);
        [done | by right].
  - intros EMAIL set_iter save_results entity search Hsearch probe srv w query
      filters limit page sort select ceiling save Hceiling.
    repeat (apply elem_of_cons in Hsearch as [[= -> ->] | Hsearch]);
      [..| by apply elem_of_nil in Hsearch];
      by apply search_by_display_name_paginated.
  - intros base_query_of process_and_save save_results client query_terms
      filters fields limit skip iterative max_results save Hpath dsl.
    destruct (query_iterative_ends base_query_of process_and_save client dsl
                max_results save None) as (fuel & st & Hends).
    exists fuel, st. intros extra. destruct (Hends extra) as [Hloop Hquery].
    split; [done|]. unfold Dimensions.search_publications. fold dsl.
    rewrite (paginated_path _ _ Hpath), Hquery.
    destruct (process_and_save dsl (Dimensions.all_results st) save None)
      as [saved_path|e]; by eexists.
  - intros base_query_of process_and_save save_results source search Hsearch
      client query_terms filters fields limit skip iterative max_results save
      Hpath dsl.
    repeat (apply elem_of_cons in Hsearch as [[= -> ->] | Hsearch]);
      [..| by apply elem_of_nil in Hsearch];
      by apply search_dsl_paginated.
  - intros base_query_of process_and_save save_results client query_terms
      filters fields limit iterative max_results save Hpath dsl.
    by apply search_dsl_paginated.
  - intros base_query_of process_and_save save_results client raw_client
      dsl_query save iterative max_results Hpath.
    destruct (query_iterative_ends base_query_of process_and_save client
                dsl_query max_results save None) as (fuel & st & Hends).
    exists fuel, st. intros extra. destruct (Hends extra) as [Hloop Hquery].
    split; [done|]. unfold Dimensions.raw_query.
    rewrite (paginated_path _ _ Hpath), Hquery.
    by destruct (process_and_save dsl_query (Dimensions.all_results st) save
                   None).
Qed.

(** The theorem at work.  450 works served 200 a page with a ceiling of 300:
    400 are retrieved and 20 listed.  30 publications retrieved in one
    batch: 30 are reported and 20 listed. *)
Lemma paginated_search_lists_first_20_witness :
  (exists fuel r w',
      OpenAlex.search_works Examples.email elements Examples.save_to_tmp fuel
        Examples.offline_probe (Examples.cursor_service 450 200)
        Examples.empty_openalex (Some "climate") None None 25 1 None None
        (Some 300) false = Some (Returns r, w')
      /\ OpenAlex.sw_returned r = 400
      /\ OpenAlex.sw_works r = Examples.records 0 20)
  /\ (exists fuel r,
        Dimensions.search_publications Examples.keep_query Examples.no_save
          Examples.save_to_tmp fuel
          (Examples.paged_client
             (Dimensions.publications_dsl "climate" None None) 30 1000)
          "climate" None None 20 0 true None false = Some (Returns r)
        /\ Dimensions.sp_returned r = 30
        /\ Dimensions.sp_publications r = Examples.records 0 20).
Proof.
  split.
  - destruct (proj1 paginated_search_lists_first_20 Examples.email elements
                Examples.save_to_tmp Examples.offline_probe
                (Examples.cursor_service 450 200) Examples.empty_openalex
                (Some "climate") None None 25 1 None None 300 false
                ltac:(lia)) as (fuel & st & Hends).
    destruct (Hends 3%nat) as (Hloop & outcome & w' & Hsearch & Houtcome).
    assert (exists st0,
              OpenAlex.cursor_loop Examples.email 3
                (Examples.cursor_service 450 200) "works" (Some 300)
                (OpenAlex.cursor_init
                   (OpenAlex.works_params (Some "climate") None None None
                      None)) = Some st0
              /\ OpenAlex.all_results st0 = Examples.records 0 400)
      as (st0 & Hrun & Hall)
      by (eexists; split; vm_compute; reflexivity).
    pose proof (cursor_loop_more_fuel _ _ _ _ _ _ _ Hrun fuel) as Hmore.
    rewrite Nat.add_comm, Hloop in Hmore. injection Hmore as ->.
    destruct outcome as [r|e].
    + exists (fuel + 3)%nat, r, w'. split; [done|].
      destruct Houtcome as (Hworks & Hreturned & _).
      rewrite Hworks, Hreturned, Hall. split; vm_compute; reflexivity.
    + by destruct Houtcome as [[? _] | [? _]].
  - destruct (proj1 (proj2 (proj2 paginated_search_lists_first_20))
                Examples.keep_query Examples.no_save Examples.save_to_tmp
                (Examples.paged_client
                   (Dimensions.publications_dsl "climate" None None) 30 1000)
                "climate" None None 20 0 true None false
                (or_introl eq_refl)) as (fuel & st & Hends).
    destruct (Hends 1%nat) as (Hloop & outcome & Hsearch & Houtcome).
    assert (exists st0,
              Dimensions.offset_loop 1
                (Examples.paged_client
                   (Dimensions.publications_dsl "climate" None None) 30 1000)
                (Examples.keep_query
                   (Dimensions.publications_dsl "climate" None None))
                None 1000 Dimensions.offset_init = Some st0
              /\ Dimensions.all_results st0 = Examples.records 0 30)
      as (st0 & Hrun & Hall)
      by (eexists; split; vm_compute; reflexivity).
    pose proof (offset_loop_more_fuel _ _ _ _ _ _ _ Hrun fuel) as Hmore.
    rewrite Nat.add_comm, Hloop in Hmore. injection Hmore as ->.
    destruct outcome as [r|e]; [|done].
    exists (fuel + 1)%nat, r. split; [done|].
    destruct Houtcome as (Hlisted & Hreturned & _).
    rewrite Hlisted, Hreturned, Hall. split; vm_compute; reflexivity.
Defined.

(** ** File names *)

Lemma take_chars_length n s :
  String.length (PyStr.take_chars n s) = Nat.min n (String.length s).
Proof.
  revert s; induction n as [|n IH]; intros [|c s]; simpl; try done.
  by rewrite IH.
Qed.

Lemma map_chars_length f s :
  String.length (PyStr.map_chars f s) = String.length s.
Proof. induction s as [|c s IH]; simpl; [done | by rewrite IH]. Qed.

Lemma take_chars_get n s i :
  (i < n)%nat -> String.get i (PyStr.take_chars n s) = String.get i s.
Proof.
  revert s i; induction n as [|n IH]; intros [|c s] [|i] Hi; simpl;
    try done; try lia.
  apply IH; lia.
Qed.

Lemma map_chars_get f s i :
  String.get i (PyStr.map_chars f s) = f <$> String.get i s.
Proof.
  revert i; induction s as [|c s IH]; intros [|i]; simpl; auto.
Qed.

(** C9, as stated, fails: a blank in the term is replaced by an underscore,
    not dropped. *)
Lemma filename_counterexample :
  Common.generate_filename PyStr.ascii_isalnum "20250101_120000" "works"
    (Some "machine learning")
  = "works_machine_learning_20250101_120000"
  /\ Common.specified_basename PyStr.ascii_isalnum "20250101_120000" "works"
       (Some "machine learning")
     = "works_machinelearning_20250101_120000"
  /\ Common.generate_filename PyStr.ascii_isalnum "20250101_120000" "works"
       (Some "machine learning")
     <> Common.specified_basename PyStr.ascii_isalnum "20250101_120000"
          "works" (Some "machine learning").
Proof. repeat split; vm_compute; congruence. Qed.

(** C9, amended.  With a non-empty term the name is
    [{prefix}_{clean}_{timestamp}], where [clean] has one character for each
    of the first 30 characters of the term: the character itself when it is
    alphanumeric, an underscore otherwise.  Without a term, or with an empty
    one, the name is [{prefix}_{timestamp}]. *)
Theorem filename_replaces_non_alphanumerics :
  forall isalnum timestamp prefix query_terms,
    (forall terms, query_terms = Some terms -> terms <> EmptyString ->
       exists clean,
         Common.generate_filename isalnum timestamp prefix query_terms
         = prefix +:+ "_" +:+ clean +:+ "_" +:+ timestamp
         /\ String.length clean = Nat.min 30 (String.length terms)
         /\ forall i, (i < String.length clean)%nat ->
              exists c,
                String.get i terms = Some c
                /\ String.get i clean
                   = Some (if isalnum c then c else "_"%char))
    /\ (query_terms = None \/ query_terms = Some EmptyString ->
        Common.generate_filename isalnum timestamp prefix query_terms
        = prefix +:+ "_" +:+ timestamp).
Proof.
  intros isalnum timestamp prefix query_terms; split.
  - intros terms -> Hterms. unfold Common.generate_filename, truthy_str.
    change (default EmptyString (Some terms)) with terms.
    destruct (String.eqb_spec terms ""); [done|].
    cbn [negb]. eexists; split; [reflexivity|].
    rewrite map_chars_length, take_chars_length. split; [done|].
    intros i Hi.
    destruct (String.get i terms) as [c|] eqn:Hget.
    + exists c; split; [done|].
      rewrite map_chars_get, take_chars_get, Hget by lia. done.
    + exfalso. revert Hget Hi. clear.
      generalize 30%nat as n.
      revert i; induction terms as [|c s IH]; intros [|i] n; simpl;
        try done; try lia.
      intros Hget Hi. destruct n as [|n]; [simpl in Hi; lia|].
      apply (IH i n Hget). simpl in Hi. lia.
  - by intros [-> | ->].
Qed.

(** The theorem at work: the blank of a two-word term. *)
Lemma filename_replaces_non_alphanumerics_witness :
  exists clean,
    Common.generate_filename PyStr.ascii_isalnum "20250101_120000" "works"
      (Some "machine learning")
    = "works" +:+ "_" +:+ clean +:+ "_" +:+ "20250101_120000"
    /\ String.length clean = 16%nat
    /\ String.get 7 clean = Some "_"%char.
Proof.
  destruct (proj1 (filename_replaces_non_alphanumerics PyStr.ascii_isalnum
                     "20250101_120000" "works" (Some "machine learning"))
              "machine learning" eq_refl ltac:(discriminate))
    as (clean & Hname & Hlen & Hget).
  exists clean. split; [exact Hname|]. split; [exact Hlen|].
  destruct (Hget 7%nat ltac:(rewrite Hlen; simpl; lia)) as (c & Hc & Hclean).
  injection Hc as <-. exact Hclean.
Defined.

(** ** Cleaning for parquet *)

Lemma count_shape_cons shape val vals :
  Common.count_shape shape (val :: vals)
  = (if shape val then 1 else 0) + Common.count_shape shape vals.
Proof.
  unfold Common.count_shape, len; simpl.
  destruct (shape val); simpl; lia.
Qed.

Lemma count_shape_nonneg shape vals : 0 <= Common.count_shape shape vals.
Proof. unfold Common.count_shape, len; lia. Qed.

(** The counting loop counts, per shape, the values of that shape; an empty
    string, an empty list and an empty dictionary are counted nowhere. *)
Lemma count_types_from lists dicts primitives vals :
  foldl Common.count_value
        [("list", lists); ("dict", dicts); ("primitive", primitives)] vals
  = [("list", lists + Common.count_shape Common.is_list_shape vals);
     ("dict", dicts + Common.count_shape Common.is_dict_shape vals);
     ("primitive",
      primitives + Common.count_shape Common.is_primitive_shape vals)].
Proof.
  revert lists dicts primitives.
  induction vals as [|val vals IH]; intros lists dicts primitives.
  - unfold Common.count_shape, len; simpl. by rewrite !Z.add_0_r.
  - rewrite !count_shape_cons.
    destruct val as [| | | | |s|[|x xs]|[|kv kvs]]; simpl;
      try destruct (String.eqb_spec s ""); simpl; rewrite IH;
      by rewrite ?Z.add_0_l, ?Z.add_assoc.
Qed.

Lemma count_types_counts vals :
  Common.count_types vals
  = [("list", Common.count_shape Common.is_list_shape vals);
     ("dict", Common.count_shape Common.is_dict_shape vals);
     ("primitive", Common.count_shape Common.is_primitive_shape vals)].
Proof. unfold Common.count_types. by rewrite count_types_from. Qed.

(** The dominant type, by cases on the three counts: [max] keeps the first
    of the greatest, in the order list, dict, primitive; only when all three
    counts are zero does the code fall back on primitive. *)
Lemma dominant_type_cases lists dicts primitives :
  0 <= lists -> 0 <= dicts -> 0 <= primitives ->
  Common.dominant_type_of
    [("list", lists); ("dict", dicts); ("primitive", primitives)]
  = if (lists =? 0) && (dicts =? 0) && (primitives =? 0) then "primitive"
    else if (dicts <=? lists) && (primitives <=? lists) then "list"
    else if primitives <=? dicts then "dict"
    else "primitive".
Proof.
  intros Hl Hd Hp. unfold Common.dominant_type_of, Common.max_key; simpl.
  destruct (Z.gtb_spec dicts lists); simpl;
    destruct (Z.gtb_spec primitives dicts);
    destruct (Z.gtb_spec primitives lists); simpl;
    repeat match goal with
           | |- context [?a =? ?b] => destruct (Z.eqb_spec a b); simpl
           | |- context [?a <=? ?b] => destruct (Z.leb_spec a b); simpl
           end; try done; lia.
Qed.

(** Where one count is strictly the greatest, the code picks its shape, as
    the specification says. *)
Lemma strict_maximum_is_dominant lists dicts primitives :
  0 <= lists -> 0 <= dicts -> 0 <= primitives ->
  (dicts < lists /\ primitives < lists)
  \/ (lists < dicts /\ primitives < dicts)
  \/ (lists < primitives /\ dicts < primitives) ->
  Common.dominant_type_of
    [("list", lists); ("dict", dicts); ("primitive", primitives)]
  = Common.specified_dominant_type lists dicts primitives.
Proof.
  intros Hl Hd Hp Hmax. rewrite dominant_type_cases by done.
  unfold Common.specified_dominant_type.
  repeat match goal with
         | |- context [?a =? ?b] => destruct (Z.eqb_spec a b); simpl
         | |- context [?a <=? ?b] => destruct (Z.leb_spec a b); simpl
         | |- context [?a >? ?b] => destruct (Z.gtb_spec a b); simpl
         end; try done; lia.
Qed.

(** Whenever the list shape is among the greatest counts, and that count is
    not zero, the code picks the list shape, tie or no tie. *)
Lemma tie_is_not_resolved_to_primitive lists dicts primitives :
  0 <= dicts -> 0 <= primitives -> 0 < lists ->
  dicts <= lists -> primitives <= lists ->
  Common.dominant_type_of
    [("list", lists); ("dict", dicts); ("primitive", primitives)] = "list".
Proof.
  intros Hd Hp Hl Hdl Hpl. rewrite dominant_type_cases by lia.
  repeat match goal with
         | |- context [?a =? ?b] => destruct (Z.eqb_spec a b); simpl
         | |- context [?a <=? ?b] => destruct (Z.leb_spec a b); simpl
         end; try done; lia.
Qed.

(** A value that is not of the dominant shape becomes null, and so does
    every empty string, in both helpers. *)
Lemma openalex_clean_value_nulls dominant val :
  (val = VStr EmptyString -> OpenAlex.clean_value dominant val = VNone)
  /\ (dominant = "list" -> Common.is_list_shape val = false ->
      OpenAlex.clean_value dominant val = VNone)
  /\ (dominant = "dict" -> Common.is_dict_shape val = false ->
      OpenAlex.clean_value dominant val = VNone)
  /\ (dominant = "primitive" -> Common.is_primitive_shape val = false ->
      OpenAlex.clean_value dominant val = VNone).
Proof.
  repeat split.
  - intros ->. unfold OpenAlex.clean_value. by repeat case_match.
  - intros -> Hshape. by destruct val as [| | | | | |[|? ?]|].
  - intros -> Hshape. by destruct val as [| | | | | | |[|? ?]].
  - intros -> Hshape.
    destruct val as [| | | | |s| |]; try done. simpl in *.
    by destruct (String.eqb s "").
Qed.

Lemma dimensions_clean_value_nulls dominant val :
  (val = VStr EmptyString -> Dimensions.clean_value dominant val = VNone)
  /\ (dominant = "list" -> Common.is_list_shape val = false ->
      Dimensions.clean_value dominant val = VNone)
  /\ (dominant = "dict" -> Common.is_dict_shape val = false ->
      Dimensions.clean_value dominant val = VNone)
  /\ (dominant = "primitive" -> Common.is_primitive_shape val = false ->
      Dimensions.clean_value dominant val = VNone).
Proof.
  repeat split.
  - intros ->. unfold Dimensions.clean_value. by repeat case_match.
  - intros -> Hshape. by destruct val as [| | | | | |[|? ?]|].
  - intros -> Hshape. by destruct val as [| | | | | | |[|? ?]].
  - intros -> Hshape.
    destruct val as [| | | | |s| |]; try done. simpl in *.
    by destruct (String.eqb s "").
Qed.

(** C4, at a tie.  A column holding one list and one string has the counts
    list 1, dict 0, primitive 1; the code's dominant type is the list shape,
    where the specification's tie-break gives the scalar shape, and the
    cleaned column keeps the list and nulls the string, in both helpers. *)
Theorem tie_goes_to_list_shape :
  Common.count_types (Common.dropna [VList [VInt 1]; VStr "a"])
  = [("list", 1); ("dict", 0); ("primitive", 1)]
  /\ Common.dominant_type_of
       (Common.count_types (Common.dropna [VList [VInt 1]; VStr "a"]))
     = "list"
  /\ Common.specified_dominant_type 1 0 1 = "primitive"
  /\ OpenAlex.clean_column
       {| Common.dtype_is_object := true;
          Common.cells := [VList [VInt 1]; VStr "a"] |}
     = [VList [VInt 1]; VNone]
  /\ Dimensions.clean_column
       {| Common.dtype_is_object := true;
          Common.cells := [VList [VInt 1]; VStr "a"] |}
     = [VList [VInt 1]; VNone].
Proof. repeat split; vm_compute; reflexivity. Qed.

(** ** Field validation *)

Lemma append_assoc (a b c : string) : (a +:+ b) +:+ c = a +:+ (b +:+ c).
Proof.
  induction a as [|x a IH]; [done|].
  change (String x ((a +:+ b) +:+ c) = String x (a +:+ (b +:+ c))).
  by rewrite IH.
Qed.

Lemma prefix_refl (x : string) : String.prefix x x = true.
Proof.
  induction x as [|c x IH]; simpl; [done|].
  by destruct (Ascii.ascii_dec c c).
Qed.

Lemma prefix_append (x s post : string) :
  String.prefix x s = true -> String.prefix x (s +:+ post) = true.
Proof.
  revert s; induction x as [|c x IH]; intros [|d s]; simpl; try done.
  - by destruct post.
  - destruct (Ascii.ascii_dec c d); [apply IH | done].
Qed.

Lemma contains_unfold (x s : string) :
  PyStr.contains x s
  = String.prefix x s
    || match s with
       | EmptyString => false
       | String _ rest => PyStr.contains x rest
       end.
Proof. by destruct s. Qed.

Lemma contains_prefix (x s : string) :
  String.prefix x s = true -> PyStr.contains x s = true.
Proof. intros Hp. rewrite contains_unfold, Hp. done. Qed.

Lemma contains_refl (x : string) : PyStr.contains x x = true.
Proof. apply contains_prefix, prefix_refl. Qed.

Lemma contains_in_left (x s post : string) :
  PyStr.contains x s = true -> PyStr.contains x (s +:+ post) = true.
Proof.
  induction s as [|c s IH]; rewrite contains_unfold.
  - rewrite orb_false_r. intros Hp.
    by apply contains_prefix, (prefix_append x EmptyString post).
  - intros [Hp | Hc]%orb_true_iff.
    + by apply contains_prefix, (prefix_append x (String c s) post).
    + rewrite contains_unfold.
      change (String c s +:+ post) with (String c (s +:+ post)).
      cbv beta iota.
      rewrite (IH Hc). apply orb_true_r.
Qed.

Lemma contains_in_right (x pre s : string) :
  PyStr.contains x s = true -> PyStr.contains x (pre +:+ s) = true.
Proof.
  intros Hx. induction pre as [|c pre IH]; [done|].
  rewrite contains_unfold.
  change (String c pre +:+ s) with (String c (pre +:+ s)).
  cbv beta iota.
  rewrite IH. apply orb_true_r.
Qed.

(** A member of a list is part of the list joined. *)
Lemma contains_join (x sep : string) (xs : list string) :
  x ∈ xs -> PyStr.contains x (PyStr.join sep xs) = true.
Proof.
  unfold PyStr.join. induction xs as [|y ys IH]; [by intros ?%elem_of_nil|].
  intros [-> | Hin]%elem_of_cons.
  - destruct ys; simpl; [apply contains_refl|].
    apply contains_in_left, contains_refl.
  - destruct ys as [|z zs]; [by apply elem_of_nil in Hin|].
    change (String.concat sep (y :: z :: zs))
      with (y +:+ sep +:+ String.concat sep (z :: zs)).
    by apply contains_in_right, contains_in_right, IH.
Qed.

(** [x] is one of the pieces a string was put together from. *)
Ltac find_piece :=
  first [ apply contains_refl
        | apply contains_in_left; find_piece
        | apply contains_in_right; find_piece ].

(** The suggestions are at most five valid fields that contain the token. *)
Lemma suggestions_are_valid (set_iter : gset string -> list string)
    (token : string) (valid : gset string) :
  (forall s x, x ∈ set_iter s <-> x ∈ s) ->
  let suggestions :=
    slice_to 5 (List.filter (PyStr.contains token) (set_iter valid)) in
  (length suggestions <= 5)%nat
  /\ forall f, f ∈ suggestions ->
       f ∈ valid /\ PyStr.contains token f = true.
Proof.
  intros Hiter suggestions; subst suggestions; unfold slice_to; split.
  - rewrite length_take. lia.
  - intros f (i & Hi & _)%elem_of_take.
    apply list_elem_of_lookup_2, list_elem_of_In, filter_In in Hi
      as [Hin Htoken].
    split; [|done]. by apply Hiter, list_elem_of_In.
Qed.

(** With the source in the cache, no discovery is attempted. *)
Lemma fetch_source_metadata_cached describe w source valid_facets :
  Dimensions.facets (Dimensions._valid_fields_cache w) !! source
    = Some valid_facets ->
  Dimensions._fetch_source_metadata describe w source = w.
Proof. unfold Dimensions._fetch_source_metadata. by intros ->. Qed.

Lemma fetch_group_by_fields_cached EMAIL probe w entity_type valid_fields :
  OpenAlex.group_by (OpenAlex._valid_fields_cache w) !! entity_type
    = Some valid_fields ->
  OpenAlex._fetch_valid_group_by_fields EMAIL probe w entity_type
  = (valid_fields, w).
Proof. unfold OpenAlex._fetch_valid_group_by_fields. by intros ->. Qed.

(** C6, as stated, fails.  OpenAlex: with the set for [works] cached, a
    rejected [group_by] field gets a message that names none of the valid
    fields.  Dimensions: a set that was cached empty lets every facet
    through. *)
Lemma validation_message_counterexample :
  (let w := (OpenAlex.validate_group_by_field Examples.email elements
               Examples.works_probe Examples.empty_openalex "works"
               "oa_status").2 in
   elements <$> OpenAlex.group_by (OpenAlex._valid_fields_cache w) !! "works"
   = Some ["oa_status"; "type"; "publication_year"]
   /\ exists msg,
        (OpenAlex.validate_group_by_field Examples.email elements
           Examples.works_probe w "works" "zzz").1
        = Raises (ValueError msg)
        /\ PyStr.contains "oa_status" msg = false
        /\ PyStr.contains "type" msg = false
        /\ PyStr.contains "publication_year" msg = false)
  /\ (let w := (Dimensions.validate_facet elements Examples.facetless_describe
                  Examples.empty_dimensions "publications" "title").2 in
      elements <$> Dimensions.facets (Dimensions._valid_fields_cache w)
                     !! "publications"
      = Some []
      /\ (Dimensions.validate_facet elements Examples.facetless_describe w
            "publications" "no_such_facet").1 = Returns ()).
Proof.
  split; (split; [vm_compute; reflexivity|]).
  - eexists; split; [vm_compute; reflexivity|]. by vm_compute.
  - vm_compute; reflexivity.
Qed.

(** [x] is listed in one of the pieces a string was put together from. *)
Ltac find_listed :=
  first [ by apply contains_join
        | apply contains_in_left; find_listed
        | apply contains_in_right; find_listed ].

(** C6, amended.  When the set of valid fields cached for a source is not
    empty, validating one of its members returns, and validating a field
    that is not in it raises a [ValueError].  Its message is spelled out
    below.  It names the field; when valid fields contain the first token
    of the field (what comes before its first underscore for a Dimensions
    facet, before its first dot for an OpenAlex [group_by] field), it lists
    the first five of them, in the order in which the set yields them, and
    otherwise no suggestion.  The Dimensions message lists, further, the
    first fifteen valid facets in sorted order followed by three dots; the
    OpenAlex message ends with the link to the documentation and lists no
    valid fields.  Neither call touches the cache or the network. *)
Theorem validation_accepts_members_and_explains_rejections :
  forall set_iter : gset string -> list string,
    (forall s x, x ∈ set_iter s <-> x ∈ s) ->
    (forall describe w source facet valid_facets,
        Dimensions.facets (Dimensions._valid_fields_cache w) !! source
          = Some valid_facets ->
        valid_facets <> ∅ ->
        (facet ∈ valid_facets ->
         Dimensions.validate_facet set_iter describe w source facet
         = (Returns (), w))
        /\ (facet ∉ valid_facets ->
            let token := default EmptyString (PyStr.split "_" facet !! 0%nat) in
            let similar :=
              List.filter (PyStr.contains token) (set_iter valid_facets) in
            let suggestions := take 5 similar in
            let listed := take 15 (PyStr.sorted (set_iter valid_facets)) in
            exists msg,
              Dimensions.validate_facet set_iter describe w source facet
              = (Raises (ValueError msg), w)
              /\ msg
                 = "Invalid facet '" +:+ facet +:+ "' for " +:+ source +:+ "."
                   +:+ PyStr.newline
                   +:+ (if bool_decide (similar = []) then ""
                        else "Similar valid facets: "
                             +:+ PyStr.join ", " suggestions +:+ PyStr.newline)
                   +:+ "Valid facets: " +:+ PyStr.join ", " listed +:+ "..."
                   +:+ PyStr.newline
                   +:+ "Use 'describe " +:+ source
                   +:+ "' to see all available facets."
              /\ length suggestions = Nat.min 5 (length similar)
              /\ (forall f, f ∈ suggestions ->
                    f ∈ valid_facets
                    /\ PyStr.contains token f = true
                    /\ PyStr.contains f msg = true)
              /\ (forall f, f ∈ listed ->
                    f ∈ valid_facets /\ PyStr.contains f msg = true)
              /\ PyStr.contains facet msg = true))
    /\ (forall EMAIL probe w entity_type group_field valid_fields,
          OpenAlex.group_by (OpenAlex._valid_fields_cache w) !! entity_type
            = Some valid_fields ->
          valid_fields <> ∅ ->
          (group_field ∈ valid_fields ->
           OpenAlex.validate_group_by_field EMAIL set_iter probe w
             entity_type group_field = (Returns (), w))
          /\ (group_field ∉ valid_fields ->
              let token :=
                default EmptyString (PyStr.split "." group_field !! 0%nat) in
              let similar :=
                List.filter (PyStr.contains token) (set_iter valid_fields) in
              let suggestions := take 5 similar in
              exists msg,
                OpenAlex.validate_group_by_field EMAIL set_iter probe w
                  entity_type group_field = (Raises (ValueError msg), w)
                /\ msg
                   = "Invalid group_by field '" +:+ group_field +:+ "' for "
                     +:+ entity_type +:+ "." +:+ PyStr.newline
                     +:+ (if bool_decide (similar = []) then ""
                          else "Similar valid fields: "
                               +:+ PyStr.join ", " suggestions
                               +:+ PyStr.newline)
                     +:+ "See https://docs.openalex.org/how-to-use-the-api/get-groups-of-entities for all valid fields."
                /\ length suggestions = Nat.min 5 (length similar)
                /\ (forall f, f ∈ suggestions ->
                      f ∈ valid_fields
                      /\ PyStr.contains token f = true
                      /\ PyStr.contains f msg = true)
                /\ PyStr.contains group_field msg = true
                /\ PyStr.contains
                     "https://docs.openalex.org/how-to-use-the-api/get-groups-of-entities"
                     msg = true)).
Proof.
  intros set_iter Hiter; split.
  - intros describe w source facet valid_facets Hcached Hne.
    split; [intros Hin | intros Hout token similar suggestions listed];
      unfold Dimensions.validate_facet;
      rewrite (fetch_source_metadata_cached _ _ _ _ Hcached), Hcached;
      change (default ∅ (Some valid_facets)) with valid_facets;
      rewrite (bool_decide_eq_false_2 (valid_facets = ∅)) by done.
    + by rewrite (bool_decide_eq_true_2 (facet ∈ valid_facets)).
    + rewrite (bool_decide_eq_false_2 (facet ∈ valid_facets)) by done.
      eexists. split; [reflexivity|].
      destruct (suggestions_are_valid set_iter token valid_facets Hiter)
        as [_ Hvalid].
      unfold Dimensions.facet_error, Dimensions.suggestions_for, slice_to.
      fold token. fold similar. fold suggestions. fold listed.
      assert
        ((match suggestions with
          | [] => ""
          | _ :: _ => "Similar valid facets: " +:+ PyStr.join ", " suggestions
                      +:+ PyStr.newline
          end)
         = (if bool_decide (similar = []) then ""
            else "Similar valid facets: " +:+ PyStr.join ", " suggestions
                 +:+ PyStr.newline)) as ->.
      { subst suggestions. by destruct similar. }
      split; [by rewrite !append_assoc|].
      split; [subst suggestions; rewrite length_take; lia|].
      split; [|split].
      * intros f Hf. destruct (Hvalid f Hf) as [Hin Htoken].
        split; [done|]. split; [done|].
        rewrite bool_decide_eq_false_2
          by (intros Hnil; subst suggestions; rewrite Hnil in Hf;
              by apply elem_of_nil in Hf).
        find_listed.
      * intros f Hf. split; [|find_listed].
        apply Hiter. apply elem_of_take in Hf as (i & Hi & _).
        apply list_elem_of_lookup_2 in Hi.
        unfold PyStr.sorted in Hi. by rewrite merge_sort_Permutation in Hi.
      * find_piece.
  - intros EMAIL probe w entity_type group_field valid_fields Hcached Hne.
    split; [intros Hin | intros Hout token similar suggestions];
      unfold OpenAlex.validate_group_by_field;
      rewrite (fetch_group_by_fields_cached _ _ _ _ _ Hcached);
      rewrite (bool_decide_eq_false_2 (valid_fields = ∅)) by done.
    + by rewrite (bool_decide_eq_true_2 (group_field ∈ valid_fields)).
    + rewrite (bool_decide_eq_false_2 (group_field ∈ valid_fields)) by done.
      eexists. split; [reflexivity|].
      destruct (suggestions_are_valid set_iter token valid_fields Hiter)
        as [_ Hvalid].
      unfold OpenAlex.group_by_error, OpenAlex.suggestions_for, slice_to.
      fold token. fold similar. fold suggestions.
      assert
        ((match suggestions with
          | [] => ""
          | _ :: _ => "Similar valid fields: " +:+ PyStr.join ", " suggestions
                      +:+ PyStr.newline
          end)
         = (if bool_decide (similar = []) then ""
            else "Similar valid fields: " +:+ PyStr.join ", " suggestions
                 +:+ PyStr.newline)) as ->.
      { subst suggestions. by destruct similar. }
      split; [by rewrite !append_assoc|].
      split; [subst suggestions; rewrite length_take; lia|].
      split; [|split].
      * intros f Hf. destruct (Hvalid f Hf) as [Hin Htoken].
        split; [done|]. split; [done|].
        rewrite bool_decide_eq_false_2
          by (intros Hnil; subst suggestions; rewrite Hnil in Hf;
              by apply elem_of_nil in Hf).
        find_listed.
      * find_piece.
      * by apply contains_in_right, contains_in_right.
Qed.

(** The theorem at work: the facets of a source once described.  [year] is
    accepted; [funder_org] is rejected with [funders] as the suggestion. *)
Lemma validation_accepts_members_and_explains_rejections_witness :
  let w := (Dimensions.validate_facet elements Examples.publications_describe
              Examples.empty_dimensions "publications" "year").2 in
  Dimensions.validate_facet elements Examples.publications_describe w
    "publications" "year" = (Returns (), w)
  /\ exists msg,
       Dimensions.validate_facet elements Examples.publications_describe w
         "publications" "funder_org" = (Raises (ValueError msg), w)
       /\ PyStr.contains "Invalid facet 'funder_org' for publications." msg
          = true
       /\ PyStr.contains "Similar valid facets: funders" msg = true
       /\ PyStr.contains "Valid facets: funders, research_orgs, year..." msg
          = true.
Proof.
  intros w.
  pose (valid_facets :=
          Dimensions.facets_of
            (Dimensions.fields_data
               match Examples.publications_describe 0%nat
                       "describe source publications" with
               | Returns result => result
               | Raises _ => {| Dimensions.fields_data := [];
                                Dimensions.metrics_data := [] |}
               end)).
  assert (Dimensions.facets (Dimensions._valid_fields_cache w)
            !! "publications" = Some valid_facets) as Hcached
    by (vm_compute; reflexivity).
  assert ("year" ∈ valid_facets) as Hyear
    by (apply (bool_decide_unpack _); vm_compute; exact I).
  assert ("funder_org" ∉ valid_facets) as Hfunder
    by (apply (bool_decide_unpack _); vm_compute; exact I).
  assert (valid_facets <> ∅) as Hne by set_solver.
  destruct (proj1 (validation_accepts_members_and_explains_rejections elements
                     (fun s x => elem_of_elements s x))
              Examples.publications_describe w "publications" "year"
              valid_facets Hcached Hne) as [Hmember _].
  destruct (proj1 (validation_accepts_members_and_explains_rejections elements
                     (fun s x => elem_of_elements s x))
              Examples.publications_describe w "publications" "funder_org"
              valid_facets Hcached Hne) as [_ Hreject].
  split; [exact (Hmember Hyear)|].
  destruct (Hreject Hfunder) as (msg & Hraise & Hmsg & _).
  exists msg. split; [done|]. rewrite Hmsg. clear.
  split; [|split]; vm_compute; reflexivity.
Defined.







(** * Further properties *)

(** ** The pagination loops *)

Section CursorInvariants.

Import OpenAlex.

Variable EMAIL : string.
Variable srv : Service.
Variable endpoint : string.
Variable max_results : option Z.

Notation iteration := (cursor_iteration EMAIL srv endpoint max_results).
Notation loop := (fun fuel => cursor_loop EMAIL fuel srv endpoint max_results).

(** Every pass sends one request; a pass that goes on has fetched at least
    one record. *)
Lemma cursor_iteration_counts st :
  match iteration st with
  | Break st' =>
      length (sent st') = S (length (sent st))
      /\ (length (all_results st) <= length (all_results st'))%nat
  | Continue st' =>
      length (sent st') = S (length (sent st))
      /\ (length (all_results st) < length (all_results st'))%nat
  end.
Proof.
  unfold cursor_iteration, api_request; simpl.
  destruct (srv _ _ _) as [response|e]; simpl;
    [|rewrite length_app; simpl; lia].
  destruct (results response) as [|x xs]; simpl;
    [rewrite length_app; simpl; lia|].
  repeat (case_match; simplify_eq /=); rewrite ?length_app; simpl; lia.
Qed.

Lemma cursor_loop_requests fuel st st' :
  loop fuel st = Some st' ->
  (length (sent st) <= length (all_results st))%nat ->
  (length (sent st') <= length (all_results st') + 1)%nat.
Proof.
  revert st; induction fuel as [|fuel IH]; intros st; simpl; [discriminate|].
  pose proof (cursor_iteration_counts st) as Hcounts.
  destruct (iteration st) as [s|s].
  - intros [= <-] Hinv. lia.
  - intros Hloop Hinv. apply (IH _ Hloop). lia.
Qed.

End CursorInvariants.

Section OffsetInvariants.

Import Dimensions.

Variable client : Client.
Variable base_query : string.
Variable max_results : option Z.
Variable batch_size : Z.

Notation iteration :=
  (offset_iteration client base_query max_results batch_size).
Notation loop :=
  (fun fuel => offset_loop fuel client base_query max_results batch_size).

Lemma offset_iteration_counts st :
  match iteration st with
  | Break st' =>
      length (sent st') = S (length (sent st))
      /\ (length (all_results st) <= length (all_results st'))%nat
  | Continue st' =>
      length (sent st') = S (length (sent st))
      /\ (length (all_results st) < length (all_results st'))%nat
  end.
Proof.
  unfold offset_iteration; simpl.
  destruct (client _ _) as [response|e]; simpl;
    [|rewrite length_app; simpl; lia].
  destruct (batch_data response) as [|x xs]; simpl;
    repeat (case_match; simplify_eq /=); rewrite ?length_app; simpl; lia.
Qed.

Lemma offset_loop_requests fuel st st' :
  loop fuel st = Some st' ->
  (length (sent st) <= length (all_results st))%nat ->
  (length (sent st') <= length (all_results st') + 1)%nat.
Proof.
  revert st; induction fuel as [|fuel IH]; intros st; simpl; [discriminate|].
  pose proof (offset_iteration_counts st) as Hcounts.
  destruct (iteration st) as [s|s].
  - intros [= <-] Hinv. lia.
  - intros Hloop Hinv. apply (IH _ Hloop). lia.
Qed.

End OffsetInvariants.

(** X1.  [fetch_all_with_cursor] always returns: for every service there is an
    amount of fuel with which the loop ends, any larger amount gives the same
    result, and the loop never sends more requests than it has fetched
    records, plus one. *)
Theorem cursor_pagination_ends :
  forall EMAIL srv endpoint params max_results,
    exists fuel st,
      (forall extra,
          OpenAlex.cursor_loop EMAIL (fuel + extra) srv endpoint max_results
            (OpenAlex.cursor_init params) = Some st
          /\ OpenAlex.fetch_all_with_cursor EMAIL (fuel + extra) srv endpoint
               params max_results = Some (OpenAlex.fetch_result st))
      /\ (length (OpenAlex.sent st)
          <= length (OpenAlex.all_results st) + 1)%nat.
Proof.
  intros EMAIL srv endpoint params max_results.
  destruct (cursor_loop_terminates EMAIL srv endpoint max_results
              (OpenAlex.cursor_init params)) as (fuel & st & Hloop).
  exists fuel, st. split.
  - intros extra.
    pose proof (cursor_loop_more_fuel _ _ _ _ _ _ _ Hloop extra) as Hmore.
    split; [done|]. unfold OpenAlex.fetch_all_with_cursor. by rewrite Hmore.
  - apply (cursor_loop_requests _ _ _ _ _ _ _ Hloop). simpl; lia.
Qed.

(** X2.  The loop of [query_iterative] always ends, with the same bound on the
    number of queries, and [query_iterative] returns or raises. *)
Theorem offset_pagination_ends :
  forall base_query_of process_and_save client dsl_query max_results
         batch_size save save_format,
    exists fuel st,
      (forall extra,
          Dimensions.offset_loop (fuel + extra) client
            (base_query_of dsl_query) max_results (Z.min batch_size 1000)
            Dimensions.offset_init = Some st
          /\ exists outcome,
               Dimensions.query_iterative base_query_of process_and_save
                 (fuel + extra) client dsl_query max_results batch_size save
                 save_format = Some outcome)
      /\ (length (Dimensions.sent st)
          <= length (Dimensions.all_results st) + 1)%nat.
Proof.
  intros base_query_of process_and_save client dsl_query max_results
    batch_size save save_format.
  destruct (offset_loop_terminates client (base_query_of dsl_query)
              max_results (Z.min batch_size 1000) Dimensions.offset_init)
    as (fuel & st & Hloop).
  exists fuel, st. split.
  - intros extra.
    pose proof (offset_loop_more_fuel _ _ _ _ _ _ _ Hloop extra) as Hmore.
    split; [done|]. unfold Dimensions.query_iterative. rewrite Hmore.
    repeat case_match; by eexists.
  - apply (offset_loop_requests _ _ _ _ _ _ _ Hloop). simpl; lia.
Qed.

Section OffsetReports.

Import Dimensions.

Variable client : Client.
Variable base_query : string.
Variable max_results : option Z.
Variable batch_size : Z.

Notation iteration :=
  (offset_iteration client base_query max_results batch_size).
Notation loop :=
  (fun fuel => offset_loop fuel client base_query max_results batch_size).
Notation inv := (offset_inv base_query batch_size).

Notation ended := (offset_ended base_query batch_size).

Lemma reported_records_app reports page pages records :
  reported_records (reports ++ [(page, pages, records)])
  = reported_records reports + records.
Proof.
  unfold reported_records. rewrite fmap_app.
  induction (_ <$> reports) as [|x xs IH]; simpl in *; lia.
Qed.

Lemma offset_inv_init : inv offset_init.
Proof. by repeat split. Qed.

Lemma offset_iteration_inv st :
  inv st ->
  match iteration st with
  | Break st' => ended st'
  | Continue st' => inv st'
  end.
Proof.
  intros (Hskip & Hpage & Hsent & Hlen & Hpages & Hsum & Hfirst).
  assert (sent st ++ [base_query +:+ " limit " +:+ pretty batch_size
                                 +:+ " skip " +:+ pretty (skip st)]
          = nth_query base_query batch_size
              <$> seq 0 (S (length (sent st)))) as Hnext.
  { rewrite seq_S, fmap_app, <- Hsent. simpl. unfold nth_query.
    by rewrite Hskip. }
  assert (forall pages records,
            (fun report : Z * Z * Z => report.1.1)
              <$> (api_calls st ++ [(page_num st + 1, pages, records)])
            = Z.of_nat <$> seq 1 (S (length (api_calls st)))) as Hreport.
  { intros pages records.
    rewrite fmap_app, seq_S, fmap_app, Hpages, Hpage, Hlen. simpl.
    do 2 f_equal. lia. }
  unfold offset_iteration, offset_inv, offset_ended.
  repeat (case_match; simplify_eq);
    cbn [all_results skip total_count total_pages page_num sent api_calls];
    rewrite ?length_app, ?reported_records_app; cbn [length];
    rewrite ?Nat.add_1_r, ?Hnext, ?Hreport, ?length_fmap, ?length_seq, ?Hsum,
      ?Hpage, ?Hskip;
    unfold len; rewrite ?length_app;
    repeat split; try done; try lia.
Qed.

Lemma offset_loop_ended fuel st st' :
  loop fuel st = Some st' -> inv st -> ended st'.
Proof.
  revert st; induction fuel as [|fuel IH]; intros st; simpl; [discriminate|].
  pose proof (offset_iteration_inv st) as Hit.
  destruct (iteration st) as [s|s].
  - intros [= <-] Hinv. by apply Hit.
  - intros Hloop Hinv. apply (IH _ Hloop). by apply Hit.
Qed.

(** The queries of a pagination: whatever the client answers, the loop
    sends [base limit b skip 0], [base limit b skip b], [base limit b skip
    2b], ... with the same limit throughout, at least one of them, and
    counts its pages as it sends them. *)
Lemma offset_loop_queries fuel st' :
  loop fuel offset_init = Some st' ->
  sent st' = nth_query base_query batch_size <$> seq 0 (length (sent st'))
  /\ page_num st' = Z.of_nat (length (sent st'))
  /\ (1 <= length (sent st'))%nat.
Proof.
  intros Hloop.
  destruct (offset_loop_ended _ _ _ Hloop offset_inv_init)
    as (Hsent & Hpage & _).
  split; [done|]. split; [done|].
  destruct fuel as [|fuel]; [discriminate|]. simpl in Hloop.
  pose proof (offset_iteration_counts client base_query max_results
                batch_size offset_init) as Hc.
  destruct (iteration offset_init) as [s|s].
  - injection Hloop as <-. lia.
  - clear -Hc Hloop.
    assert (forall fuel s s', loop fuel s = Some s' ->
              (length (sent s) <= length (sent s'))%nat) as Hmono.
    { clear. intros fuel. induction fuel as [|fuel IH]; intros s s'; simpl;
        [discriminate|].
      pose proof (offset_iteration_counts client base_query max_results
                    batch_size s) as Hc.
      destruct (iteration s) as [t|t].
      - intros [= <-]. lia.
      - intros Hloop. specialize (IH _ _ Hloop). lia. }
    specialize (Hmono _ _ _ Hloop). lia.
Qed.

(** X4.  The reports to [output.api_call]: the pages kept are numbered 1, 2, 3,
    ... in order, the record counts reported add up to the number of records
    retrieved, and at most the last query sent went unreported (it failed or
    brought nothing). *)
Theorem offset_reports_add_up fuel st' :
  loop fuel offset_init = Some st' ->
  (fun report => report.1.1) <$> api_calls st'
    = Z.of_nat <$> seq 1 (length (api_calls st'))
  /\ reported_records (api_calls st') = len (all_results st')
  /\ (length (api_calls st') <= length (sent st')
      <= length (api_calls st') + 1)%nat.
Proof.
  intros Hloop.
  by destruct (offset_loop_ended _ _ _ Hloop offset_inv_init)
    as (_ & _ & ? & ? & ?).
Qed.

End OffsetReports.

Section CursorRequests.

Import OpenAlex.

Variable EMAIL : string.
Variable srv : Service.
Variable endpoint : string.
Variable max_results : option Z.
Variable params0 : gmap string pyval.

Notation iteration := (cursor_iteration EMAIL srv endpoint max_results).
Notation loop := (fun fuel => cursor_loop EMAIL fuel srv endpoint max_results).
Notation good := (cursor_request EMAIL params0).

Notation ready := (cursor_ready EMAIL params0).

Lemma cursor_init_ready : ready (cursor_init params0).
Proof.
  unfold cursor_ready, cursor_init; simpl. split; [by simplify_map_eq|].
  split; [by eexists; simplify_map_eq|]. split; [|done].
  intros key ? ? ?. by simplify_map_eq.
Qed.

Lemma ready_request st :
  ready st -> good (<["mailto" := VStr EMAIL]> (params st)).
Proof.
  intros (Hpage & [cursor Hcursor] & Hother & _). unfold cursor_request.
  split; [by simplify_map_eq|]. split; [by simplify_map_eq|].
  split; [exists cursor; by simplify_map_eq|].
  intros key ? ? ?. simplify_map_eq. by apply Hother.
Qed.

Lemma cursor_iteration_ready st :
  ready st ->
  match iteration st with
  | Break st' => Forall good (sent st')
  | Continue st' => ready st'
  end.
Proof.
  intros Hready. pose proof (ready_request st Hready) as Hreq.
  destruct Hready as (Hpage & [cursor Hcursor] & Hother & Hsent).
  assert (Forall good (sent st ++ [<["mailto" := VStr EMAIL]> (params st)]))
    as Hsent' by (apply Forall_app; split; [done | by constructor]).
  unfold cursor_iteration, api_request, cursor_ready; cbn [fst snd].
  repeat (case_match; simplify_eq); cbn [sent params]; try done.
  all: split; [by simplify_map_eq|].
  all: split; [eexists; by simplify_map_eq|].
  all: split; [|done].
  all: intros key ? ? ?; simplify_map_eq; by apply Hother.
Qed.

(** X5.  Every request of a cursor pagination asks for 200 results a page,
    carries the e-mail address and a cursor, and passes the caller's other
    parameters on unchanged; the first one carries the cursor [*]. *)
Theorem cursor_requests_are_well_formed fuel st' :
  loop fuel (cursor_init params0) = Some st' ->
  Forall good (sent st')
  /\ sent st' !! 0%nat
     = Some (<["mailto" := VStr EMAIL]>
               (<["per_page" := VInt 200]> (<["cursor" := VStr "*"]> params0))).
Proof.
  intros Hloop. split.
  - revert Hloop. generalize (cursor_init params0), cursor_init_ready.
    induction fuel as [|fuel IH]; intros st Hready; simpl; [discriminate|].
    pose proof (cursor_iteration_ready st Hready) as Hit.
    destruct (iteration st) as [s|s].
    + by intros [= <-].
    + intros Hloop. by apply (IH s).
  - assert (forall fuel st s, loop fuel st = Some s ->
              forall request, sent st !! 0%nat = Some request ->
                              sent s !! 0%nat = Some request) as Hkeep.
    { clear. intros fuel. induction fuel as [|fuel IH]; intros st s; simpl;
        [discriminate|].
      assert (forall t, (iteration st = Break t \/ iteration st = Continue t)
                -> sent t = sent st
                            ++ [<["mailto" := VStr EMAIL]> (params st)])
        as Hsent.
      { intros t. unfold cursor_iteration, api_request; simpl.
        repeat case_match; intros [[= <-] | [= <-]]; done. }
      destruct (iteration st) as [t|t] eqn:Hit.
      - intros [= <-] request Hfirst. rewrite (Hsent t) by by left.
        by apply lookup_app_l_Some.
      - intros Hloop request Hfirst. apply (IH _ _ Hloop).
        rewrite (Hsent t) by by right. by apply lookup_app_l_Some. }
    destruct fuel as [|fuel]; [discriminate|]. simpl in Hloop.
    destruct (iteration (cursor_init params0)) as [t|t] eqn:Hit.
    + injection Hloop as <-. revert Hit.
      unfold cursor_iteration, api_request; simpl.
      repeat case_match; intros [= <-]; done.
    + apply (Hkeep _ _ _ Hloop). revert Hit.
      unfold cursor_iteration, api_request; simpl.
      repeat case_match; try discriminate; intros [= <-]; done.
Qed.

(** X6.  A pass that goes on hands the continuation token of the page it fetched
    to the next request. *)
Theorem cursor_follows_continuation_token st response st' :
  (api_request EMAIL srv (length (sent st)) endpoint (params st)).1
    = Returns response ->
  iteration st = Continue st' ->
  exists cursor,
    meta_next_cursor response = Some cursor
    /\ cursor <> EmptyString
    /\ (api_request EMAIL srv (length (sent st')) endpoint (params st')).2
         !! "cursor" = Some (VStr cursor).
Proof.
  unfold cursor_iteration, api_request; simpl. intros ->.
  destruct (results response); [discriminate|].
  destruct (_ >=? _); [discriminate|].
  destruct (meta_next_cursor response) as [cursor|] eqn:Hc; simpl;
    [|discriminate].
  destruct (String.eqb_spec cursor ""); simpl; [discriminate|].
  intros [= <-]. exists cursor. simpl. by simplify_map_eq.
Qed.

End CursorRequests.

(** X3.  [query_iterative] and its queries.  With a ceiling (not zero) and a
    batch size of zero it raises [ZeroDivisionError] at the estimate of the
    calls, before the loop is entered: whatever the fuel, even none.  In
    every other case its loop ends, whatever the client answers, having
    sent [base limit b skip 0], [base limit b skip b], [base limit b skip
    2b], ... with the same limit throughout, at least one of them, and
    having counted its pages as it sent them; and [query_iterative] returns
    what the loop accumulated, or raises what the processing and saving
    raised. *)
Theorem offset_queries_advance_by_batch :
  forall base_query_of process_and_save client dsl_query max_results
         batch_size save save_format,
    let b := Z.min batch_size 1000 in
    let base := base_query_of dsl_query in
    (truthy_int max_results = true -> b = 0 ->
     forall fuel,
       Dimensions.query_iterative base_query_of process_and_save fuel client
         dsl_query max_results batch_size save save_format
       = Some (Raises ZeroDivisionError))
    /\ (truthy_int max_results = false \/ b <> 0 ->
        exists fuel st,
          forall extra,
            Dimensions.offset_loop (fuel + extra) client base max_results b
              Dimensions.offset_init = Some st
            /\ Dimensions.query_iterative base_query_of process_and_save
                 (fuel + extra) client dsl_query max_results batch_size save
                 save_format
               = Some match process_and_save dsl_query
                              (Dimensions.all_results st) save save_format with
                      | Raises e => Raises e
                      | Returns saved_path =>
                          Returns
                            {| Dimensions.total := Dimensions.total_count st;
                               Dimensions.retrieved :=
                                 len (Dimensions.all_results st);
                               Dimensions.data := Dimensions.all_results st;
                               Dimensions.saved_to := saved_path;
                               Dimensions.query := dsl_query |}
                      end
            /\ Dimensions.sent st
               = Dimensions.nth_query base b
                   <$> seq 0 (length (Dimensions.sent st))
            /\ Dimensions.page_num st
               = Z.of_nat (length (Dimensions.sent st))
            /\ (1 <= length (Dimensions.sent st))%nat).
Proof.
  intros base_query_of process_and_save client dsl_query max_results
    batch_size save save_format b base. split.
  - intros Hceiling Hzero fuel. unfold Dimensions.query_iterative.
    fold b. by rewrite Hceiling, Hzero.
  - intros Hloops.
    destruct (offset_loop_terminates client base max_results b
                Dimensions.offset_init) as (fuel & st & Hloop).
    exists fuel, st. intros extra.
    pose proof (offset_loop_more_fuel _ _ _ _ _ _ _ Hloop extra) as Hmore.
    split; [done|]. split.
    + unfold Dimensions.query_iterative. fold b. fold base.
      assert (truthy_int max_results && (b =? 0) = false) as ->.
      { destruct Hloops as [-> | Hb]; [done|].
        destruct (Z.eqb_spec b 0); [done | apply andb_false_r]. }
      rewrite Hmore. by destruct (process_and_save _ _ _ _).
    + apply (offset_loop_queries _ _ _ _ _ _ Hloop).
Qed.

(** The queries of a run over ten records fetched two at a time, and the
    call with a ceiling and a batch size of zero. *)
Lemma offset_queries_advance_by_batch_witness :
  (forall fuel,
      Dimensions.query_iterative Examples.keep_query Examples.no_save fuel
        (Examples.paged_client "Q" 10 2) "Q" (Some 5) 0 false None
      = Some (Raises ZeroDivisionError))
  /\ exists fuel st,
       forall extra,
         Dimensions.offset_loop (fuel + extra) (Examples.paged_client "Q" 10 2)
           "Q" None 2 Dimensions.offset_init = Some st
         /\ Dimensions.query_iterative Examples.keep_query Examples.no_save
              (fuel + extra) (Examples.paged_client "Q" 10 2) "Q" None 2
              false None
            = Some (Returns
                      {| Dimensions.total := Dimensions.total_count st;
                         Dimensions.retrieved :=
                           len (Dimensions.all_results st);
                         Dimensions.data := Dimensions.all_results st;
                         Dimensions.saved_to := None;
                         Dimensions.query := "Q" |})
         /\ Dimensions.sent st
            = Dimensions.nth_query "Q" 2
                <$> seq 0 (length (Dimensions.sent st))
         /\ Dimensions.page_num st = Z.of_nat (length (Dimensions.sent st))
         /\ (1 <= length (Dimensions.sent st))%nat.
Proof.
  split.
  - exact (proj1 (offset_queries_advance_by_batch Examples.keep_query
                    Examples.no_save (Examples.paged_client "Q" 10 2) "Q"
                    (Some 5) 0 false None) eq_refl eq_refl).
  - exact (proj2 (offset_queries_advance_by_batch Examples.keep_query
                    Examples.no_save (Examples.paged_client "Q" 10 2) "Q"
                    None 2 false None) (or_introl eq_refl)).
Defined.

(** The reports of a run over ten records fetched two at a time, the third
    query failing. *)
Lemma offset_reports_add_up_witness :
  exists st',
    Dimensions.offset_loop 6 Examples.failing_client "Q" None 2
      Dimensions.offset_init = Some st'
    /\ (fun report : Z * Z * Z => report.1.1) <$> Dimensions.api_calls st'
       = Z.of_nat <$> seq 1 (length (Dimensions.api_calls st'))
    /\ Dimensions.reported_records (Dimensions.api_calls st')
       = len (Dimensions.all_results st')
    /\ (length (Dimensions.api_calls st') <= length (Dimensions.sent st')
        <= length (Dimensions.api_calls st') + 1)%nat.
Proof.
  eexists. split; [vm_compute; reflexivity|].
  apply (offset_reports_add_up Examples.failing_client "Q" None 2 6).
  vm_compute; reflexivity.
Defined.

(** The requests of a run over ten records served two a page. *)
Lemma cursor_requests_are_well_formed_witness :
  exists st',
    OpenAlex.cursor_loop Examples.email 6 (Examples.cursor_service 10 2)
      "works" None (OpenAlex.cursor_init {["filter" := VStr "type:article"]})
      = Some st'
    /\ Forall (OpenAlex.cursor_request Examples.email
                 {["filter" := VStr "type:article"]})
              (OpenAlex.sent st')
    /\ OpenAlex.sent st' !! 0%nat
       = Some (<["mailto" := VStr Examples.email]>
                 (<["per_page" := VInt 200]>
                    (<["cursor" := VStr "*"]>
                       {["filter" := VStr "type:article"]}))).
Proof.
  eexists. split; [vm_compute; reflexivity|].
  apply (cursor_requests_are_well_formed Examples.email
           (Examples.cursor_service 10 2) "works" None
           {["filter" := VStr "type:article"]} 6).
  vm_compute; reflexivity.
Defined.

(** The second request of a run over ten records served two a page. *)
Lemma cursor_follows_continuation_token_witness :
  exists cursor,
    OpenAlex.meta_next_cursor (Examples.page 10 2 0) = Some cursor
    /\ cursor <> EmptyString
    /\ (OpenAlex.api_request Examples.email (Examples.cursor_service 10 2)
          (length (OpenAlex.sent
                     (Examples.after
                        (OpenAlex.cursor_iteration Examples.email
                           (Examples.cursor_service 10 2) "works" None
                           (OpenAlex.cursor_init ∅)))))
          "works"
          (OpenAlex.params
             (Examples.after
                (OpenAlex.cursor_iteration Examples.email
                   (Examples.cursor_service 10 2) "works" None
                   (OpenAlex.cursor_init ∅))))).2
         !! "cursor" = Some (VStr cursor).
Proof.
  apply (cursor_follows_continuation_token Examples.email
           (Examples.cursor_service 10 2) "works" None
           (OpenAlex.cursor_init ∅) (Examples.page 10 2 0)).
  - vm_compute; reflexivity.
  - vm_compute; reflexivity.
Defined.

Section CursorBound.

Import OpenAlex.

Variable EMAIL : string.
Variable srv : Service.
Variable endpoint : string.
Variable max_results : option Z.
Variable P : Z.

Hypothesis P_nonneg : 0 <= P.

Hypothesis page_size :
  forall issued endpoint' request response,
    srv issued endpoint' request = Returns response ->
    len (results response) <= P.

Notation iteration := (cursor_iteration EMAIL srv endpoint max_results).
Notation loop := (fun fuel => cursor_loop EMAIL fuel srv endpoint max_results).

(** The target never exceeds a non-zero ceiling. *)
Notation capped t :=
  (forall m, max_results = Some m -> m <> 0 -> t <= m).

Lemma cursor_iteration_bound st :
  (total_count st = None /\ all_results st = [])
  \/ (exists t, total_count st = Some t /\ capped t
                /\ len (all_results st) < t) ->
  match iteration st with
  | Break st' =>
      match total_count st' with
      | None => all_results st' = []
      | Some t => capped t /\ len (all_results st') <= Z.max (t - 1) 0 + P
      end
  | Continue st' =>
      exists t, total_count st' = Some t /\ capped t
                /\ len (all_results st') < t
  end.
Proof.
  intros Hentry. unfold cursor_iteration, api_request; cbn [fst snd].
  destruct (srv _ _ _) as [response|e] eqn:Hsrv.
  2:{ cbn [total_count all_results].
      destruct Hentry as [[-> ->] | (t & -> & Hcap & Hlt)]; [done|].
      split; [done | lia]. }
  apply page_size in Hsrv.
  assert (capped (if truthy_int max_results
                  then Z.min (meta_count response) (default 0 max_results)
                  else meta_count response) \/ total_count st <> None)
    as Hfirst.
  { destruct (total_count st); [by right|]. left. intros m -> Hm. simpl.
    destruct (Z.eqb_spec m 0); [done|]. simpl. lia. }
  destruct Hentry as [[Hnone Hempty] | (t & Ht & Hcap & Hlt)].
  - rewrite Hnone, Hempty. destruct Hfirst as [Hfirst|]; [|done].
    cbv zeta. revert Hfirst.
    generalize (if truthy_int max_results
                then Z.min (meta_count response) (default 0 max_results)
                else meta_count response).
    intros target Hfirst. unfold len in *.
    repeat (case_match; simplify_eq; cbn [total_count all_results] in *;
            simplify_eq);
      rewrite ?app_nil_l in *;
      repeat match goal with
             | H : (_ >=? _) = _ |- _ =>
                 rewrite Z.geb_leb in H;
                 first [apply Z.leb_le in H | apply Z.leb_gt in H]
             | H : results _ = _ |- _ => rewrite H in *
             end;
      try (match goal with |- ex _ => eexists; split; [done|] end);
      (split; [done|]);
      cbn [length] in *; lia.
  - rewrite Ht. unfold len in *.
    repeat (case_match; simplify_eq; cbn [total_count all_results] in *;
            simplify_eq);
      repeat match goal with
             | H : (_ >=? _) = _ |- _ =>
                 rewrite Z.geb_leb in H;
                 first [apply Z.leb_le in H | apply Z.leb_gt in H]
             | H : results _ = _ |- _ => rewrite H in *
             end;
      rewrite ?length_app in *;
      try (match goal with |- ex _ => eexists; split; [done|] end);
      (split; [done|]);
      cbn [length] in *; lia.
Qed.

Lemma cursor_loop_bound fuel st st' :
  loop fuel st = Some st' ->
  (total_count st = None /\ all_results st = [])
  \/ (exists t, total_count st = Some t /\ capped t
                /\ len (all_results st) < t) ->
  match total_count st' with
  | None => all_results st' = []
  | Some t => capped t /\ len (all_results st') <= Z.max (t - 1) 0 + P
  end.
Proof.
  revert st; induction fuel as [|fuel IH]; intros st; simpl; [discriminate|].
  pose proof (cursor_iteration_bound st) as Hit.
  destruct (iteration st) as [s|s].
  - intros [= <-] Hentry. by apply Hit.
  - intros Hloop Hentry. apply (IH _ Hloop). right. by apply Hit.
Qed.

(** X7.  How far a cursor retrieval can overshoot: when no page of the service
    holds more than [P] records, the records retrieved stay below the target
    plus one page, and so below a non-zero ceiling plus one page. *)
Theorem cursor_overshoot_within_one_page fuel params0 res :
  fetch_all_with_cursor EMAIL fuel srv endpoint params0 max_results
    = Some res ->
  (forall t, total res = Some t -> retrieved res <= Z.max (t - 1) 0 + P)
  /\ (forall m, max_results = Some m -> 0 < m -> retrieved res < m + P).
Proof.
  intros Hloop. revert Hloop. unfold fetch_all_with_cursor.
  destruct (cursor_loop _ _ _ _ _ _) as [st'|] eqn:Hloop; [|discriminate].
  intros [= <-]. unfold fetch_result; cbn [total retrieved].
  pose proof (cursor_loop_bound _ _ _ Hloop) as Hb.
  destruct (total_count st') as [t|].
  - destruct Hb as [Hcap Hb]; [by left|]. split.
    + by intros ? [= <-].
    + intros m Hm Hpos. specialize (Hcap m Hm). lia.
  - rewrite Hb by by left. split; [done|]. intros m _ Hpos.
    change (len []) with 0. lia.
Qed.

End CursorBound.

Section OffsetBound.

Import Dimensions.

Variable client : Client.
Variable base_query : string.
Variable max_results : option Z.
Variable batch_size : Z.
Variable P : Z.

Hypothesis P_nonneg : 0 <= P.

Hypothesis page_size :
  forall issued text response,
    client issued text = Returns response ->
    len (batch_data response) <= P.

Notation iteration :=
  (offset_iteration client base_query max_results batch_size).
Notation loop :=
  (fun fuel => offset_loop fuel client base_query max_results batch_size).
Notation capped t :=
  (forall m, max_results = Some m -> m <> 0 -> t <= m).

Lemma offset_iteration_bound st :
  (total_count st = None /\ all_results st = [])
  \/ (exists t, total_count st = Some t /\ capped t
                /\ len (all_results st) < t) ->
  match iteration st with
  | Break st' =>
      match total_count st' with
      | None => all_results st' = []
      | Some t => capped t /\ len (all_results st') <= Z.max (t - 1) 0 + P
      end
  | Continue st' =>
      exists t, total_count st' = Some t /\ capped t
                /\ len (all_results st') < t
  end.
Proof.
  intros Hentry. unfold offset_iteration.
  destruct (client _ _) as [response|e] eqn:Hclient.
  2:{ cbn [total_count all_results].
      destruct Hentry as [[-> ->] | (t & -> & Hcap & Hlt)]; [done|].
      split; [done | lia]. }
  apply page_size in Hclient.
  assert (capped (if truthy_int max_results
                  then Z.min (default 0 (count_total response))
                             (default 0 max_results)
                  else default 0 (count_total response))
          \/ total_count st <> None)
    as Hfirst.
  { destruct (total_count st); [by right|]. left. intros m -> Hm. simpl.
    destruct (Z.eqb_spec m 0); [done|]. simpl. lia. }
  destruct Hentry as [[Hnone Hempty] | (t & Ht & Hcap & Hlt)].
  - rewrite Hnone, Hempty. destruct Hfirst as [Hfirst|]; [|done].
    cbv zeta. revert Hfirst.
    generalize (if truthy_int max_results
                then Z.min (default 0 (count_total response))
                           (default 0 max_results)
                else default 0 (count_total response)).
    intros target Hfirst. unfold len in *.
    repeat (case_match; simplify_eq; cbn [total_count all_results] in *;
            simplify_eq);
      rewrite ?app_nil_l in *;
      repeat match goal with
             | H : (_ >=? _) = _ |- _ =>
                 rewrite Z.geb_leb in H;
                 first [apply Z.leb_le in H | apply Z.leb_gt in H]
             | H : batch_data _ = _ |- _ => rewrite H in *
             end;
      try (match goal with |- ex _ => eexists; split; [done|] end);
      (split; [done|]);
      cbn [length] in *; lia.
  - rewrite Ht. unfold len in *.
    repeat (case_match; simplify_eq; cbn [total_count all_results] in *;
            simplify_eq);
      repeat match goal with
             | H : (_ >=? _) = _ |- _ =>
                 rewrite Z.geb_leb in H;
                 first [apply Z.leb_le in H | apply Z.leb_gt in H]
             | H : batch_data _ = _ |- _ => rewrite H in *
             end;
      rewrite ?length_app in *;
      try (match goal with |- ex _ => eexists; split; [done|] end);
      (split; [done|]);
      cbn [length] in *; lia.
Qed.

Lemma offset_loop_bound fuel st st' :
  loop fuel st = Some st' ->
  (total_count st = None /\ all_results st = [])
  \/ (exists t, total_count st = Some t /\ capped t
                /\ len (all_results st) < t) ->
  match total_count st' with
  | None => all_results st' = []
  | Some t => capped t /\ len (all_results st') <= Z.max (t - 1) 0 + P
  end.
Proof.
  revert st; induction fuel as [|fuel IH]; intros st; simpl; [discriminate|].
  pose proof (offset_iteration_bound st) as Hit.
  destruct (iteration st) as [s|s].
  - intros [= <-] Hentry. by apply Hit.
  - intros Hloop Hentry. apply (IH _ Hloop). right. by apply Hit.
Qed.

End OffsetBound.

(** X8.  How far an offset retrieval can overshoot: when no answer of the client
    holds more than [P] records, the records retrieved stay below the target
    plus one batch, and so below a non-zero ceiling plus one batch. *)
Theorem offset_overshoot_within_one_batch
    base_query_of process_and_save fuel client dsl_query max_results
    batch_size save save_format P res :
  (forall issued text response,
     client issued text = Returns response ->
     len (Dimensions.batch_data response) <= P) ->
  0 <= P ->
  Dimensions.query_iterative base_query_of process_and_save fuel client
    dsl_query max_results batch_size save save_format = Some (Returns res) ->
  (forall t, Dimensions.total res = Some t ->
             Dimensions.retrieved res <= Z.max (t - 1) 0 + P)
  /\ (forall m, max_results = Some m -> 0 < m ->
                Dimensions.retrieved res < m + P).
Proof.
  intros Hpage HP. unfold Dimensions.query_iterative.
  destruct (_ && _); [discriminate|].
  destruct (Dimensions.offset_loop _ _ _ _ _ _) as [st'|] eqn:Hloop;
    [|discriminate].
  destruct (process_and_save _ _ _ _); [|discriminate].
  intros [= <-]. cbn [Dimensions.total Dimensions.retrieved].
  pose proof (offset_loop_bound _ _ _ _ P HP Hpage _ _ _ Hloop) as Hb.
  destruct (Dimensions.total_count st') as [t|].
  - destruct Hb as [Hcap Hb]; [by left|]. split.
    + by intros ? [= <-].
    + intros m Hm Hpos. specialize (Hcap m Hm). lia.
  - rewrite Hb by by left. split; [done|]. intros m _ Hpos.
    change (len []) with 0. lia.
Qed.

Section CursorTotal.

Import OpenAlex.

Variable EMAIL : string.
Variable srv : Service.
Variable endpoint : string.
Variable max_results : option Z.

Notation iteration := (cursor_iteration EMAIL srv endpoint max_results).
Notation loop := (fun fuel => cursor_loop EMAIL fuel srv endpoint max_results).

Lemma cursor_loop_keeps_total fuel st st' t :
  loop fuel st = Some st' -> total_count st = Some t ->
  total_count st' = Some t.
Proof.
  revert st; induction fuel as [|fuel IH]; intros st; simpl; [discriminate|].
  destruct (iteration st) as [s|s] eqn:Hit.
  - intros [= <-] Ht. revert Hit. unfold cursor_iteration, api_request.
    cbn [fst snd]. rewrite Ht.
    repeat (case_match; simplify_eq); by intros [= <-].
  - intros Hloop Ht. apply (IH _ Hloop). revert Hit.
    unfold cursor_iteration, api_request. cbn [fst snd]. rewrite Ht.
    repeat (case_match; simplify_eq); by intros [= <-].
Qed.

(** X9.  The [total] of a cursor retrieval comes from the first response alone:
    its count, capped by a non-zero ceiling, whatever the later pages
    report; and when the first request fails, the result is empty and has
    no total. *)
Theorem cursor_total_is_set_by_first_response fuel params0 res :
  fetch_all_with_cursor EMAIL fuel srv endpoint params0 max_results
    = Some res ->
  match srv 0%nat endpoint
          (<["mailto" := VStr EMAIL]>
             (<["per_page" := VInt 200]> (<["cursor" := VStr "*"]> params0)))
  with
  | Raises _ => total res = None /\ retrieved res = 0 /\ data res = []
  | Returns first =>
      total res
      = Some (if truthy_int max_results
              then Z.min (meta_count first) (default 0 max_results)
              else meta_count first)
  end.
Proof.
  unfold fetch_all_with_cursor.
  destruct (cursor_loop _ _ _ _ _ _) as [st'|] eqn:Hloop; [|discriminate].
  intros [= <-]. unfold fetch_result; cbn [total retrieved data].
  destruct fuel as [|fuel]; [discriminate|]. simpl in Hloop.
  revert Hloop. unfold cursor_iteration at 1, api_request.
  cbn [fst snd cursor_init params sent total_count all_results length].
  destruct (srv _ _ _) as [first|e].
  - repeat (case_match; simplify_eq); try by intros [= <-].
    all: intros Hloop; by apply (cursor_loop_keeps_total _ _ _ _ Hloop).
  - by intros [= <-].
Qed.

End CursorTotal.

Section OffsetTotal.

Import Dimensions.

Variable client : Client.
Variable base_query : string.
Variable max_results : option Z.
Variable batch_size : Z.

Notation iteration :=
  (offset_iteration client base_query max_results batch_size).
Notation loop :=
  (fun fuel => offset_loop fuel client base_query max_results batch_size).

Lemma offset_loop_keeps_total fuel st st' t :
  loop fuel st = Some st' -> total_count st = Some t ->
  total_count st' = Some t.
Proof.
  revert st; induction fuel as [|fuel IH]; intros st; simpl; [discriminate|].
  destruct (iteration st) as [s|s] eqn:Hit.
  - intros [= <-] Ht. revert Hit. unfold offset_iteration. rewrite Ht.
    repeat (case_match; simplify_eq); by intros [= <-].
  - intros Hloop Ht. apply (IH _ Hloop). revert Hit.
    unfold offset_iteration. rewrite Ht.
    repeat (case_match; simplify_eq); by intros [= <-].
Qed.

Lemma offset_loop_total fuel st' :
  loop fuel offset_init = Some st' ->
  match client 0%nat (nth_query base_query batch_size 0) with
  | Raises _ => total_count st' = None /\ all_results st' = []
  | Returns first =>
      total_count st'
      = Some (if truthy_int max_results
              then Z.min (default 0 (count_total first))
                         (default 0 max_results)
              else default 0 (count_total first))
  end.
Proof.
  destruct fuel as [|fuel]; [discriminate|]. simpl.
  unfold offset_iteration at 1, nth_query.
  cbn [offset_init skip sent total_count all_results length].
  change (Z.of_nat 0 * batch_size) with 0.
  destruct (client _ _) as [first|e].
  - cbv zeta.
    repeat (case_match; simplify_eq); try by intros [= <-].
    all: intros Hloop; by apply (offset_loop_keeps_total _ _ _ _ Hloop).
  - by intros [= <-].
Qed.

End OffsetTotal.

(** X10.  The [total] of an offset retrieval comes from the first answer alone:
    its [_stats.total_count] (0 when there is none), capped by a non-zero
    ceiling; and when the first query fails, the result is empty and has no
    total. *)
Theorem offset_total_is_set_by_first_response
    base_query_of process_and_save fuel client dsl_query max_results
    batch_size save save_format res :
  Dimensions.query_iterative base_query_of process_and_save fuel client
    dsl_query max_results batch_size save save_format = Some (Returns res) ->
  match client 0%nat
          (Dimensions.nth_query (base_query_of dsl_query)
             (Z.min batch_size 1000) 0)
  with
  | Raises _ =>
      Dimensions.total res = None /\ Dimensions.retrieved res = 0
      /\ Dimensions.data res = []
  | Returns first =>
      Dimensions.total res
      = Some (if truthy_int max_results
              then Z.min (default 0 (Dimensions.count_total first))
                         (default 0 max_results)
              else default 0 (Dimensions.count_total first))
  end.
Proof.
  unfold Dimensions.query_iterative.
  destruct (_ && _); [discriminate|].
  destruct (Dimensions.offset_loop _ _ _ _ _ _) as [st'|] eqn:Hloop;
    [|discriminate].
  destruct (process_and_save _ _ _ _); [|discriminate].
  intros [= <-].
  cbn [Dimensions.total Dimensions.retrieved Dimensions.data].
  pose proof (offset_loop_total _ _ _ _ _ _ Hloop) as Ht.
  destruct (client _ _); [done|].
  destruct Ht as [-> ->]. done.
Qed.

(** The example services never serve more than the page size. *)
Lemma cursor_service_page_size n size issued endpoint request response :
  Examples.cursor_service n size issued endpoint request = Returns response ->
  len (OpenAlex.results response) <= Z.of_nat size.
Proof.
  unfold Examples.cursor_service.
  destruct (Examples.page_of_cursor _ _); [|discriminate].
  intros [= <-]. unfold len, Examples.page; cbn [OpenAlex.results].
  rewrite length_take. lia.
Qed.

Lemma paged_client_page_size base n size issued text response :
  Examples.paged_client base n size issued text = Returns response ->
  len (Dimensions.batch_data response) <= Z.of_nat size.
Proof.
  unfold Examples.paged_client.
  destruct (list_find _ _) as [[? k]|]; [|discriminate].
  intros [= <-]. unfold len, Examples.batch; cbn [Dimensions.batch_data].
  rewrite length_take. lia.
Qed.

(** Ten records served two a page, with a ceiling of three: four records
    are retrieved, fewer than the ceiling and a page together. *)
Lemma cursor_overshoot_within_one_page_witness :
  exists res,
    OpenAlex.fetch_all_with_cursor Examples.email 6
      (Examples.cursor_service 10 2) "works" ∅ (Some 3) = Some res
    /\ OpenAlex.retrieved res = 4
    /\ (forall t, OpenAlex.total res = Some t ->
                  OpenAlex.retrieved res <= Z.max (t - 1) 0 + 2)
    /\ (forall m, Some 3 = Some m -> 0 < m -> OpenAlex.retrieved res < m + 2).
Proof.
  eexists. split; [vm_compute; reflexivity|]. split; [reflexivity|].
  apply (cursor_overshoot_within_one_page Examples.email
           (Examples.cursor_service 10 2) "works" (Some 3) 2 ltac:(lia)
           (cursor_service_page_size 10 2) 6 ∅).
  vm_compute; reflexivity.
Defined.

Lemma offset_overshoot_within_one_batch_witness :
  exists res,
    Dimensions.query_iterative Examples.keep_query Examples.no_save 6
      (Examples.paged_client "Q" 10 2) "Q" (Some 3) 2 false None
      = Some (Returns res)
    /\ Dimensions.retrieved res = 4
    /\ (forall t, Dimensions.total res = Some t ->
                  Dimensions.retrieved res <= Z.max (t - 1) 0 + 2)
    /\ (forall m, Some 3 = Some m -> 0 < m ->
                  Dimensions.retrieved res < m + 2).
Proof.
  eexists. split; [vm_compute; reflexivity|]. split; [reflexivity|].
  apply (offset_overshoot_within_one_batch Examples.keep_query
           Examples.no_save 6 (Examples.paged_client "Q" 10 2) "Q" (Some 3) 2
           false None 2 _ (paged_client_page_size "Q" 10 2) ltac:(lia)).
  vm_compute; reflexivity.
Defined.

(** Ten records served two a page, with a ceiling of three: the total is
    three, the smaller of the count of the first page and the ceiling. *)
Lemma cursor_total_is_set_by_first_response_witness :
  exists res,
    OpenAlex.fetch_all_with_cursor Examples.email 6
      (Examples.cursor_service 10 2) "works" ∅ (Some 3) = Some res
    /\ OpenAlex.total res = Some 3.
Proof.
  eexists. split; [vm_compute; reflexivity|].
  match goal with
  | |- OpenAlex.total ?res = _ =>
      pose proof (cursor_total_is_set_by_first_response Examples.email
                    (Examples.cursor_service 10 2) "works" (Some 3) 6 ∅ res)
        as Htotal
  end.
  vm_compute in Htotal. vm_compute. by apply Htotal.
Defined.

Lemma offset_total_is_set_by_first_response_witness :
  exists res,
    Dimensions.query_iterative Examples.keep_query Examples.no_save 6
      (Examples.paged_client "Q" 10 2) "Q" (Some 3) 2 false None
      = Some (Returns res)
    /\ Dimensions.total res = Some 3.
Proof.
  eexists. split; [vm_compute; reflexivity|].
  match goal with
  | |- Dimensions.total ?res = _ =>
      pose proof (offset_total_is_set_by_first_response Examples.keep_query
                    Examples.no_save 6 (Examples.paged_client "Q" 10 2) "Q"
                    (Some 3) 2 false None res)
        as Htotal
  end.
  vm_compute in Htotal. vm_compute. by apply Htotal.
Defined.

(** ** Validation of select fields and aggregation metrics *)

Lemma filter_nil_iff {A} (p : A -> bool) (xs : list A) :
  List.filter p xs = [] <-> forall x, x ∈ xs -> p x = false.
Proof.
  induction xs as [|y ys IH]; simpl.
  - split; [by intros _ x ?%elem_of_nil | done].
  - destruct (p y) eqn:Hy.
    + split; [done|]. intros H. specialize (H y (list_elem_of_here _ _)).
      congruence.
    + rewrite IH. split.
      * intros H x [-> | ?]%elem_of_cons; [done | by apply H].
      * intros H x Hx. apply H. by apply list_elem_of_further.
Qed.

Lemma elem_of_filter_bool {A} (p : A -> bool) (xs : list A) (x : A) :
  x ∈ List.filter p xs <-> x ∈ xs /\ p x = true.
Proof. rewrite !list_elem_of_In. apply filter_In. Qed.

(** X11.  With the select fields of an entity type in the cache, a select string
    is checked without any request: it passes exactly when each of its
    comma-separated names, blanks stripped, is empty or a valid field, and
    otherwise the error names the entity type and every name that is not. *)
Theorem select_fields_are_checked_against_the_cache
    EMAIL set_iter probe w entity_type valid_fields select_str :
  OpenAlex.select (OpenAlex._valid_fields_cache w) !! entity_type
    = Some valid_fields ->
  valid_fields <> ∅ ->
  select_str <> EmptyString ->
  let outcome :=
    OpenAlex.validate_select_fields EMAIL set_iter probe w entity_type
      (Some select_str) in
  let fields := PyStr.strip <$> PyStr.split "," select_str in
  outcome.2 = w
  /\ (outcome.1 = Returns ()
      <-> forall field, field ∈ fields ->
                        field = EmptyString \/ field ∈ valid_fields)
  /\ (forall field,
        field ∈ fields -> field <> EmptyString -> field ∉ valid_fields ->
        exists msg,
          outcome.1 = Raises (ValueError msg)
          /\ PyStr.contains field msg = true
          /\ PyStr.contains entity_type msg = true).
Proof.
  intros Hcache Hne Hstr outcome fields. subst outcome.
  unfold OpenAlex.validate_select_fields, OpenAlex._fetch_valid_select_fields.
  rewrite Hcache.
  assert (truthy_str (Some select_str) = true) as ->
    by (by destruct select_str).
  cbn [negb]. change (default "" (Some select_str)) with select_str.
  rewrite (bool_decide_eq_false_2 (valid_fields = ∅)) by done.
  fold fields.
  set (bad := fun field : string =>
                negb (String.eqb field "")
                && negb (bool_decide (field ∈ valid_fields))).
  assert (forall field, bad field = false
                        <-> field = EmptyString \/ field ∈ valid_fields)
    as Hbad.
  { intros field. unfold bad.
    destruct (String.eqb_spec field ""); simpl; [by split; [left|]|].
    destruct (bool_decide_reflect (field ∈ valid_fields)); simpl.
    - by split; [right|].
    - split; [done | by intros [? | ?]]. }
  destruct (List.filter bad fields) as [|x xs] eqn:Hfilter.
  - cbn [fst snd]. split; [done|]. split.
    + split; [|done]. intros _ field Hin. apply Hbad.
      by apply (filter_nil_iff bad fields).
    + intros field Hin Hnonempty Hinvalid.
      pose proof (proj1 (filter_nil_iff bad fields) Hfilter field Hin) as Hf.
      apply Hbad in Hf as [? | ?]; done.
  - cbn [fst snd]. split; [done|]. split.
    + split; [done|]. intros Hall.
      assert (x ∈ List.filter bad fields) as [Hin Hx]%elem_of_filter_bool
        by (rewrite Hfilter; apply list_elem_of_here).
      specialize (Hall x Hin). apply Hbad in Hall. congruence.
    + intros field Hin Hnonempty Hinvalid. eexists. split; [done|].
      assert (field ∈ x :: xs) as Hfield.
      { rewrite <- Hfilter. apply elem_of_filter_bool. split; [done|].
        destruct (bad field) eqn:Hb; [done|].
        apply Hbad in Hb as [? | ?]; done. }
      unfold OpenAlex.select_error. split.
      * apply contains_in_left, contains_in_right, contains_in_right,
          contains_in_right, contains_in_left.
        by apply contains_join.
      * apply contains_in_left, contains_in_right, contains_in_left,
          contains_refl.
Qed.

(** The select string [id, grants,title] against the valid fields [id],
    [doi] and [title]. *)
Lemma select_fields_are_checked_against_the_cache_witness :
  (OpenAlex.validate_select_fields Examples.email elements
     Examples.offline_probe
     {| OpenAlex._valid_fields_cache :=
          {| OpenAlex.group_by := ∅;
             OpenAlex.select := {["works" := {["id"; "doi"; "title"]}]} |};
        OpenAlex.probes := [] |}
     "works" (Some "id, grants,title")).1
  <> Returns ().
Proof.
  set (w := {| OpenAlex._valid_fields_cache :=
                 {| OpenAlex.group_by := ∅;
                    OpenAlex.select := {["works" := {["id"; "doi"; "title"]}]} |};
               OpenAlex.probes := [] |}).
  destruct (select_fields_are_checked_against_the_cache Examples.email
              elements Examples.offline_probe w "works"
              {["id"; "doi"; "title"]} "id, grants,title")
    as (_ & _ & Hmsg).
  - vm_compute; reflexivity.
  - apply (non_empty_inhabited_L "id"). set_solver.
  - discriminate.
  - destruct (Hmsg "grants") as (msg & -> & _).
    + vm_compute. apply list_elem_of_further, list_elem_of_here.
    + discriminate.
    + apply (bool_decide_unpack _). vm_compute. exact I.
    + discriminate.
Defined.

(** What validation gives with the select fields in the cache. *)
Lemma validate_select_fields_cached
    EMAIL set_iter probe w entity_type valid_fields select_str :
  OpenAlex.select (OpenAlex._valid_fields_cache w) !! entity_type
    = Some valid_fields ->
  valid_fields <> ∅ ->
  select_str <> EmptyString ->
  OpenAlex.validate_select_fields EMAIL set_iter probe w entity_type
    (Some select_str)
  = (match List.filter
             (fun field => negb (String.eqb field "")
                           && negb (bool_decide (field ∈ valid_fields)))
             (PyStr.strip <$> PyStr.split "," select_str) with
     | [] => Returns ()
     | invalid_fields =>
         Raises (ValueError (OpenAlex.select_error set_iter entity_type
                               invalid_fields valid_fields))
     end, w).
Proof.
  intros Hcache Hne Hstr.
  unfold OpenAlex.validate_select_fields, OpenAlex._fetch_valid_select_fields.
  rewrite Hcache.
  assert (truthy_str (Some select_str) = true) as ->
    by (by destruct select_str).
  cbn [negb]. change (default "" (Some select_str)) with select_str.
  rewrite (bool_decide_eq_false_2 (valid_fields = ∅)) by done.
  by destruct (List.filter _ _).
Qed.

Lemma select_error_names_fields set_iter entity_type invalid_fields
    valid_fields field :
  field ∈ invalid_fields ->
  PyStr.contains field
    (OpenAlex.select_error set_iter entity_type invalid_fields valid_fields)
  = true.
Proof.
  intros Hin. unfold OpenAlex.select_error.
  apply contains_in_left, contains_in_right, contains_in_right,
    contains_in_right, contains_in_left.
  by apply contains_join.
Qed.

(** X12.  [search_works] validates the select string before it sends anything:
    with the select fields of works in the cache, a select string naming a
    field that is not among them makes the search raise the validation
    error, whatever the service would have answered. *)
Theorem search_works_rejects_unknown_select_field
    EMAIL set_iter save_results fuel probe srv w query filters search_field
    limit page sort select_str max_results save valid_fields field :
  OpenAlex.select (OpenAlex._valid_fields_cache w) !! "works"
    = Some valid_fields ->
  valid_fields <> ∅ ->
  field ∈ PyStr.strip <$> PyStr.split "," select_str ->
  field <> EmptyString ->
  field ∉ valid_fields ->
  exists msg,
    OpenAlex.search_works EMAIL set_iter save_results fuel probe srv w query
      filters search_field limit page sort (Some select_str) max_results save
    = Some (Raises (ValueError msg), w)
    /\ PyStr.contains field msg = true.
Proof.
  intros Hcache Hne Hin Hnonempty Hinvalid.
  assert (select_str <> EmptyString) as Hstr.
  { intros ->. vm_compute in Hin. apply list_elem_of_singleton in Hin.
    done. }
  unfold OpenAlex.search_works.
  assert (truthy_str (Some select_str) = true) as ->
    by (by destruct select_str).
  rewrite (validate_select_fields_cached _ _ _ _ _ _ _ Hcache Hne Hstr).
  set (bad := fun field : string =>
                negb (String.eqb field "")
                && negb (bool_decide (field ∈ valid_fields))).
  assert (field ∈ List.filter bad (PyStr.strip <$> PyStr.split "," select_str))
    as Hfield.
  { apply elem_of_filter_bool. split; [done|]. unfold bad.
    destruct (String.eqb_spec field ""); [done|].
    by rewrite (bool_decide_eq_false_2 (field ∈ valid_fields)). }
  destruct (List.filter bad _) as [|x xs]; [by apply elem_of_nil in Hfield|].
  eexists. split; [done|]. by apply select_error_names_fields.
Qed.

Lemma search_works_rejects_unknown_select_field_witness :
  exists msg,
    OpenAlex.search_works Examples.email elements Examples.save_to_tmp 5
      Examples.offline_probe (Examples.cursor_service 10 2)
      {| OpenAlex._valid_fields_cache :=
           {| OpenAlex.group_by := ∅;
              OpenAlex.select := {["works" := {["id"; "doi"; "title"]}]} |};
         OpenAlex.probes := [] |}
      (Some "climate") None None 25 1 None (Some "id, grants,title") None
      false
    = Some (Raises (ValueError msg),
            {| OpenAlex._valid_fields_cache :=
                 {| OpenAlex.group_by := ∅;
                    OpenAlex.select :=
                      {["works" := {["id"; "doi"; "title"]}]} |};
               OpenAlex.probes := [] |})
    /\ PyStr.contains "grants" msg = true.
Proof.
  apply (search_works_rejects_unknown_select_field Examples.email elements
           Examples.save_to_tmp 5 Examples.offline_probe
           (Examples.cursor_service 10 2) _ (Some "climate") None None 25 1
           None "id, grants,title" None false {["id"; "doi"; "title"]}
           "grants").
  - vm_compute; reflexivity.
  - apply (non_empty_inhabited_L "id"). set_solver.
  - vm_compute. apply list_elem_of_further, list_elem_of_here.
  - discriminate.
  - apply (bool_decide_unpack _). vm_compute. exact I.
Defined.

(** *** Aggregation metrics *)

Lemma rev_app_append (p s t : string) :
  String.rev_app p s +:+ t = String.rev_app p (s +:+ t).
Proof. revert s; induction p as [|c p IH]; intros s; [done | apply IH]. Qed.

Lemma contains_char_append (c : Ascii.ascii) (a b : string) :
  PyStr.contains (String c EmptyString) (a +:+ b)
  = PyStr.contains (String c EmptyString) a
    || PyStr.contains (String c EmptyString) b.
Proof.
  induction a as [|d a IH]; [done|].
  change (String d a +:+ b) with (String d (a +:+ b)).
  rewrite (contains_unfold _ (String d (a +:+ b))),
    (contains_unfold _ (String d a)), IH. cbn [String.prefix].
  destruct (Ascii.ascii_dec c d); [|done].
  by destruct (a +:+ b), a.
Qed.

(** A string without the separator is its own only piece. *)
Lemma split_without_separator (c : Ascii.ascii) (s : string) :
  PyStr.contains (String c EmptyString) s = false ->
  PyStr.split (String c EmptyString) s = [s].
Proof.
  set (sep := String c EmptyString).
  assert (forall piece,
            PyStr.contains sep s = false ->
            PyStr.split_from sep 0 piece s = [String.rev_app piece s])
    as Hfrom; [|apply Hfrom].
  induction s as [|d s IH]; intros piece; [done|].
  rewrite contains_unfold. intros [Hp Hc]%orb_false_elim.
  cbn [PyStr.split_from]. rewrite Hp. by rewrite IH.
Qed.

Lemma prefix_char (c d : Ascii.ascii) (s : string) :
  String.prefix (String c EmptyString) (String d s)
  = if Ascii.ascii_dec c d then true else false.
Proof. simpl. destruct (Ascii.ascii_dec c d); [by destruct s | done]. Qed.

(** The first piece is what stands before the first separator. *)
Lemma split_first_piece (c : Ascii.ascii) (a rest : string) :
  PyStr.contains (String c EmptyString) a = false ->
  PyStr.split (String c EmptyString) (a +:+ String c EmptyString +:+ rest)
    !! 0%nat = Some a.
Proof.
  set (sep := String c EmptyString). unfold PyStr.split.
  assert (forall piece,
            PyStr.contains sep a = false ->
            PyStr.split_from sep 0 piece (a +:+ sep +:+ rest) !! 0%nat
            = Some (String.rev_app piece a))
    as Hfrom; [|apply Hfrom].
  induction a as [|d a IH]; intros piece.
  - intros _. change (EmptyString +:+ sep +:+ rest) with (String c rest).
    cbn [PyStr.split_from]. unfold sep at 1. rewrite prefix_char.
    by destruct (Ascii.ascii_dec c c).
  - rewrite contains_unfold. intros [Hp Hc]%orb_false_elim.
    change (String d a +:+ sep +:+ rest) with (String d (a +:+ sep +:+ rest)).
    cbn [PyStr.split_from]. unfold sep in Hp |- * at 1.
    rewrite prefix_char in *. rewrite Hp. by apply IH.
Qed.

Lemma rstrip_by_last p (s : string) (c : Ascii.ascii) :
  p c = false ->
  PyStr.rstrip_by p (s +:+ String c EmptyString) = s +:+ String c EmptyString.
Proof.
  intros Hc. induction s as [|d s IH]; simpl; [by rewrite Hc|].
  change (s +:+ String c EmptyString) with (s +:+ String c EmptyString) in IH.
  rewrite IH. by destruct s.
Qed.

(** What validation gives with the metrics of a source in the cache. *)
Lemma validate_aggregation_metrics_cached
    set_iter describe w source valid_facets valid_metrics metrics_str :
  Dimensions.facets (Dimensions._valid_fields_cache w) !! source
    = Some valid_facets ->
  Dimensions.metrics (Dimensions._valid_fields_cache w) !! source
    = Some valid_metrics ->
  valid_metrics <> ∅ ->
  metrics_str <> EmptyString ->
  Dimensions.validate_aggregation_metrics set_iter describe w source
    (Some metrics_str)
  = (match List.filter (Dimensions.metric_is_invalid valid_metrics)
             (PyStr.strip <$> PyStr.split "," metrics_str) with
     | [] => Returns ()
     | invalid_metrics =>
         Raises (ValueError (Dimensions.metrics_error set_iter source
                               invalid_metrics valid_metrics))
     end, w).
Proof.
  intros Hfacets Hmetrics Hne Hstr.
  unfold Dimensions.validate_aggregation_metrics.
  assert (truthy_str (Some metrics_str) = true) as ->
    by (by destruct metrics_str).
  cbn [negb]. rewrite (fetch_source_metadata_cached _ _ _ _ Hfacets).
  rewrite Hmetrics. change (default ∅ (Some valid_metrics)) with valid_metrics.
  change (default "" (Some metrics_str)) with metrics_str.
  rewrite (bool_decide_eq_false_2 (valid_metrics = ∅)) by done.
  by destruct (List.filter _ _).
Qed.

(** X13.  With the metrics of a source in the cache, a metrics string is checked
    without any request: it passes exactly when none of its comma-separated
    metrics, blanks stripped, fails the test of the loop, and otherwise the
    error names the source and every metric that fails it.  A metric
    without a parenthesis passes the test exactly when it is a valid metric
    or [count]. *)
Theorem metrics_are_checked_against_the_cache
    set_iter describe w source valid_facets valid_metrics metrics_str :
  Dimensions.facets (Dimensions._valid_fields_cache w) !! source
    = Some valid_facets ->
  Dimensions.metrics (Dimensions._valid_fields_cache w) !! source
    = Some valid_metrics ->
  valid_metrics <> ∅ ->
  metrics_str <> EmptyString ->
  let outcome :=
    Dimensions.validate_aggregation_metrics set_iter describe w source
      (Some metrics_str) in
  let metrics := PyStr.strip <$> PyStr.split "," metrics_str in
  outcome.2 = w
  /\ (outcome.1 = Returns ()
      <-> forall metric, metric ∈ metrics ->
            Dimensions.metric_is_invalid valid_metrics metric = false)
  /\ (forall metric,
        metric ∈ metrics ->
        Dimensions.metric_is_invalid valid_metrics metric = true ->
        exists msg,
          outcome.1 = Raises (ValueError msg)
          /\ PyStr.contains metric msg = true
          /\ PyStr.contains source msg = true)
  /\ (forall metric,
        PyStr.contains "(" metric = false ->
        (Dimensions.metric_is_invalid valid_metrics metric = false
         <-> metric ∈ valid_metrics \/ metric = "count")).
Proof.
  intros Hfacets Hmetrics Hne Hstr outcome metrics. subst outcome.
  rewrite (validate_aggregation_metrics_cached _ _ _ _ _ _ _ Hfacets Hmetrics
             Hne Hstr).
  fold metrics. cbn [fst snd]. split; [done|].
  destruct (List.filter _ metrics) as [|x xs] eqn:Hfilter.
  - split; [|split].
    + split; [|done]. intros _ metric Hin.
      by apply (filter_nil_iff _ metrics).
    + intros metric Hin Hbad.
      pose proof (proj1 (filter_nil_iff _ metrics) Hfilter metric Hin).
      congruence.
    + intros metric Hparen. unfold Dimensions.metric_is_invalid.
      rewrite Hparen.
      destruct (bool_decide_reflect (metric ∈ valid_metrics)); simpl;
        [by split; [left|]|].
      destruct (String.eqb_spec metric "count"); simpl;
        [by split; [right|]|].
      split; [done | by intros [? | ?]].
  - split; [|split].
    + split; [done|]. intros Hall.
      assert (x ∈ List.filter (Dimensions.metric_is_invalid valid_metrics)
                    metrics) as [Hin Hx]%elem_of_filter_bool
        by (rewrite Hfilter; apply list_elem_of_here).
      specialize (Hall x Hin). congruence.
    + intros metric Hin Hbad. eexists. split; [done|].
      assert (metric ∈ x :: xs) as Hmetric
        by (rewrite <- Hfilter; by apply elem_of_filter_bool).
      unfold Dimensions.metrics_error. split.
      * apply contains_in_left, contains_in_right, contains_in_right,
          contains_in_right, contains_in_left.
        by apply contains_join.
      * apply contains_in_left, contains_in_right, contains_in_left,
          contains_refl.
    + intros metric Hparen. unfold Dimensions.metric_is_invalid.
      rewrite Hparen.
      destruct (bool_decide_reflect (metric ∈ valid_metrics)); simpl;
        [by split; [left|]|].
      destruct (String.eqb_spec metric "count"); simpl;
        [by split; [right|]|].
      split; [done | by intros [? | ?]].
Qed.

Lemma metrics_are_checked_against_the_cache_witness :
  (Dimensions.validate_aggregation_metrics elements
     Examples.offline_describe
     {| Dimensions._valid_fields_cache :=
          {| Dimensions.facets := {["grants" := {["funders"]}]};
             Dimensions.filters := ∅;
             Dimensions.metrics := {["grants" := {["funding"]}]} |};
        Dimensions.described := [] |}
     "grants" (Some "funding, citations")).1
  <> Returns ().
Proof.
  set (w := {| Dimensions._valid_fields_cache :=
                 {| Dimensions.facets := {["grants" := {["funders"]}]};
                    Dimensions.filters := ∅;
                    Dimensions.metrics := {["grants" := {["funding"]}]} |};
               Dimensions.described := [] |}).
  destruct (metrics_are_checked_against_the_cache elements
              Examples.offline_describe w "grants" {["funders"]}
              {["funding"]} "funding, citations")
    as (_ & _ & Hmsg & _).
  - vm_compute; reflexivity.
  - vm_compute; reflexivity.
  - apply (non_empty_inhabited_L "funding"). set_solver.
  - discriminate.
  - destruct (Hmsg "citations") as (msg & -> & _).
    + vm_compute. apply list_elem_of_further, list_elem_of_here.
    + vm_compute; reflexivity.
    + discriminate.
Defined.

(** X14.  The argument of an aggregate function is never looked at: a metric
    [f(x)] with [f] one of [sum], [avg], [count], [min], [max], [median]
    passes validation whatever [x] is, valid metric or not. *)
Theorem aggregate_function_argument_is_not_checked
    set_iter describe w source valid_facets f inner :
  Dimensions.facets (Dimensions._valid_fields_cache w) !! source
    = Some valid_facets ->
  f ∈ Dimensions.aggregate_functions ->
  PyStr.contains "," inner = false ->
  Dimensions.validate_aggregation_metrics set_iter describe w source
    (Some (f +:+ "(" +:+ inner +:+ ")"))
  = (Returns (), w).
Proof.
  intros Hfacets Hf Hinner.
  set (metric := f +:+ "(" +:+ inner +:+ ")").
  assert (Dimensions.aggregate_functions = f :: [] \/ f <> EmptyString
          /\ PyStr.lstrip_by PyStr.isspace metric = metric
          /\ PyStr.contains "," f = false
          /\ PyStr.contains "(" f = false)
    as [Hno | (Hstr & Hlstrip & Hcomma & Hparen)].
  { right. unfold metric, Dimensions.aggregate_functions in *.
    repeat (apply elem_of_cons in Hf as [-> | Hf]);
      [repeat split; first [discriminate | reflexivity] ..
      | by apply elem_of_nil in Hf]. }
  { discriminate. }
  assert (PyStr.strip <$> PyStr.split "," metric = [metric]) as Hsplit.
  { rewrite split_without_separator.
    - cbn [fmap list_fmap]. f_equal. unfold PyStr.strip. rewrite Hlstrip.
      assert (metric = (f +:+ "(" +:+ inner) +:+ ")") as ->
        by (unfold metric;
            by rewrite (append_assoc f ("(" +:+ inner) ")"),
                 (append_assoc "(" inner ")")).
      by apply rstrip_by_last.
    - unfold metric. by rewrite !contains_char_append, Hinner, Hcomma. }
  assert (forall valid_metrics,
            Dimensions.metric_is_invalid valid_metrics metric = false)
    as Hvalid.
  { intros valid_metrics. unfold Dimensions.metric_is_invalid.
    assert (PyStr.contains "(" metric = true) as ->.
    { unfold metric. apply contains_in_right, contains_in_left,
        contains_refl. }
    assert (PyStr.split "(" metric !! 0%nat = Some f) as Hbase
      by apply (split_first_piece "("%char f (inner +:+ ")") Hparen).
    rewrite Hbase. cbn [default from_option id].
    by rewrite bool_decide_eq_true_2. }
  unfold Dimensions.validate_aggregation_metrics.
  assert (truthy_str (Some metric) = true) as ->.
  { unfold metric. by destruct f. }
  cbn [negb]. rewrite (fetch_source_metadata_cached _ _ _ _ Hfacets).
  destruct (bool_decide _); [done|].
  change (default "" (Some metric)) with metric.
  rewrite Hsplit. cbn [List.filter]. by rewrite Hvalid.
Qed.

Lemma aggregate_function_argument_is_not_checked_witness :
  Dimensions.validate_aggregation_metrics elements Examples.offline_describe
    {| Dimensions._valid_fields_cache :=
         {| Dimensions.facets := {["grants" := {["funders"]}]};
            Dimensions.filters := ∅;
            Dimensions.metrics := {["grants" := {["funding"]}]} |};
       Dimensions.described := [] |}
    "grants" (Some "sum(no_such_metric)")
  = (Returns (),
     {| Dimensions._valid_fields_cache :=
          {| Dimensions.facets := {["grants" := {["funders"]}]};
             Dimensions.filters := ∅;
             Dimensions.metrics := {["grants" := {["funding"]}]} |};
        Dimensions.described := [] |}).
Proof.
  apply (aggregate_function_argument_is_not_checked elements
           Examples.offline_describe _ "grants" {["funders"]} "sum"
           "no_such_metric").
  - vm_compute; reflexivity.
  - apply list_elem_of_here.
  - vm_compute; reflexivity.
Defined.

(** *** Aggregation *)

Lemma facet_error_names_facet set_iter source facet suggestions valid_facets :
  PyStr.contains facet
    (Dimensions.facet_error set_iter source facet suggestions valid_facets)
  = true.
Proof.
  unfold Dimensions.facet_error.
  apply contains_in_left, contains_in_right, contains_in_left, contains_refl.
Qed.

(** X15.  [aggregate_query] validates before it queries: with the facets of the
    source in the cache, and there are some, a facet that is not among them
    makes it raise the validation error, which names the facet, without a
    single query sent to the client; and so does, for a valid facet and
    with the metrics of the source in the cache, and there are some, a
    metrics string with a metric that fails the test of
    [validate_aggregation_metrics].  The metrics are checked only against
    a set that is not empty: with no metric cached for the source, the
    query is sent for a valid facet whatever the metrics string. *)
Theorem aggregate_query_validates_before_it_queries
    set_iter save_results describe client w source query_terms facet
    aggregate_by filters limit save valid_facets :
  Dimensions.facets (Dimensions._valid_fields_cache w) !! source
    = Some valid_facets ->
  valid_facets <> ∅ ->
  (facet ∉ valid_facets ->
   exists msg,
     Dimensions.aggregate_query set_iter save_results describe client w source
       query_terms facet aggregate_by filters limit save
     = (Raises (ValueError msg), w, [])
     /\ PyStr.contains facet msg = true)
  /\ (forall valid_metrics metrics_str metric,
        facet ∈ valid_facets ->
        Dimensions.metrics (Dimensions._valid_fields_cache w) !! source
          = Some valid_metrics ->
        valid_metrics <> ∅ ->
        aggregate_by = Some metrics_str ->
        metrics_str <> EmptyString ->
        metric ∈ PyStr.strip <$> PyStr.split "," metrics_str ->
        Dimensions.metric_is_invalid valid_metrics metric = true ->
        exists msg,
          Dimensions.aggregate_query set_iter save_results describe client w
            source query_terms facet aggregate_by filters limit save
          = (Raises (ValueError msg), w, [])
          /\ PyStr.contains metric msg = true)
  /\ (facet ∈ valid_facets ->
      default ∅ (Dimensions.metrics (Dimensions._valid_fields_cache w)
                   !! source) = ∅ ->
      (Dimensions.aggregate_query set_iter save_results describe client w
         source query_terms facet aggregate_by filters limit save).2
      = [Dimensions.aggregate_dsl source query_terms facet aggregate_by
           filters limit]).
Proof.
  intros Hfacets Hne.
  assert (Dimensions.validate_facet set_iter describe w source facet
          = (if bool_decide (facet ∈ valid_facets) then Returns ()
             else Raises (ValueError
                            (Dimensions.facet_error set_iter source facet
                               (Dimensions.suggestions_for set_iter facet
                                  valid_facets)
                               valid_facets)), w)) as Hvalidate.
  { unfold Dimensions.validate_facet.
    rewrite (fetch_source_metadata_cached _ _ _ _ Hfacets), Hfacets.
    change (default ∅ (Some valid_facets)) with valid_facets.
    rewrite (bool_decide_eq_false_2 (valid_facets = ∅)) by done.
    by destruct (bool_decide (facet ∈ valid_facets)). }
  unfold Dimensions.aggregate_query. rewrite Hvalidate. split; [|split].
  - intros Hfacet.
    rewrite (bool_decide_eq_false_2 (facet ∈ valid_facets)) by done.
    eexists. split; [done|]. apply facet_error_names_facet.
  - intros valid_metrics metrics_str metric Hfacet Hmetrics Hnem -> Hstr
      Hin Hbad.
    rewrite (bool_decide_eq_true_2 (facet ∈ valid_facets)) by done.
    assert (truthy_str (Some metrics_str) = true) as ->
      by (by destruct metrics_str).
    rewrite (validate_aggregation_metrics_cached _ _ _ _ _ _ _ Hfacets
               Hmetrics Hnem Hstr).
    assert (metric ∈ List.filter (Dimensions.metric_is_invalid valid_metrics)
                       (PyStr.strip <$> PyStr.split "," metrics_str))
      as Hmetric by (by apply elem_of_filter_bool).
    destruct (List.filter _ _) as [|x xs]; [by apply elem_of_nil in Hmetric|].
    eexists. split; [done|]. unfold Dimensions.metrics_error.
    apply contains_in_left, contains_in_right, contains_in_right,
      contains_in_right, contains_in_left.
    by apply contains_join.
  - intros Hfacet Hempty.
    rewrite (bool_decide_eq_true_2 (facet ∈ valid_facets)) by done.
    assert ((if truthy_str aggregate_by
             then Dimensions.validate_aggregation_metrics set_iter describe w source
                    aggregate_by
             else (Returns (), w)) = (Returns (), w)) as ->.
    { destruct (truthy_str aggregate_by) eqn:Htruthy; [|done].
      unfold Dimensions.validate_aggregation_metrics.
      rewrite Htruthy. cbn [negb].
      rewrite (fetch_source_metadata_cached _ _ _ _ Hfacets), Hempty.
      by rewrite bool_decide_eq_true_2. }
    destruct (client 0%nat _) as [result|e]; [|done].
    destruct (Dimensions.batch_data result); [done|].
    destruct save; [|done]. by destruct (save_results _ _ _).
Qed.

(** The publications source with three facets in the cache, asked to
    aggregate by a field that is no facet. *)
Lemma aggregate_query_validates_before_it_queries_witness :
  exists msg,
    Dimensions.aggregate_query elements Examples.save_to_tmp
      Examples.offline_describe (Examples.paged_client "Q" 10 2)
      {| Dimensions._valid_fields_cache :=
           {| Dimensions.facets :=
                {["publications" := {["year"; "funders"]}]};
              Dimensions.filters := ∅; Dimensions.metrics := ∅ |};
         Dimensions.described := [] |}
      "publications" "climate" "title" None None 20 false
    = (Raises (ValueError msg),
       {| Dimensions._valid_fields_cache :=
            {| Dimensions.facets :=
                 {["publications" := {["year"; "funders"]}]};
               Dimensions.filters := ∅; Dimensions.metrics := ∅ |};
          Dimensions.described := [] |}, [])
    /\ PyStr.contains "title" msg = true.
Proof.
  apply (aggregate_query_validates_before_it_queries elements
           Examples.save_to_tmp Examples.offline_describe
           (Examples.paged_client "Q" 10 2) _ "publications" "climate"
           "title" None None 20 false {["year"; "funders"]}).
  - vm_compute; reflexivity.
  - apply (non_empty_inhabited_L "year"). set_solver.
  - apply (bool_decide_unpack _). vm_compute. exact I.
Defined.

(** *** Schema discovery *)

(** Sets filled by a loop that adds at most one name for each entry. *)
Lemma foldl_collects {A} (step : gset string -> A -> gset string)
    (pick : A -> option string) :
  (forall acc a, step acc a = match pick a with
                              | Some name => acc ∪ {[name]}
                              | None => acc
                              end) ->
  forall entries acc name,
    name ∈ foldl step acc entries
    <-> name ∈ acc \/ exists a, a ∈ entries /\ pick a = Some name.
Proof.
  intros Hstep entries. induction entries as [|a entries IH]; intros acc name.
  - simpl. split; [by left|]. intros [? | (a & ?%elem_of_nil & _)]; done.
  - simpl. rewrite IH, Hstep. split.
    + intros [Hacc | (b & Hb & Hpick)].
      * destruct (pick a) as [picked|] eqn:Hpick; [|by left].
        apply elem_of_union in Hacc as [? | ->%elem_of_singleton];
          [by left|].
        right. exists a. split; [apply list_elem_of_here | done].
      * right. exists b. split; [by apply list_elem_of_further | done].
    + intros [Hacc | (b & [-> | Hb]%elem_of_cons & Hpick)].
      * left. destruct (pick a); [|done]. apply elem_of_union. by left.
      * left. rewrite Hpick. apply elem_of_union. right.
        by apply elem_of_singleton.
      * right. by exists b.
Qed.

(** X16.  A discovery that succeeds caches, for the source asked about, exactly
    the fields the service flags as facets, exactly those it flags as
    filters, and exactly the metrics it lists by a non-empty name; the
    entries of the other sources are left as they were. *)
Theorem discovery_caches_what_the_service_flags describe w source result :
  Dimensions.facets (Dimensions._valid_fields_cache w) !! source = None ->
  describe (length (Dimensions.described w)) ("describe source " +:+ source)
    = Returns result ->
  let cache :=
    Dimensions._valid_fields_cache
      (Dimensions._fetch_source_metadata describe w source) in
  (exists facets,
      Dimensions.facets cache !! source = Some facets
      /\ forall name,
           name ∈ facets
           <-> exists info,
                 (name, Some info) ∈ Dimensions.fields_data result
                 /\ Dimensions.is_facet info = true)
  /\ (exists filters,
        Dimensions.filters cache !! source = Some filters
        /\ forall name,
             name ∈ filters
             <-> exists info,
                   (name, Some info) ∈ Dimensions.fields_data result
                   /\ Dimensions.is_filter info = true)
  /\ (exists metrics,
        Dimensions.metrics cache !! source = Some metrics
        /\ forall name,
             name ∈ metrics
             <-> Dimensions.MetricStr name ∈ Dimensions.metrics_data result
                 \/ (name <> EmptyString
                     /\ Dimensions.MetricDict (Some name)
                          ∈ Dimensions.metrics_data result))
  /\ (forall other,
        other <> source ->
        Dimensions.facets cache !! other
          = Dimensions.facets (Dimensions._valid_fields_cache w) !! other
        /\ Dimensions.filters cache !! other
           = Dimensions.filters (Dimensions._valid_fields_cache w) !! other
        /\ Dimensions.metrics cache !! other
           = Dimensions.metrics (Dimensions._valid_fields_cache w) !! other).
Proof.
  intros Hmiss Hdescribe cache. subst cache.
  unfold Dimensions._fetch_source_metadata. rewrite Hmiss, Hdescribe.
  cbn [Dimensions._valid_fields_cache Dimensions.facets Dimensions.filters
       Dimensions.metrics].
  split; [|split; [|split]].
  - eexists. split; [by rewrite lookup_insert_eq|]. intros name.
    unfold Dimensions.facets_of.
    rewrite (foldl_collects _
               (fun entry : string * option Dimensions.FieldInfo =>
                  match entry.2 with
                  | Some info =>
                      if Dimensions.is_facet info then Some entry.1 else None
                  | None => None
                  end)).
    + split.
      * intros [?%elem_of_empty | ([field [info|]] & Hin & Hpick)];
          [done | | done]. simpl in Hpick.
        destruct (Dimensions.is_facet info) eqn:Hflag; [|done].
        injection Hpick as ->. by exists info.
      * intros (info & Hin & Hflag). right. exists (name, Some info).
        split; [done|]. simpl. by rewrite Hflag.
    + intros acc [field [info|]]; simpl; [|done].
      by destruct (Dimensions.is_facet info).
  - eexists. split; [by rewrite lookup_insert_eq|]. intros name.
    unfold Dimensions.filters_of.
    rewrite (foldl_collects _
               (fun entry : string * option Dimensions.FieldInfo =>
                  match entry.2 with
                  | Some info =>
                      if Dimensions.is_filter info then Some entry.1 else None
                  | None => None
                  end)).
    + split.
      * intros [?%elem_of_empty | ([field [info|]] & Hin & Hpick)];
          [done | | done]. simpl in Hpick.
        destruct (Dimensions.is_filter info) eqn:Hflag; [|done].
        injection Hpick as ->. by exists info.
      * intros (info & Hin & Hflag). right. exists (name, Some info).
        split; [done|]. simpl. by rewrite Hflag.
    + intros acc [field [info|]]; simpl; [|done].
      by destruct (Dimensions.is_filter info).
  - eexists. split; [by rewrite lookup_insert_eq|]. intros name.
    unfold Dimensions.metrics_of.
    rewrite (foldl_collects _
               (fun metric : Dimensions.Metric =>
                  match metric with
                  | Dimensions.MetricDict metric_name =>
                      if truthy_str metric_name then metric_name else None
                  | Dimensions.MetricStr metric => Some metric
                  | Dimensions.MetricOther => None
                  end)).
    + split.
      * intros [?%elem_of_empty | (metric & Hin & Hpick)]; [done|].
        destruct metric as [[metric_name|] | metric |]; simpl in Hpick;
          try done.
        -- destruct metric_name; [done|]. injection Hpick as <-.
           by right.
        -- injection Hpick as ->. by left.
      * intros [Hin | [Hname Hin]]; right.
        -- by exists (Dimensions.MetricStr name).
        -- exists (Dimensions.MetricDict (Some name)). split; [done|].
           by destruct name.
    + intros acc [[metric_name|] | metric |]; simpl; try done.
      by destruct metric_name.
  - intros other Hother. by rewrite !lookup_insert_ne.
Qed.

Lemma discovery_caches_what_the_service_flags_witness :
  Dimensions.facets
    (Dimensions._valid_fields_cache
       (Dimensions._fetch_source_metadata Examples.publications_describe
          Examples.empty_dimensions "publications"))
    !! "grants" = None.
Proof.
  destruct (discovery_caches_what_the_service_flags
              Examples.publications_describe Examples.empty_dimensions
              "publications"
              {| Dimensions.fields_data :=
                   [("year", Some {| Dimensions.is_facet := true;
                                     Dimensions.is_filter := true |});
                    ("research_orgs",
                     Some {| Dimensions.is_facet := true;
                             Dimensions.is_filter := true |});
                    ("funders", Some {| Dimensions.is_facet := true;
                                        Dimensions.is_filter := false |});
                    ("title", Some {| Dimensions.is_facet := false;
                                      Dimensions.is_filter := true |})];
                 Dimensions.metrics_data := [Dimensions.MetricStr "count"] |})
    as (_ & _ & _ & Hother).
  - vm_compute; reflexivity.
  - reflexivity.
  - destruct (Hother "grants") as [-> _]; [discriminate | reflexivity].
Defined.

(** X17.  The field names read off an error message of OpenAlex are the pieces
    between the separators with their blanks stripped, the empty ones left
    out: the set never holds the empty string. *)
Theorem collected_fields_are_the_stripped_pieces fields_str name :
  name ∈ OpenAlex.collect_fields fields_str
  <-> name <> EmptyString
      /\ exists piece, piece ∈ PyStr.split ", " fields_str
                       /\ PyStr.strip piece = name.
Proof.
  unfold OpenAlex.collect_fields.
  rewrite (foldl_collects _
             (fun field => if String.eqb (PyStr.strip field) ""
                           then None else Some (PyStr.strip field))).
  - split.
    + intros [?%elem_of_empty | (piece & Hin & Hpick)]; [done|].
      destruct (String.eqb_spec (PyStr.strip piece) ""); [done|].
      injection Hpick as <-. split; [done | by exists piece].
    + intros [Hname (piece & Hin & <-)]. right. exists piece.
      split; [done|]. by destruct (String.eqb_spec (PyStr.strip piece) "").
  - intros acc field. by destruct (String.eqb _ _).
Qed.

(** ** Cleaning for parquet, continued *)

(** Induction on a value through the lists and dictionaries inside it. *)
Lemma pyval_nested_ind (P : pyval -> Prop) :
  P VNone -> P VNaN -> (forall b, P (VBool b)) -> (forall n, P (VInt n)) ->
  (forall m e, P (VFloat m e)) -> (forall s, P (VStr s)) ->
  (forall items, Forall P items -> P (VList items)) ->
  (forall entries, Forall (fun kv : string * pyval => P kv.2) entries ->
                   P (VDict entries)) ->
  forall val, P val.
Proof.
  intros HNone HNaN HBool HInt HFloat HStr HList HDict.
  fix IH 1.
  intros [| |b|n|m e|s|items|entries];
    [exact HNone | exact HNaN | apply HBool | apply HInt | apply HFloat
    | apply HStr | |].
  - apply HList. induction items as [|item items IHitems]; constructor.
    + apply IH.
    + apply IHitems.
  - apply HDict. induction entries as [|[k v] entries IHentries]; constructor.
    + apply IH.
    + apply IHentries.
Qed.

Lemma clean_nested_no_empty_string (obj : pyval) :
  Common.has_empty_string (Dimensions.clean_nested_for_parquet obj) = false.
Proof.
  induction obj as [| |b|n|m e|s|items IH|entries IH]
    using pyval_nested_ind; try done.
  - simpl. by destruct (String.eqb s "") eqn:Hs; simpl; rewrite ?Hs.
  - simpl. induction IH as [|item items Hitem _ IHitems]; [done|].
    simpl. by rewrite Hitem, IHitems.
  - simpl. induction IH as [|[k v] entries Hentry _ IHentries]; [done|].
    simpl in *. by rewrite Hentry, IHentries.
Qed.

Lemma clean_nested_idempotent (obj : pyval) :
  Dimensions.clean_nested_for_parquet (Dimensions.clean_nested_for_parquet obj)
  = Dimensions.clean_nested_for_parquet obj.
Proof.
  induction obj as [| |b|n|m e|s|items IH|entries IH]
    using pyval_nested_ind; try done.
  - simpl. by destruct (String.eqb s "") eqn:Hs; simpl; rewrite ?Hs.
  - simpl. f_equal.
    induction IH as [|item items Hitem _ IHitems]; [done|].
    simpl. by rewrite Hitem, IHitems.
  - simpl. f_equal.
    induction IH as [|[k v] entries Hentry _ IHentries]; [done|].
    simpl in *. by rewrite Hentry, IHentries.
Qed.

(** X18.  [clean_nested_for_parquet] leaves no empty string at any depth, keeps
    the lengths of the lists and the keys of the dictionaries, and cleaning
    a second time changes nothing. *)
Theorem nested_cleaning_removes_every_empty_string (obj : pyval) :
  Common.has_empty_string (Dimensions.clean_nested_for_parquet obj) = false
  /\ Dimensions.clean_nested_for_parquet
       (Dimensions.clean_nested_for_parquet obj)
     = Dimensions.clean_nested_for_parquet obj
  /\ (forall items, obj = VList items ->
        exists cleaned,
          Dimensions.clean_nested_for_parquet obj = VList cleaned
          /\ length cleaned = length items)
  /\ (forall entries, obj = VDict entries ->
        exists cleaned,
          Dimensions.clean_nested_for_parquet obj = VDict cleaned
          /\ cleaned.*1 = entries.*1).
Proof.
  split; [apply clean_nested_no_empty_string|].
  split; [apply clean_nested_idempotent|]. split.
  - intros items ->. eexists. split; [done|]. by rewrite length_map.
  - intros entries ->. eexists. split; [done|].
    induction entries as [|[k v] entries IH]; [done|].
    simpl. f_equal. apply IH.
Qed.

Lemma dominant_type_is_a_shape (vals : list pyval) :
  let dominant := Common.dominant_type_of (Common.count_types vals) in
  dominant = "list" \/ dominant = "dict" \/ dominant = "primitive".
Proof.
  intros dominant. subst dominant.
  rewrite count_types_counts, dominant_type_cases
    by apply count_shape_nonneg.
  repeat case_match; auto.
Qed.

(** X19.  In an object column with a value that is not null, the OpenAlex helper
    keeps exactly the cells that have the shape counted as dominant and
    makes every other cell null: the cleaned column has as many cells, and
    each is null or of the dominant shape. *)
Theorem openalex_cleaned_column_has_one_shape (col : Common.Series) :
  Common.dtype_is_object col = true ->
  Common.dropna (Common.cells col) <> [] ->
  let dominant :=
    Common.dominant_type_of
      (Common.count_types (Common.dropna (Common.cells col))) in
  OpenAlex.clean_column col
  = (fun cell => if Common.shape_of dominant cell then cell else VNone)
      <$> Common.cells col
  /\ (forall cell, cell ∈ OpenAlex.clean_column col ->
                   cell = VNone \/ Common.shape_of dominant cell = true).
Proof.
  intros Hobject Hnonnull dominant.
  assert (OpenAlex.clean_column col
          = OpenAlex.clean_value dominant <$> Common.cells col) as ->.
  { unfold OpenAlex.clean_column. rewrite Hobject. cbn [negb].
    by destruct (Common.dropna (Common.cells col)). }
  assert (forall cell,
            OpenAlex.clean_value dominant cell
            = if Common.shape_of dominant cell then cell else VNone)
    as Hvalue.
  { intros cell. unfold OpenAlex.clean_value, Common.shape_of.
    destruct (dominant_type_is_a_shape (Common.dropna (Common.cells col)))
      as [Hd | [Hd | Hd]]; fold dominant in Hd; rewrite Hd; simpl;
      destruct cell as [| |b|n|m e|s|[|item items]|[|entry entries]];
      try done; simpl; by destruct (String.eqb s ""). }
  split.
  - apply list_fmap_ext. intros _ cell _. apply Hvalue.
  - intros cell (original & -> & _)%list_elem_of_fmap. rewrite Hvalue.
    destruct (Common.shape_of dominant original) eqn:Hshape; auto.
Qed.

Lemma openalex_cleaned_column_has_one_shape_witness :
  OpenAlex.clean_column
    {| Common.dtype_is_object := true;
       Common.cells := [VList [VInt 1]; VStr "a"; VList [VInt 2]; VNone] |}
  = [VList [VInt 1]; VNone; VList [VInt 2]; VNone].
Proof.
  apply (openalex_cleaned_column_has_one_shape
           {| Common.dtype_is_object := true;
              Common.cells :=
                [VList [VInt 1]; VStr "a"; VList [VInt 2]; VNone] |}).
  - reflexivity.
  - discriminate.
Defined.

(** X20.  In an object column with a value that is not null, the Dimensions
    helper keeps the cells that have the shape counted as dominant, lists
    and dictionaries cleaned inside, and makes every other cell null: the
    cleaned column has as many cells, and each is null or of the dominant
    shape and holds no empty string at any depth. *)
Theorem dimensions_cleaned_column_has_one_shape (col : Common.Series) :
  Common.dtype_is_object col = true ->
  Common.dropna (Common.cells col) <> [] ->
  let dominant :=
    Common.dominant_type_of
      (Common.count_types (Common.dropna (Common.cells col))) in
  Dimensions.clean_column col
  = (fun cell =>
       if Common.shape_of dominant cell
       then Dimensions.clean_nested_for_parquet cell
       else VNone) <$> Common.cells col
  /\ (forall cell, cell ∈ Dimensions.clean_column col ->
        (cell = VNone \/ Common.shape_of dominant cell = true)
        /\ Common.has_empty_string cell = false).
Proof.
  intros Hobject Hnonnull dominant.
  assert (Dimensions.clean_column col
          = Dimensions.clean_value dominant <$> Common.cells col) as ->.
  { unfold Dimensions.clean_column. rewrite Hobject. cbn [negb].
    by destruct (Common.dropna (Common.cells col)). }
  assert (forall cell,
            Dimensions.clean_value dominant cell
            = if Common.shape_of dominant cell
              then Dimensions.clean_nested_for_parquet cell
              else VNone)
    as Hvalue.
  { intros cell. unfold Dimensions.clean_value, Common.shape_of.
    destruct (dominant_type_is_a_shape (Common.dropna (Common.cells col)))
      as [Hd | [Hd | Hd]]; fold dominant in Hd; rewrite Hd; simpl;
      destruct cell as [| |b|n|m e|s|[|item items]|[|entry entries]];
      try done; simpl; by destruct (String.eqb s ""). }
  assert (forall cell,
            Common.shape_of dominant cell = true ->
            Dimensions.clean_nested_for_parquet cell = VNone
            \/ Common.shape_of dominant
                 (Dimensions.clean_nested_for_parquet cell) = true)
    as Hshape.
  { intros cell. unfold Common.shape_of.
    destruct (dominant_type_is_a_shape (Common.dropna (Common.cells col)))
      as [Hd | [Hd | Hd]]; fold dominant in Hd; rewrite Hd; simpl;
      destruct cell as [| |b|n|m e|s|[|item items]|[|[k v] entries]];
      try done; simpl; auto.
    destruct (String.eqb s "") eqn:Hs; simpl; rewrite ?Hs; auto. }
  split.
  - apply list_fmap_ext. intros _ cell _. apply Hvalue.
  - intros cell (original & -> & _)%list_elem_of_fmap. rewrite Hvalue.
    destruct (Common.shape_of dominant original) eqn:Horiginal.
    + split; [by apply Hshape | apply clean_nested_no_empty_string].
    + split; [by left | done].
Qed.

Lemma dimensions_cleaned_column_has_one_shape_witness :
  Dimensions.clean_column
    {| Common.dtype_is_object := true;
       Common.cells :=
         [VList [VStr ""; VInt 1]; VStr "a"; VList [VInt 2]; VNone] |}
  = [VList [VNone; VInt 1]; VNone; VList [VInt 2]; VNone].
Proof.
  apply (dimensions_cleaned_column_has_one_shape
           {| Common.dtype_is_object := true;
              Common.cells :=
                [VList [VStr ""; VInt 1]; VStr "a"; VList [VInt 2];
                 VNone] |}).
  - reflexivity.
  - discriminate.
Defined.

(** X21.  Cleaning keeps the frame as it is laid out: the same columns under the
    same names in the same order, each with as many cells as before, in
    both helpers; a column that is not an object column, or has only nulls,
    is not touched. *)
Theorem cleaning_keeps_the_frame_layout (df : list (string * Common.Series)) :
  (OpenAlex.clean_for_parquet df).*1 = df.*1
  /\ (Dimensions.clean_for_parquet df).*1 = df.*1
  /\ (forall i name col,
        df !! i = Some (name, col) ->
        exists cleaned cleaned',
          OpenAlex.clean_for_parquet df !! i = Some (name, cleaned)
          /\ Dimensions.clean_for_parquet df !! i = Some (name, cleaned')
          /\ length cleaned = length (Common.cells col)
          /\ length cleaned' = length (Common.cells col)
          /\ (Common.dtype_is_object col = false
              \/ Common.dropna (Common.cells col) = [] ->
              cleaned = Common.cells col /\ cleaned' = Common.cells col)).
Proof.
  split; [|split].
  - unfold OpenAlex.clean_for_parquet. rewrite <- list_fmap_compose.
    apply list_fmap_ext. by intros _ [name col] _.
  - unfold Dimensions.clean_for_parquet. rewrite <- list_fmap_compose.
    apply list_fmap_ext. by intros _ [name col] _.
  - intros i name col Hi.
    exists (OpenAlex.clean_column col), (Dimensions.clean_column col).
    unfold OpenAlex.clean_for_parquet, Dimensions.clean_for_parquet.
    rewrite !list_lookup_fmap, Hi. split; [done|]. split; [done|].
    unfold OpenAlex.clean_column, Dimensions.clean_column.
    destruct (Common.dtype_is_object col); cbn [negb].
    + destruct (Common.dropna (Common.cells col)).
      * repeat split; done.
      * rewrite !length_fmap. split; [done|]. split; [done|].
        by intros [? | ?].
    + repeat split; done.
Qed.

(** ** Quoting of affiliation text *)

(** X22.  In the text [extract_affiliations] puts between the quotes of its query,
    every double quote stands right after a backslash; a text without a
    double quote is passed on as it is, and each double quote makes the
    text one character longer. *)
Theorem escaped_quotes_follow_a_backslash (text : string) :
  (forall i,
     String.get i (Dimensions.escape_quotes text)
       = Some (Ascii.ascii_of_nat 34) ->
     exists j,
       i = S j
       /\ String.get j (Dimensions.escape_quotes text)
          = Some (Ascii.ascii_of_nat 92))
  /\ (PyStr.contains PyStr.dquote text = false ->
      Dimensions.escape_quotes text = text)
  /\ (String.length text <= String.length (Dimensions.escape_quotes text)
      <= 2 * String.length text)%nat.
Proof.
  split; [|split].
  - induction text as [|c text IH]; intros i; [by destruct i|].
    cbn [Dimensions.escape_quotes].
    destruct (Ascii.eqb_spec c (Ascii.ascii_of_nat 34)) as [-> | Hc].
    + destruct i as [|[|i]]; [discriminate | by exists 0%nat |].
      cbn [String.get]. intros (j & -> & Hj)%IH. by exists (S (S j)).
    + destruct i as [|i]; cbn [String.get]; [by intros [= ->]|].
      intros (j & -> & Hj)%IH. by exists (S j).
  - induction text as [|c text IH]; [done|].
    rewrite contains_unfold. intros [Hp Hrest]%orb_false_elim.
    cbn [Dimensions.escape_quotes].
    destruct (Ascii.eqb_spec c (Ascii.ascii_of_nat 34)) as [-> | Hc].
    + unfold PyStr.dquote in Hp. rewrite prefix_char in Hp.
      by destruct (Ascii.ascii_dec _ _).
    + by rewrite IH.
  - induction text as [|c text IH]; [done|].
    cbn [Dimensions.escape_quotes].
    destruct (Ascii.eqb c (Ascii.ascii_of_nat 34)); simpl; lia.
Qed.

(** ** The progress tracker *)

Section Tracker.

Import RichLogger.

Lemma prefix_of_append (a b v : string) :
  String.prefix (a +:+ b) v = true -> String.prefix a v = true.
Proof.
  revert v; induction a as [|c a IH]; intros [|d v]; simpl; try done.
  destruct (Ascii.ascii_dec c d); [apply IH | done].
Qed.

(** A status the methods write falls under exactly one of the four counts. *)
Lemma known_status_counts_once (v : string) :
  known_status v ->
  len (filter (fun v => v = "existing") [v])
  + len (filter (fun v => v = "processing") [v])
  + len (filter (fun v => v = "completed") [v])
  + len (filter (fun v => String.prefix "failed" v = true) [v])
  = 1.
Proof.
  intros [-> | [-> | [-> | Hfailed]]]; [done | done | done |].
  pose proof (prefix_of_append "failed" ": " v Hfailed) as Hprefix.
  rewrite (filter_cons_True (fun v => String.prefix "failed" v = true))
    by done.
  rewrite !filter_cons_False; [done | | |]; by intros ->.
Qed.

Lemma known_statuses_add_up (vs : list string) :
  Forall known_status vs ->
  len (filter (fun v => v = "existing") vs)
  + len (filter (fun v => v = "processing") vs)
  + len (filter (fun v => v = "completed") vs)
  + len (filter (fun v => String.prefix "failed" v = true) vs)
  = len vs.
Proof.
  induction 1 as [|v vs Hv _ IH]; [done|].
  pose proof (known_status_counts_once v Hv) as Hone.
  change (v :: vs) with ([v] ++ vs). rewrite !filter_app. unfold len in *.
  rewrite !length_app. change (length [v]) with 1%nat. lia.
Qed.

Lemma tracked_init total : tracked (__init__ total).
Proof.
  unfold tracked, __init__; cbn [item_status item_progress failed_items].
  split; [|split]; intros k; intros; by rewrite lookup_empty in *.
Qed.

Lemma tracked_call self c : tracked self -> tracked (call self c).
Proof.
  intros (Hknown & Hfailed & Hprogress).
  assert (forall (m : gmap string string) item_id status,
            (forall k v, m !! k = Some v -> known_status v) ->
            known_status status ->
            forall k v, <[item_id := status]> m !! k = Some v ->
                        known_status v) as Hset.
  { intros m item_id status Hm Hstatus k v.
    destruct (decide (k = item_id)) as [-> | Hk].
    - rewrite lookup_insert_eq. by intros [= <-].
    - rewrite lookup_insert_ne by done. apply Hm. }
  destruct c as [item_id index | item_id | item_id | item_id current total
                | item_id | item_id error];
    unfold tracked, call, set_index, set_existing, set_processing,
      update_progress, set_completed, set_failed;
    cbn [item_status item_progress failed_items].
  - done.
  - split; [|split].
    + apply Hset; [done | by left].
    + intros k v. destruct (decide (k = item_id)) as [-> | Hk].
      * rewrite lookup_insert_eq. by intros [= <-].
      * rewrite lookup_insert_ne by done. apply Hfailed.
    + intros k. destruct (decide (k = item_id)) as [-> | Hk].
      * rewrite lookup_insert_eq. by intros [= ?].
      * rewrite lookup_insert_ne by done. apply Hprogress.
  - split; [|split].
    + apply Hset; [done | by right; left].
    + intros k v. destruct (decide (k = item_id)) as [-> | Hk].
      * rewrite lookup_insert_eq. by intros [= <-].
      * rewrite lookup_insert_ne by done. apply Hfailed.
    + intros k. destruct (decide (k = item_id)) as [-> | Hk].
      * rewrite !lookup_insert_eq. by eexists.
      * rewrite !lookup_insert_ne by done. apply Hprogress.
  - split; [done|]. split; [done|].
    intros k Hk. destruct (decide (k = item_id)) as [-> | Hne].
    + rewrite lookup_insert_eq. by eexists.
    + rewrite lookup_insert_ne by done. by apply Hprogress.
  - split; [|split].
    + apply Hset; [done | by right; right; left].
    + intros k v. destruct (decide (k = item_id)) as [-> | Hk].
      * rewrite lookup_insert_eq. by intros [= <-].
      * rewrite lookup_insert_ne by done. apply Hfailed.
    + intros k. destruct (decide (k = item_id)) as [-> | Hk].
      * rewrite lookup_insert_eq. by intros [= ?].
      * rewrite lookup_insert_ne by done. apply Hprogress.
  - split; [|split].
    + apply Hset; [done|]. do 3 right.
      apply (prefix_append "failed: " "failed: "), prefix_refl.
    + intros k v. rewrite fmap_app.
      destruct (decide (k = item_id)) as [-> | Hk].
      * intros _ _. apply elem_of_app. right. apply list_elem_of_here.
      * rewrite lookup_insert_ne by done. intros Hv Hp.
        apply elem_of_app. left. by apply (Hfailed k v).
    + intros k. destruct (decide (k = item_id)) as [-> | Hk].
      * rewrite lookup_insert_eq. by intros [= Hv].
      * rewrite lookup_insert_ne by done. apply Hprogress.
Qed.

Lemma tracked_calls total cs : tracked (calls (__init__ total) cs).
Proof.
  unfold calls. generalize (tracked_init total).
  generalize (__init__ total). induction cs as [|c cs IH]; intros self Hself;
    [done|].
  simpl. by apply IH, tracked_call.
Qed.

End Tracker.

Lemma length_filter_snd {A B} (P : B -> Prop) `{forall x, Decision (P x)}
    (l : list (A * B)) :
  length (filter P l.*2) = length (filter (fun kv => P kv.2) l).
Proof.
  induction l as [|[k v] l IH]; [done|].
  change (((k, v) :: l).*2) with (v :: l.*2). rewrite !filter_cons.
  cbn [snd]. destruct (decide (P v)); simpl; by rewrite IH.
Qed.

(** X23.  Whatever calls the threads have made, every item with a status is
    counted once as existing, processing, completed or failed: the four
    counts add up to the number of items with a status, and the processed
    and the processing items together make up all of them. *)
Theorem tracker_counts_add_up (total : Z) (cs : list RichLogger.Call) :
  let self := RichLogger.calls (RichLogger.__init__ total) cs in
  RichLogger.existing_count self + RichLogger.processing_count self
  + RichLogger.completed_count self + RichLogger.failed_count self
  = Z.of_nat (size (RichLogger.item_status self))
  /\ RichLogger.processed_count self + RichLogger.processing_count self
     = Z.of_nat (size (RichLogger.item_status self)).
Proof.
  intros self. destruct (tracked_calls total cs) as (Hknown & _ & _).
  fold self in Hknown.
  assert (Forall RichLogger.known_status (RichLogger.values self)) as Hall.
  { apply Forall_forall. intros v ([k v'] & -> & Hin)%list_elem_of_fmap.
    apply elem_of_map_to_list in Hin. by apply (Hknown k). }
  pose proof (known_statuses_add_up _ Hall) as Hsum.
  assert (len (RichLogger.values self)
          = Z.of_nat (size (RichLogger.item_status self))) as Hsize.
  { unfold len, RichLogger.values.
    by rewrite length_fmap, length_map_to_list. }
  unfold RichLogger.processed_count, RichLogger.existing_count,
    RichLogger.processing_count, RichLogger.completed_count,
    RichLogger.failed_count.
  split; lia.
Qed.

(** X24.  Whatever calls the threads have made, every item whose status is a
    failure is listed among the failed items, so the summary never lists
    fewer failures than it counts. *)
Theorem failed_items_cover_the_failed_count (total : Z)
    (cs : list RichLogger.Call) :
  let self := RichLogger.calls (RichLogger.__init__ total) cs in
  RichLogger.failed_count self <= len (RichLogger.failed_items self)
  /\ (forall item_id status,
        RichLogger.item_status self !! item_id = Some status ->
        String.prefix "failed" status = true ->
        exists error, (item_id, error) ∈ RichLogger.failed_items self).
Proof.
  intros self. destruct (tracked_calls total cs) as (_ & Hfailed & _).
  fold self in Hfailed. split.
  - unfold RichLogger.failed_count, RichLogger.values, len.
    rewrite length_filter_snd.
    rewrite <- (length_fmap fst (filter _ _)),
      <- (length_fmap fst (RichLogger.failed_items self)).
    apply inj_le, submseteq_length, NoDup_submseteq.
    + apply (sublist_NoDup _ (map_to_list (RichLogger.item_status self)).*1);
        [apply NoDup_fst_map_to_list|].
      apply fmap_sublist, sublist_filter.
    + intros k ([k' v] & -> & [Hv Hin]%list_elem_of_filter)%list_elem_of_fmap.
      apply elem_of_map_to_list in Hin. by apply (Hfailed k' v).
  - intros item_id status Hstatus Hprefix.
    apply Hfailed in Hstatus; [|done].
    apply list_elem_of_fmap in Hstatus as ([k error] & -> & Hin).
    by exists error.
Qed.

(** Whatever calls the threads have made, the list [active] of
    [_create_progress_table] holds the items that are being processed. *)
Lemma active_items_are_processing (total : Z)
    (cs : list RichLogger.Call) :
  let self := RichLogger.calls (RichLogger.__init__ total) cs in
  len (RichLogger.active self) = RichLogger.processing_count self
  /\ (forall item_id,
        RichLogger.item_status self !! item_id = Some "processing"
        <-> exists progress index,
              (item_id, progress, index) ∈ RichLogger.active self).
Proof.
  intros self. destruct (tracked_calls total cs) as (_ & _ & Hprogress).
  fold self in Hprogress.
  set (busy := fun entry : string * (Z * Z) =>
                 RichLogger.item_status self !! entry.1 = Some "processing").
  set (rows := filter busy (map_to_list (RichLogger.item_progress self))).
  assert (forall item_id,
            item_id ∈ rows.*1
            <-> RichLogger.item_status self !! item_id = Some "processing")
    as Hrows.
  { intros item_id. unfold rows. split.
    - by intros ([k v] & -> & [Hbusy _]%list_elem_of_filter)%list_elem_of_fmap.
    - intros Hstatus. destruct (Hprogress _ Hstatus) as [progress Hp].
      apply list_elem_of_fmap. exists (item_id, progress). split; [done|].
      apply list_elem_of_filter. split; [done|].
      by apply elem_of_map_to_list. }
  split.
  - unfold RichLogger.active, RichLogger.processing_count,
      RichLogger.values, len. fold busy rows. rewrite length_fmap.
    rewrite length_filter_snd.
    rewrite <- (length_fmap fst rows), <- (length_fmap fst (filter _ _)).
    f_equal. apply Permutation_length, NoDup_Permutation.
    + apply (sublist_NoDup _ (map_to_list (RichLogger.item_progress self)).*1);
        [apply NoDup_fst_map_to_list|].
      apply fmap_sublist, sublist_filter.
    + apply (sublist_NoDup _ (map_to_list (RichLogger.item_status self)).*1);
        [apply NoDup_fst_map_to_list|].
      apply fmap_sublist, sublist_filter.
    + intros item_id. rewrite Hrows. split.
      * intros Hstatus. apply list_elem_of_fmap.
        exists (item_id, "processing"). split; [done|].
        apply list_elem_of_filter. split; [done|].
        by apply elem_of_map_to_list.
      * intros ([k v] & -> & [Hv Hin]%list_elem_of_filter)%list_elem_of_fmap.
        apply elem_of_map_to_list in Hin. simpl in *. by subst v.
  - intros item_id. rewrite <- Hrows. unfold RichLogger.active.
    fold busy rows. split.
    + intros ([k progress] & -> & Hin)%list_elem_of_fmap.
      exists progress,
        (default 0 (RichLogger.item_index self !! k)).
      apply list_elem_of_fmap. by exists (k, progress).
    + intros (progress & index
              & ([k p] & [= -> -> ->] & Hin)%list_elem_of_fmap).
      apply list_elem_of_fmap. by exists (k, p).
Qed.

(** The items of [active] are distinct. *)
Lemma active_items_distinct (self : RichLogger.RichProgressTracker) :
  NoDup ((fun item : string * (Z * Z) * Z => item.1.1)
           <$> RichLogger.active self).
Proof.
  unfold RichLogger.active. rewrite <- list_fmap_compose.
  apply (sublist_NoDup _ (map_to_list (RichLogger.item_progress self)).*1);
    [apply NoDup_fst_map_to_list|].
  apply fmap_sublist, sublist_filter.
Qed.

(** X25.  Whatever calls the threads have made, the table of active
    operations is the placeholder row alone when no item is being
    processed, and otherwise one row for each item being processed, each
    such item once, in the order of their indices, and no other row: the
    table has as many rows as items are being processed, and one row when
    there is none. *)
Theorem active_rows_are_the_processing_items (total : Z)
    (cs : list RichLogger.Call) :
  let self := RichLogger.calls (RichLogger.__init__ total) cs in
  let items := RichLogger.sorted_active self in
  RichLogger._create_progress_table self
  = (if bool_decide (RichLogger.processing_count self = 0)
     then [RichLogger.NoActiveRow]
     else RichLogger.item_row self <$> items)
  /\ len (RichLogger._create_progress_table self)
     = Z.max 1 (RichLogger.processing_count self)
  /\ len items = RichLogger.processing_count self
  /\ (forall item_id,
        RichLogger.item_status self !! item_id = Some "processing"
        <-> exists progress index, (item_id, progress, index) ∈ items)
  /\ NoDup ((fun item : string * (Z * Z) * Z => item.1.1) <$> items)
  /\ StronglySorted (fun x y : string * (Z * Z) * Z => x.2 <= y.2) items
  /\ Permutation items (RichLogger.active self).
Proof.
  intros self items.
  destruct (active_items_are_processing total cs) as [Hcount Hitems].
  fold self in Hcount, Hitems.
  assert (Permutation items (RichLogger.active self)) as Hperm
    by apply merge_sort_Permutation.
  assert (len items = RichLogger.processing_count self) as Hlen.
  { rewrite <- Hcount. unfold len. by rewrite Hperm. }
  assert (RichLogger._create_progress_table self
          = (if bool_decide (RichLogger.processing_count self = 0)
             then [RichLogger.NoActiveRow]
             else RichLogger.item_row self <$> items)) as Htable.
  { unfold RichLogger._create_progress_table. fold items.
    rewrite <- Hlen. destruct items as [|item rest]; [done|].
    rewrite bool_decide_eq_false_2; [by rewrite app_nil_r|].
    unfold len; simpl; lia. }
  split; [done|]. split; [|split; [done|split; [|split; [|split; [|done]]]]].
  - rewrite Htable.
    destruct (bool_decide_reflect (RichLogger.processing_count self = 0))
      as [Hzero | Hsome].
    + rewrite Hzero. done.
    + unfold len in *. rewrite length_fmap. lia.
  - intros item_id. rewrite Hitems.
    split; intros (progress & index & Hin); exists progress, index.
    + by rewrite Hperm.
    + by rewrite <- Hperm.
  - rewrite Hperm. apply active_items_distinct.
  - assert (Transitive RichLogger.index_le) as Htrans
      by (intros x y z; unfold RichLogger.index_le; lia).
    assert (Total RichLogger.index_le) as Htotal
      by (intros x y; unfold RichLogger.index_le; lia).
    apply (StronglySorted_merge_sort RichLogger.index_le).
Qed.

(** A tracker no call was made on shows the placeholder row alone; with two
    items being processed and one completed, the table has the two rows, in
    the order of the indices. *)
Example progress_table_rows :
  RichLogger._create_progress_table (RichLogger.__init__ 5)
  = [RichLogger.NoActiveRow]
  /\ RichLogger._create_progress_table
       (RichLogger.calls (RichLogger.__init__ 5)
          [RichLogger.SetIndex "a" 2; RichLogger.SetProcessing "a";
           RichLogger.SetIndex "b" 1; RichLogger.SetProcessing "b";
           RichLogger.SetIndex "c" 3; RichLogger.SetProcessing "c";
           RichLogger.UpdateProgress "a" 10 40; RichLogger.SetCompleted "c"])
     = [RichLogger.ItemRow "1/5" "b" 0 0; RichLogger.ItemRow "2/5" "a" 10 40].
Proof. split; vm_compute; reflexivity. Qed.

Lemma string_length_append (a b : string) :
  String.length (a +:+ b) = (String.length a + String.length b)%nat.
Proof. induction a as [|c a IH]; simpl; [done | by rewrite IH]. Qed.

(** X26.  The names shown in the two tables fit their columns: at most 20
    characters in the table of active operations and at most 17 in the
    status table, a name that fits being shown in full. *)
Theorem displayed_names_fit (item_id : string) :
  (String.length (RichLogger.item_display item_id) <= 20)%nat
  /\ (String.length (RichLogger.format_name item_id) <= 17)%nat
  /\ ((String.length item_id <= 20)%nat ->
      RichLogger.item_display item_id = item_id)
  /\ ((String.length item_id <= 17)%nat ->
      RichLogger.format_name item_id = item_id).
Proof.
  unfold RichLogger.item_display, RichLogger.format_name.
  assert (forall n, String.length (PyStr.take_chars n item_id +:+ "..")
                    = (Nat.min n (String.length item_id) + 2)%nat) as Hcut.
  { intros n. by rewrite string_length_append, take_chars_length. }
  destruct (Z.ltb_spec 20 (Z.of_nat (String.length item_id)));
    destruct (Z.ltb_spec 17 (Z.of_nat (String.length item_id)));
    rewrite ?Hcut; repeat split; intros; try done; lia.
Qed.
